(** * django-timetracker: calendar utilities, AJAX handlers and reports

    A shallow embedding of
      - timetracker/utils/calendar_utils.py  (pad, parse_time, validate_time,
        gen_calendar, ajax_add_entry, ajax_change_entry, ajax_delete_entry,
        mass_holidays),
      - timetracker/views.py                 (ajax),
      - reporting/views.py                   (ot_by_month, ot_by_year,
        holidays_for_yearmonth),
      - tracker/tests.py                     (the literal scenarios of the
        test-suite),
    together with the properties the specification states about them.

    Python values are modelled as follows: [int] is [Z]; text is [string],
    read as a sequence of code points below 256 (what Django hands over
    and what the table stores is [unicode]; code points from 256 on are
    outside the model); [None] is the [None] of an option; a raised
    exception is the [Raise] branch of [result]; the database is a list of
    rows threaded through the handlers.  The interpreter is CPython 2.7,
    which the sources need. *)

From Stdlib Require Import ZArith List String Ascii Bool Lia Arith.
From Stdlib Require Import SpecFloat Permutation.
Import ListNotations.

Local Open Scope Z_scope.
Local Open Scope string_scope.

(* ===================================================================== *)
(** * Python preliminaries *)
(* ===================================================================== *)

(** MySQL's error number for a violated unique key (views.py line 19,
    utils.database_errors). *)
Definition DUPLICATE_ENTRY : Z := 1062.
(** MySQL's error number for NULL in a NOT NULL column. *)
Definition BAD_NULL : Z := 1048.

(** The exceptions the modelled code raises or catches. *)
Inductive exn : Type :=
| Http404
| ValueError
| OverflowError
| UnicodeEncodeError
| AttributeError
| TypeError
| DoesNotExist
| MultipleObjectsReturned
| ValidationError
| IntegrityError (code : Z) (msg : string)
| Exception (msg : string).

Inductive result (A : Type) : Type :=
| Ok (a : A)
| Raise (e : exn).
Arguments Ok {A} a.
Arguments Raise {A} e.

Definition bind {A B : Type} (r : result A) (k : A -> result B) : result B :=
  match r with
  | Ok a => k a
  | Raise e => Raise e
  end.

Declare Scope py_scope.
Delimit Scope py_scope with py.
Notation "x <- c ;; k" := (bind c (fun x => k))
  (at level 61, c at next level, right associativity) : py_scope.
Notation "' p <- c ;; k" := (bind c (fun x => match x with p => k end))
  (at level 61, p pattern, c at next level, right associativity) : py_scope.
Local Open Scope py_scope.

Fixpoint mapM {A B : Type} (f : A -> result B) (l : list A) : result (list B) :=
  match l with
  | [] => Ok []
  | a :: l' => b <- f a ;; bs <- mapM f l' ;; Ok (b :: bs)
  end.

(** ** Characters and strings *)

Definition dq : string := String (ascii_of_nat 34) EmptyString.
Definition nl : string := String (ascii_of_nat 10) EmptyString.
Definition tab : string := String (ascii_of_nat 9) EmptyString.

(** [unicode.isspace] on the code points below 256: \t \n \v \f \r, the
    separators 0x1C-0x1F, the space, NEL (0x85) and the no-break space
    (0xA0).  These are the blanks [int] drops around a number. *)
Definition is_space (c : ascii) : bool :=
  let n := nat_of_ascii c in
  (n =? 32)%nat || ((9 <=? n)%nat && (n <=? 13)%nat)
  || ((28 <=? n)%nat && (n <=? 31)%nat) || (n =? 133)%nat || (n =? 160)%nat.

Fixpoint lstrip (l : list ascii) : list ascii :=
  match l with
  | c :: l' => if is_space c then lstrip l' else l
  | [] => []
  end.

Definition strip (l : list ascii) : list ascii :=
  rev (lstrip (rev (lstrip l))).

Definition digit_of (c : ascii) : option Z :=
  let n := Z.of_nat (nat_of_ascii c) in
  if ((48 <=? n) && (n <=? 57))%Z then Some (n - 48) else None.

Fixpoint digits_value (acc : Z) (l : list ascii) : option Z :=
  match l with
  | [] => Some acc
  | c :: l' =>
      match digit_of c with
      | Some d => digits_value (10 * acc + d) l'
      | None => None
      end
  end.

(** [int(s)] on a [unicode] string: surrounding blanks are dropped, one
    sign is allowed, at least one decimal digit must follow; anything else
    is a [ValueError].  Below 256 the decimal digits are 0-9. *)
Definition py_int (s : string) : result Z :=
  let body := strip (list_ascii_of_string s) in
  let '(sign, ds) :=
    match body with
    | "-"%char :: r => (-1, r)
    | "+"%char :: r => (1, r)
    | _ => (1, body)
    end in
  match ds with
  | [] => Raise ValueError
  | _ :: _ =>
      match digits_value 0 ds with
      | Some v => Ok (sign * v)
      | None => Raise ValueError
      end
  end.

(** [s.split(sep)] for a one-character separator. *)
Fixpoint split (sep : ascii) (s : string) : list string :=
  match s with
  | EmptyString => [EmptyString]
  | String c s' =>
      if Ascii.eqb c sep then EmptyString :: split sep s'
      else match split sep s' with
           | hd :: tl => String c hd :: tl
           | [] => [String c EmptyString]
           end
  end.

(** [sep.join(parts)]. *)
Fixpoint join (sep : string) (parts : list string) : string :=
  match parts with
  | [] => EmptyString
  | [p] => p
  | p :: rest => p ++ sep ++ join sep rest
  end.

(** [str(n)] for an integer. *)
Definition digit_char (d : Z) : ascii := ascii_of_nat (48 + Z.to_nat d).

Fixpoint str_pos_aux (fuel : nat) (n : Z) (acc : string) : string :=
  match fuel with
  | O => acc
  | S fuel' =>
      let acc' := String (digit_char (n mod 10)) acc in
      if (n <? 10)%Z then acc' else str_pos_aux fuel' (n / 10) acc'
  end.

Definition str_nonneg (n : Z) : string :=
  str_pos_aux (S (Z.to_nat (Z.log2 n))) n EmptyString.

Definition str_Z (n : Z) : string :=
  if (n <? 0)%Z then "-" ++ str_nonneg (- n) else str_nonneg n.

(** [s * k] for a one-character string. *)
Fixpoint repeat_string (s : string) (k : nat) : string :=
  match k with
  | O => EmptyString
  | S k' => s ++ repeat_string s k'
  end.

(** calendar_utils.py, [pad]: left-pads [str(string)] with [padchr] up to
    [amount] characters. *)
Definition pad_with (string : string) (padchr : String.string) (amount : nat)
  : String.string :=
  if (String.length string <? amount)%nat
  then repeat_string padchr (amount - String.length string) ++ string
  else string.

Definition pad (string : String.string) : String.string := pad_with string "0" 2.

(** [s[0:5]]. *)
Definition slice5 (s : string) : string := substring 0 5 s.

(* ===================================================================== *)
(** * Times of day *)
(* ===================================================================== *)

(** [datetime.time], without microseconds and time zone. *)
Record time : Type := mk_time { hour : Z; minute : Z; second : Z }.

(** The constructors of [datetime] take their arguments as C [int]s: a
    number that does not fit in 32 bits is an [OverflowError], raised
    before any argument is looked at. *)
Definition fits_int (n : Z) : bool :=
  ((-2147483648 <=? n) && (n <=? 2147483647))%Z.

(** [datetime.time(h, m)]: an [OverflowError] for an argument that is no
    C [int], a [ValueError] outside 0..23 and 0..59. *)
Definition datetime_time (h m : Z) : result time :=
  if negb (fits_int h && fits_int m) then Raise OverflowError
  else if ((0 <=? h) && (h <=? 23))%Z then
    if ((0 <=? m) && (m <=? 59))%Z then Ok (mk_time h m 0)
    else Raise ValueError
  else Raise ValueError.

(** The order of [datetime.time]: lexicographic on the fields. *)
Definition time_ltb (a b : time) : bool :=
  ((hour a <? hour b)
   || ((hour a =? hour b)
       && ((minute a <? minute b)
           || ((minute a =? minute b) && (second a <? second b)))))%Z.

Definition time_gtb (a b : time) : bool := time_ltb b a.

(** [a, b = xs]: unpacking a sequence into two names. *)
Definition unpack2 {A : Type} (xs : list A) : result (A * A) :=
  match xs with
  | [a; b] => Ok (a, b)
  | _ => Raise ValueError
  end.

Definition unpack3 {A : Type} (xs : list A) : result (A * A * A) :=
  match xs with
  | [a; b; c] => Ok (a, b, c)
  | _ => Raise ValueError
  end.

(** calendar_utils.py, [parse_time] with the default [type_of=int]:
    [map(int, timestring.split(":"))].  A missing POST field is [None],
    which has no [split]. *)
Definition parse_time (timestring : option string) : result (list Z) :=
  match timestring with
  | None => Raise AttributeError
  | Some s => mapM py_int (split ":"%char s)
  end.

(** calendar_utils.py, [validate_time]. *)
Definition validate_time (start end_ : option string) : result bool :=
  sp <- parse_time start ;;
  ' (shour, sminute) <- unpack2 sp ;;
  ep <- parse_time end_ ;;
  ' (ehour, eminute) <- unpack2 ep ;;
  s <- datetime_time shour sminute ;;
  e <- datetime_time ehour eminute ;;
  Ok (time_ltb s e).

(** A time string is well formed when it reads as an hour and a minute of
    a time of day. *)
Definition well_formed_time (s : string) (t : time) : Prop :=
  parse_time (Some s) = Ok [hour t; minute t]
  /\ datetime_time (hour t) (minute t) = Ok t.

(** Minutes since midnight: the position of a time of day on the clock. *)
Definition minutes_of (t : time) : Z := 60 * hour t + minute t.

Definition precedes (a b : time) : Prop := minutes_of a < minutes_of b.

(* ===================================================================== *)
(** * Dates and the month grid of Python's [calendar] module *)
(* ===================================================================== *)

Record date : Type := mk_date { year : Z; month : Z; day : Z }.

Definition date_eqb (a b : date) : bool :=
  ((year a =? year b) && (month a =? month b) && (day a =? day b))%Z.

(** [calendar.isleap]. *)
Definition isleap (y : Z) : bool :=
  ((y mod 4 =? 0) && (negb (y mod 100 =? 0) || (y mod 400 =? 0)))%Z.

(** [calendar.mdays], indexed by the month. *)
Definition mdays (m : Z) : Z :=
  match m with
  | 1 => 31 | 2 => 28 | 3 => 31 | 4 => 30 | 5 => 31 | 6 => 30
  | 7 => 31 | 8 => 31 | 9 => 30 | 10 => 31 | 11 => 30 | 12 => 31
  | _ => 0
  end.

Definition days_in_month (y m : Z) : Z :=
  mdays m + (if (m =? 2)%Z && isleap y then 1 else 0).

(** [datetime._days_before_year], [_days_before_month], [_ymd2ord]. *)
Definition days_before_year (y : Z) : Z :=
  let y' := y - 1 in y' * 365 + y' / 4 - y' / 100 + y' / 400.

Fixpoint days_before_month_aux (y : Z) (k : nat) : Z :=
  match k with
  | O => 0
  | S k' => days_before_month_aux y k' + days_in_month y (Z.of_nat k)
  end.

Definition days_before_month (y m : Z) : Z :=
  days_before_month_aux y (Z.to_nat (m - 1)).

Definition ymd2ord (y m d : Z) : Z :=
  days_before_year y + days_before_month y m + d.

(** [datetime.date(y, m, d)]: an [OverflowError] for an argument that is
    no C [int], a [ValueError] for a date that does not exist (years run
    from 1 to 9999). *)
Definition datetime_date (y m d : Z) : result date :=
  if negb (fits_int y && fits_int m && fits_int d) then Raise OverflowError
  else if ((1 <=? y) && (y <=? 9999) && (1 <=? m) && (m <=? 12)
           && (1 <=? d) && (d <=? days_in_month y m))%Z
  then Ok (mk_date y m d)
  else Raise ValueError.

(** [date.weekday()]: Monday is 0, Sunday is 6. *)
Definition weekday (y m d : Z) : Z := (ymd2ord y m d + 6) mod 7.

(** [str(date)]: [YYYY-MM-DD]. *)
Definition str_date (d : date) : string :=
  pad_with (str_Z (year d)) "0" 4 ++ "-" ++ pad (str_Z (month d))
  ++ "-" ++ pad (str_Z (day d)).

(** [str(time)]: [HH:MM:SS]. *)
Definition str_time (t : time) : string :=
  pad (str_Z (hour t)) ++ ":" ++ pad (str_Z (minute t))
  ++ ":" ++ pad (str_Z (second t)).

(** [range(a, a + n)]. *)
Fixpoint zrange (a : Z) (n : nat) : list Z :=
  match n with
  | O => []
  | S n' => a :: zrange (a + 1) n'
  end.

(** [calendar.Calendar.itermonthdays] with the module's first weekday
    (Monday): zeros for the days of the neighbouring months that share
    the first and the last week, the days of the month in between.
    Python 2.7 gets them from [itermonthdates], which walks the dates from
    the Monday of the first week on and stops when there is no next day
    (so since 2.7.4; before, the [OverflowError] of the last step came
    through): the last date there is, 9999-12-31, is a Friday, and
    December 9999 ends with it, without the two zeros of the week-end. *)
Definition itermonthdays (y m : Z) : list Z :=
  let day1 := weekday y m 1 in
  let ndays := days_in_month y m in
  let days_before := (day1 - 0) mod 7 in
  let days_after :=
    if ((y =? 9999) && (m =? 12))%Z then 0
    else (0 - day1 - ndays) mod 7 in
  (repeat 0 (Z.to_nat days_before)
   ++ zrange 1 (Z.to_nat ndays)
   ++ repeat 0 (Z.to_nat days_after))%list.

(** [[days[i:i+7] for i in range(0, len(days), 7)]]. *)
Fixpoint chunks7 (fuel : nat) (days : list Z) : list (list Z) :=
  match fuel with
  | O => []
  | S fuel' =>
      match days with
      | [] => []
      | _ :: _ => firstn 7 days :: chunks7 fuel' (skipn 7 days)
      end
  end.

(** [calendar.monthcalendar(year, month)]; the first of the month must be
    a date. *)
Definition monthcalendar (y m : Z) : result (list (list Z)) :=
  _ <- datetime_date y m 1 ;;
  let days := itermonthdays y m in
  Ok (chunks7 (List.length days) days).

(** Modelled from the spec: [timetracker.utils.datemaps.MONTH_MAP] is not
    part of the sources.  Its users index it with 0..11 and take the second
    component as the name of the month ([MONTH_MAP[n][1] for n in
    range(0,12)], reporting/views.py). *)
Definition MONTH_MAP : list (Z * (string * string)) :=
  [ (0, ("JAN", "January")); (1, ("FEB", "February"));
    (2, ("MAR", "March")); (3, ("APR", "April")); (4, ("MAY", "May"));
    (5, ("JUN", "June")); (6, ("JUL", "July")); (7, ("AUG", "August"));
    (8, ("SEP", "September")); (9, ("OCT", "October"));
    (10, ("NOV", "November")); (11, ("DEC", "December")) ].

Definition MONTH_MAP_keys : list Z := map fst MONTH_MAP.

Definition in_keys (k : Z) (keys : list Z) : bool :=
  existsb (Z.eqb k) keys.

Definition MONTH_MAP_name (k : Z) : string :=
  match find (fun kv => (fst kv =? k)%Z) MONTH_MAP with
  | Some (_, (_, name)) => name
  | None => EmptyString
  end.

(* ===================================================================== *)
(** * The records of tracker/models.py and their table *)
(* ===================================================================== *)

(** A Python value handed over as a key: [None], an [int] or a [str]. *)
Inductive pyval : Type :=
| PyNone
| PyInt (n : Z)
| PyStr (s : string).

Module Tbluser.
Record t : Type := mk {
  id : Z;
  user_id : string;
  firstname : string;
  lastname : string;
  process : string;
  shiftlength : time;
  breaklength : time;
  holiday_balance : Z
}.

(** [Tbluser.name]: the full name. *)
Definition name (u : t) : string := firstname u ++ " " ++ lastname u.
End Tbluser.

Module TrackingEntry.
Record t : Type := mk {
  id : Z;
  user_id : Z;
  entry_date : date;
  start_time : time;
  end_time : time;
  breaks : time;
  daytype : string
}.

Definition with_id (i : Z) (e : t) : t :=
  mk i (user_id e) (entry_date e) (start_time e) (end_time e)
     (breaks e) (daytype e).

Definition with_daytype (d : string) (e : t) : t :=
  mk (id e) (user_id e) (entry_date e) (start_time e) (end_time e)
     (breaks e) d.
End TrackingEntry.

(** The rows of the TrackingEntry table. *)
Definition table : Type := list TrackingEntry.t.

(** Two rows collide when they are for the same user on the same date. *)
Definition same_key (a b : TrackingEntry.t) : bool :=
  (TrackingEntry.user_id a =? TrackingEntry.user_id b)%Z
  && date_eqb (TrackingEntry.entry_date a) (TrackingEntry.entry_date b).

Definition key_is (u : Z) (d : date) (e : TrackingEntry.t) : bool :=
  (TrackingEntry.user_id e =? u)%Z && date_eqb (TrackingEntry.entry_date e) d.

(** The uniqueness constraint as a property of a table: no two rows share
    (user, date). *)
Definition entry_key (e : TrackingEntry.t) : Z * date :=
  (TrackingEntry.user_id e, TrackingEntry.entry_date e).

Definition unique_entries (db : table) : Prop := NoDup (map entry_key db).

(** The dates of a table are dates of the calendar. *)
Definition valid_date (d : date) : Prop :=
  datetime_date (year d) (month d) (day d) = Ok d.

(** What the storage layer keeps true of the table: one row per
    (user, date), one row per primary key, dates of the calendar. *)
Definition well_formed_table (db : table) : Prop :=
  unique_entries db
  /\ NoDup (map TrackingEntry.id db)
  /\ Forall (fun e => valid_date (TrackingEntry.entry_date e)) db.

(** [QuerySet.get]: exactly one row, or [DoesNotExist], or
    [MultipleObjectsReturned]. *)
Definition queryset_get (rows : table) : result TrackingEntry.t :=
  match rows with
  | [] => Raise DoesNotExist
  | [e] => Ok e
  | _ :: _ :: _ => Raise MultipleObjectsReturned
  end.

(** A fresh primary key. *)
Definition next_id (db : table) : Z :=
  1 + fold_right Z.max 0 (map TrackingEntry.id db).

(** Modelled from the spec: [TrackingEntry.save] for a new row
    (tracker/models.py and the storage layer are not part of the sources).
    "At most one entry per (user, date), enforced as a uniqueness
    constraint; duplicate insertion is a recoverable error": the insert of
    a row whose (user, date) is taken raises the storage layer's
    [IntegrityError] with [DUPLICATE_ENTRY] and stores nothing. *)
Definition save_new (e : TrackingEntry.t) (db : table)
  : result unit * table :=
  if existsb (same_key e) db
  then (Raise (IntegrityError DUPLICATE_ENTRY "Duplicate entry"), db)
  else (Ok tt, (db ++ [TrackingEntry.with_id (next_id db) e])%list).

(** [entry.save()] for a row read from the table: the row with this
    primary key is rewritten. *)
Definition save_existing (e : TrackingEntry.t) (db : table) : table :=
  map (fun r => if (TrackingEntry.id r =? TrackingEntry.id e)%Z then e else r) db.

(** [entry.delete()]. *)
Definition delete_row (e : TrackingEntry.t) (db : table) : table :=
  filter (fun r => negb (TrackingEntry.id r =? TrackingEntry.id e)%Z) db.

(* ===================================================================== *)
(** * The calendar renderer: calendar_utils.py, [gen_calendar] *)
(* ===================================================================== *)

(** What the renderer writes for one day of the grid. *)
Inductive cell : Type :=
| EntryCell (vals : list string)
    (** a day with an entry: the twelve values handed to the click handler *)
| PlainCell (entry_date_string emptyclass content : string)
    (** a day without an entry, or a placeholder *).

Definition sp (k : nat) : string := repeat_string " " k.

(** The arguments of [toggleChangeEntries] and the cell's class and text
    (calendar_utils.py lines 235-248). *)
Definition entry_vals (data : TrackingEntry.t) (_day : Z) : list string :=
  [ str_Z (hour (TrackingEntry.start_time data));
    str_Z (minute (TrackingEntry.start_time data));
    slice5 (str_time (TrackingEntry.start_time data));
    str_Z (hour (TrackingEntry.end_time data));
    str_Z (minute (TrackingEntry.end_time data));
    slice5 (str_time (TrackingEntry.end_time data));
    str_date (TrackingEntry.entry_date data);
    TrackingEntry.daytype data;
    str_Z _day;
    str_Z (TrackingEntry.id data);
    str_Z (minute (TrackingEntry.breaks data));
    slice5 (str_time (TrackingEntry.breaks data)) ].

Definition val (vals : list string) (i : nat) : string :=
  nth i vals EmptyString.

(** The cell of a day that has no entry (lines 262-271): in-month days
    carry their date and their number, placeholders carry nothing. *)
Definition plain_cell (year month _day : Z) : cell :=
  let emptyclass :=
    if negb (_day =? 0)%Z then "day-class empty-day" else "empty" in
  let entry_date_string :=
    if negb (_day =? 0)%Z
    then join "-" (map pad [str_Z year; str_Z month; str_Z _day])
    else EmptyString in
  let content := if (_day =? 0)%Z then "&nbsp" else str_Z _day in
  PlainCell entry_date_string emptyclass content.

(** Text that [str.format] can put into a byte string: the day-type of a
    row is [unicode], and the ASCII codec encodes it. *)
Definition ascii_text (s : string) : bool :=
  forallb (fun c => (nat_of_ascii c <? 128)%nat) (list_ascii_of_string s).

(** The body of the inner loop (lines 217-280); [database] is the query
    set of the user's entries of the month.  Formatting a day-type that is
    not ASCII raises [UnicodeEncodeError]. *)
Definition render_day (database : table) (year month _day : Z)
  : result cell :=
  match queryset_get
          (filter (fun e => (day (TrackingEntry.entry_date e) =? _day)%Z)
                  database) with
  | Ok data =>
      if ascii_text (TrackingEntry.daytype data)
      then Ok (EntryCell (entry_vals data _day))
      else Raise UnicodeEncodeError
  | Raise DoesNotExist => Ok (plain_cell year month _day)
  | Raise e => Raise e
  end.

Definition cell_class (c : cell) : string :=
  match c with
  | EntryCell vals => "day-class " ++ val vals 7
  | PlainCell _ emptyclass _ => emptyclass
  end.

Definition cell_content (c : cell) : string :=
  match c with
  | EntryCell vals => val vals 8
  | PlainCell _ _ content => content
  end.

Definition cell_onclick (c : cell) : string :=
  match c with
  | EntryCell vals =>
      "toggleChangeEntries(" ++ val vals 0 ++ ", " ++ val vals 1 ++ ", '"
      ++ val vals 2 ++ "'," ++ nl ++ sp 56
      ++ val vals 3 ++ ", " ++ val vals 4 ++ ", '" ++ val vals 5 ++ "',"
      ++ nl ++ sp 56
      ++ "'" ++ val vals 6 ++ "', '" ++ val vals 7 ++ "', " ++ val vals 9
      ++ "," ++ nl ++ sp 56
      ++ val vals 10 ++ ", '" ++ val vals 11 ++ "')"
  | PlainCell entry_date_string _ _ =>
      "hideEntries('" ++ entry_date_string ++ "')"
  end.

Definition cell_html (c : cell) : string :=
  match c with
  | EntryCell _ =>
      tab ++ tab ++ tab ++ tab ++ nl ++ sp 23
      ++ "<td onclick=" ++ dq ++ cell_onclick c ++ dq ++ nl ++ sp 27
      ++ "class=" ++ dq ++ cell_class c ++ dq ++ ">" ++ cell_content c
      ++ "</td>" ++ nl
  | PlainCell _ _ _ =>
      tab ++ tab ++ tab ++ tab
      ++ "<td onclick=" ++ dq ++ cell_onclick c ++ dq ++ nl ++ sp 20
      ++ "class=" ++ dq ++ cell_class c ++ dq ++ ">" ++ cell_content c
      ++ "</td>" ++ nl
  end.

Definition week_html (week_ : list cell) : string :=
  nl ++ tab ++ tab ++ tab ++ "<tr>" ++ nl
  ++ String.concat EmptyString (map cell_html week_)
  ++ tab ++ tab ++ tab ++ "</tr>" ++ nl.

Definition calendar_url (y m : Z) : string :=
  dq ++ "/calendar/" ++ str_Z y ++ "/" ++ str_Z m ++ dq.

Definition next_url (year month : Z) : string :=
  if (month + 1 =? 13)%Z then calendar_url (year + 1) 1
  else calendar_url year (month + 1).

Definition previous_url (year month : Z) : string :=
  if (month - 1 =? 0)%Z then calendar_url (year - 1) 12
  else calendar_url year (month - 1).

Definition table_header (year month : Z) : string :=
  "<table id=" ++ dq ++ "calendar" ++ dq ++ " border=" ++ dq ++ "1" ++ dq
  ++ ">" ++ nl ++ tab ++ tab ++ tab
  ++ "<tr>" ++ nl ++ sp 16
  ++ "<td class=" ++ dq ++ "table-header" ++ dq ++ " colspan=" ++ dq ++ "2"
  ++ dq ++ ">" ++ nl ++ sp 18
  ++ "<a class=" ++ dq ++ "table-links" ++ dq ++ " href="
  ++ previous_url year month ++ ">&lt;</a>" ++ nl ++ sp 16
  ++ "</td>" ++ nl ++ nl ++ sp 16
  ++ "<td class=" ++ dq ++ "table-header" ++ dq ++ " colspan=" ++ dq ++ "3"
  ++ dq ++ ">" ++ MONTH_MAP_name (month - 1) ++ "</td>" ++ nl ++ nl ++ sp 16
  ++ "<td class=" ++ dq ++ "table-header" ++ dq ++ " colspan=" ++ dq ++ "2"
  ++ dq ++ ">" ++ nl ++ sp 18
  ++ "<a class=" ++ dq ++ "table-links" ++ dq ++ " href="
  ++ next_url year month ++ ">&gt;</a>" ++ nl ++ sp 16
  ++ "</td>" ++ nl ++ sp 14 ++ "</tr>" ++ nl.

Definition day_names : string :=
  nl ++ tab ++ tab ++ tab ++ "<tr>" ++ nl
  ++ String.concat EmptyString
       (map (fun d => sp 16 ++ "<td class=day-names>" ++ d ++ "</td>" ++ nl)
            ["Mon"; "Tue"; "Wed"; "Thu"; "Fri"; "Sat"; "Sun"])
  ++ sp 14 ++ "</tr>" ++ nl.

Section Views.

(** [Tbluser.objects.get(id__exact=...)]: the user table and its lookup
    belong to tracker/models.py, which is not part of the sources; the
    lookup is a parameter of everything below. *)
Variable Tbluser_objects_get : pyval -> result Tbluser.t.

(** The query set of lines 157-161. *)
Definition month_entries (u : Tbluser.t) (year_ month_ : Z) (db : table)
  : table :=
  filter (fun e =>
            (TrackingEntry.user_id e =? Tbluser.id u)%Z
            && (year (TrackingEntry.entry_date e) =? year_)%Z
            && (month (TrackingEntry.entry_date e) =? month_)%Z) db.

(** [gen_calendar] up to the grid of cells (lines 133-283).  The
    arguments are the integers of line 133. *)
Definition gen_calendar_grid (year month day : Z) (user : pyval)
    (db : table) : result (list (list cell)) :=
  if negb (in_keys (month - 1) MONTH_MAP_keys) then Raise Http404
  else
    u <- Tbluser_objects_get user ;;
    let database := month_entries u year month db in
    calendar_array <- monthcalendar year month ;;
    mapM (fun week_ => mapM (render_day database year month) week_)
         calendar_array.

(** [gen_calendar]: the joined HTML (lines 183-289). *)
Definition gen_calendar (year month day : Z) (user : pyval) (db : table)
  : result string :=
  rows <- gen_calendar_grid year month day user db ;;
  Ok (table_header year month ++ day_names
      ++ String.concat EmptyString (map week_html rows)
      ++ nl ++ "</table>").

End Views.

(* ===================================================================== *)
(** * Requests, responses and the model layer's conversions *)
(* ===================================================================== *)

(** The JSON object a handler answers with; [None] is a key that the
    dictionary does not have. *)
Record envelope : Type := mk_json {
  success : option bool;
  error : option string;
  calendar : option string
}.

Definition empty_json : envelope := mk_json None None None.
Definition set_error (msg : string) (j : envelope) : envelope :=
  mk_json (success j) (Some msg) (calendar j).
Definition set_success (b : bool) (j : envelope) : envelope :=
  mk_json (Some b) (error j) (calendar j).
Definition set_calendar (c : string) (j : envelope) : envelope :=
  mk_json (success j) (error j) (Some c).

(** [HttpResponse(simplejson.dumps(d))] and [HttpResponse(text)]. *)
Inductive HttpResponse : Type :=
| JsonResponse (j : envelope)
| TextResponse (s : string).

Record request : Type := mk_request {
  is_ajax : bool;
  session_user_id : option Z;
  POST : list (string * string);
  (** [simplejson.loads(request.POST.get('holiday_data'))]: the decoded
      object, a [dict], as the list of its items in the order in which
      [items()] hands them out.  That order is the one of the dict's hash
      table, not the one of the JSON text, and a key is there once (see
      [dict_items]).  [None] when the field is missing *)
  holiday_data : option (list (string * string))
}.

(** [request.POST.get(key, None)]. *)
Definition POST_get (key : string) (r : request) : option string :=
  match find (fun kv => String.eqb (fst kv) key) (POST r) with
  | Some (_, v) => Some v
  | None => None
  end.

(** [str(error)] of a caught exception. *)
Definition str_exn (e : exn) : string :=
  match e with
  | IntegrityError code msg => "(" ++ str_Z code ++ ", '" ++ msg ++ "')"
  | Exception msg => msg
  | ValidationError => "Enter a valid value."
  | DoesNotExist => "matching query does not exist."
  | MultipleObjectsReturned => "get() returned more than one row"
  | ValueError => "invalid literal for int() with base 10"
  | OverflowError => "signed integer is greater than maximum"
  | UnicodeEncodeError => "'ascii' codec can't encode character"
  | AttributeError => "'NoneType' object has no attribute 'split'"
  | TypeError => "expected string, NoneType found"
  | Http404 => EmptyString
  end.

(** Modelled from the spec: the conversion of submitted field values by
    the TrackingEntry model (tracker/models.py is not part of the
    sources).  A "malformed date" or time is a validation error; a missing
    value breaks the column's NOT NULL constraint. *)
Definition to_date (s : string) : result date :=
  match (parts <- mapM py_int (split "-"%char s) ;;
         ' (y, m, d) <- unpack3 parts ;;
         datetime_date y m d) with
  | Ok d => Ok d
  | Raise _ => Raise ValidationError
  end.

Definition to_time (s : string) : result time :=
  match mapM py_int (split ":"%char s) with
  | Ok [h; m] =>
      match datetime_time h m with
      | Ok t => Ok t
      | Raise _ => Raise ValidationError
      end
  | Ok [h; m; sec] =>
      match datetime_time h m with
      | Ok t =>
          if ((0 <=? sec) && (sec <=? 59))%Z then Ok (mk_time h m sec)
          else Raise ValidationError
      | Raise _ => Raise ValidationError
      end
  | _ => Raise ValidationError
  end.

Definition to_user_id (v : pyval) : result (option Z) :=
  match v with
  | PyNone => Ok None
  | PyInt n => Ok (Some n)
  | PyStr s => n <- py_int s ;; Ok (Some n)
  end.

Definition convert {A : Type} (f : string -> result A) (v : option string)
  : result (option A) :=
  match v with
  | None => Ok None
  | Some s => a <- f s ;; Ok (Some a)
  end.

Definition not_null {A : Type} (column : string) (v : option A) : result A :=
  match v with
  | Some a => Ok a
  | None => Raise (IntegrityError BAD_NULL ("Column '" ++ column ++ "' cannot be null"))
  end.

(** Modelled from the spec: [TrackingEntry(user_id=..., entry_date=...,
    start_time=..., end_time=..., breaks=..., daytype=...)] as it reaches
    the table on [save()]: the values are converted first, the NOT NULL
    columns are checked next. *)
Definition TrackingEntry_new (user_id : pyval)
    (entry_date start_time end_time breaks daytype : option string)
  : result TrackingEntry.t :=
  u <- to_user_id user_id ;;
  d <- convert to_date entry_date ;;
  s <- convert to_time start_time ;;
  e <- convert to_time end_time ;;
  b <- convert to_time breaks ;;
  u <- not_null "user_id" u ;;
  d <- not_null "entry_date" d ;;
  s <- not_null "start_time" s ;;
  e <- not_null "end_time" e ;;
  b <- not_null "breaks" b ;;
  t <- not_null "daytype" daytype ;;
  Ok (TrackingEntry.mk 0 u d s e b t).

(** [entry = TrackingEntry(...); entry.save()] for a new row. *)
Definition create_entry (user_id : pyval)
    (entry_date start_time end_time breaks daytype : option string)
    (db : table) : result unit * table :=
  match TrackingEntry_new user_id entry_date start_time end_time breaks
          daytype with
  | Ok e => save_new e db
  | Raise x => (Raise x, db)
  end.

(** [TrackingEntry.objects.get(user_id=..., entry_date=...)]. *)
Definition objects_get (user_id : pyval) (entry_date : string) (db : table)
  : result TrackingEntry.t :=
  u <- to_user_id user_id ;;
  d <- to_date entry_date ;;
  match u with
  | None => Raise DoesNotExist
  | Some u => queryset_get (filter (key_is u d) db)
  end.

(** Modelled from the spec: [entry.save()] for [TrackingEntry(id=...,
    user=...)] with its fields assigned, as [ajax_change_entry] builds it:
    the row with this primary key is rewritten, or inserted when there is
    none; the uniqueness constraint holds against every other row. *)
Definition save_with_id (e : TrackingEntry.t) (db : table)
  : result unit * table :=
  if existsb (fun r => same_key e r
                       && negb (TrackingEntry.id r =? TrackingEntry.id e)%Z) db
  then (Raise (IntegrityError DUPLICATE_ENTRY "Duplicate entry"), db)
  else if existsb (fun r => (TrackingEntry.id r =? TrackingEntry.id e)%Z) db
       then (Ok tt, save_existing e db)
       else (Ok tt, (db ++ [e])%list).

(** [year, month, day = map(int, form['entry_date'].split("-"))]. *)
Definition split_entry_date (entry_date : option string)
  : result (Z * Z * Z) :=
  match entry_date with
  | None => Raise AttributeError
  | Some s => parts <- mapM py_int (split "-"%char s) ;; unpack3 parts
  end.

(** calendar_utils.py, [json_response] and [request_check]. *)
Definition json_response (func : request -> table -> result envelope * table)
    (r : request) (db : table) : result HttpResponse * table :=
  match func r db with
  | (Ok j, db') => (Ok (JsonResponse j), db')
  | (Raise e, db') => (Raise e, db')
  end.

Definition truthy_id (v : option Z) : bool :=
  match v with
  | Some n => negb (n =? 0)%Z
  | None => false
  end.

Definition request_check
    (func : request -> table -> result HttpResponse * table)
    (r : request) (db : table) : result HttpResponse * table :=
  if negb (is_ajax r) then (Raise Http404, db)
  else if negb (truthy_id (session_user_id r)) then (Raise Http404, db)
  else func r db.

(** calendar_utils.py, [admin_check]. *)
Definition admin_check
    (func : request -> table -> result HttpResponse * table)
    (r : request) (db : table) : result HttpResponse * table :=
  if negb (truthy_id (session_user_id r)) then (Raise Http404, db)
  else func r db.

Definition session_user (r : request) : pyval :=
  match session_user_id r with
  | Some n => PyInt n
  | None => PyNone
  end.

Definition opt_pyval (v : option string) : pyval :=
  match v with
  | Some s => PyStr s
  | None => PyNone
  end.

(* ===================================================================== *)
(** * The handlers *)
(* ===================================================================== *)

Section Handlers.

Variable Tbluser_objects_get : pyval -> result Tbluser.t.

(** The day the module was loaded: the defaults of [gen_calendar]. *)
Variable today : date.

(** How [gen_calendar] is called: with a request (the AJAX route) or
    with its arguments (from a view or a handler). *)
Inductive calendar_call : Type :=
| WithRequest (r : request)
| WithArguments (year month day : Z) (user : pyval).

(** calendar_utils.py, [calendar_wrapper]. *)
Definition calendar_wrapper
    (function : Z -> Z -> Z -> pyval -> table -> result string)
    (call : calendar_call) (db : table) : result (HttpResponse + string) :=
  match call with
  | WithRequest r =>
      let eeid := POST_get "eeid" r in
      match function (year today) (month today) (day today)
              (opt_pyval eeid) db with
      | Ok html =>
          Ok (inl (JsonResponse (mk_json (Some true) None (Some html))))
      | Raise e => Ok (inl (TextResponse (str_exn e)))
      end
  | WithArguments y m d user =>
      html <- function y m d user db ;; Ok (inr html)
  end.

(** The calendar as the handlers below ask for it. *)
Definition calendar_for (entry_date : option string) (user : pyval)
    (db : table) : result string :=
  ' (y, m, d) <- split_entry_date entry_date ;;
  gen_calendar Tbluser_objects_get y m d user db.

(** calendar_utils.py, [ajax_add_entry] (the decorated function is
    [ajax_add_entry] below). *)
Definition ajax_add_entry_body (r : request) (db : table)
  : result envelope * table :=
  let json_data := empty_json in
  match validate_time (POST_get "start_time" r) (POST_get "end_time" r) with
  | Raise ValueError => (Ok (set_error "Date Error" json_data), db)
  | Raise e => (Raise e, db)
  | Ok false => (Ok (set_error "Start time after end time" json_data), db)
  | Ok true =>
      match create_entry (session_user r) (POST_get "entry_date" r)
              (POST_get "start_time" r) (POST_get "end_time" r)
              (POST_get "breaks" r) (POST_get "daytype" r) db with
      | (Raise (IntegrityError code msg), db') =>
          if (code =? DUPLICATE_ENTRY)%Z
          then (Ok (set_error "There is a duplicate entry for this value"
                              json_data), db')
          else (Ok (set_error (str_exn (IntegrityError code msg)) json_data),
                db')
      | (Raise e, db') => (Raise e, db')
      | (Ok _, db') =>
          match calendar_for (POST_get "entry_date" r) (session_user r) db'
          with
          | Ok calendar =>
              (Ok (set_calendar calendar (set_success true json_data)), db')
          | Raise e => (Raise e, db')
          end
      end
  end.

Definition ajax_add_entry : request -> table -> result HttpResponse * table :=
  request_check (json_response ajax_add_entry_body).

(** [if form['hidden-id']:] *)
Definition truthy_string (v : option string) : bool :=
  match v with
  | Some s => negb (String.length s =? 0)%nat
  | None => false
  end.

(** The [try] block of [ajax_change_entry] (lines 484-499). *)
Definition change_entry (r : request) (db : table) : result unit * table :=
  match (user <- Tbluser_objects_get (session_user r) ;;
         i <- to_user_id (opt_pyval (POST_get "hidden-id" r)) ;;
         i <- not_null "id" i ;;
         e <- TrackingEntry_new (PyInt (Tbluser.id user))
                (POST_get "entry_date" r) (POST_get "start_time" r)
                (POST_get "end_time" r) (POST_get "breaks" r)
                (POST_get "daytype" r) ;;
         Ok (TrackingEntry.with_id i e)) with
  | Ok e => save_with_id e db
  | Raise x => (Raise x, db)
  end.

(** calendar_utils.py, [ajax_change_entry]. *)
Definition ajax_change_entry_body (r : request) (db : table)
  : result envelope * table :=
  let json_data := empty_json in
  match validate_time (POST_get "start_time" r) (POST_get "end_time" r) with
  | Raise ValueError => (Ok (set_error "Date Error" json_data), db)
  | Raise e => (Raise e, db)
  | Ok false => (Ok (set_error "Start time after end time" json_data), db)
  | Ok true =>
      let saved :=
        if truthy_string (POST_get "hidden-id" r) then change_entry r db
        else (Ok tt, db) in
      match saved with
      | (Raise e, db') => (Ok (set_error (str_exn e) json_data), db')
      | (Ok _, db') =>
          match calendar_for (POST_get "entry_date" r) (session_user r) db'
          with
          | Ok calendar =>
              (Ok (set_calendar calendar (set_success true json_data)), db')
          | Raise e => (Raise e, db')
          end
      end
  end.

Definition ajax_change_entry
  : request -> table -> result HttpResponse * table :=
  request_check (json_response ajax_change_entry_body).

(** The test of views.py line 108:
    [datetime.time(shour, sminute) > datetime.time(ehour, eminute)]. *)
Definition start_after_end (start end_ : option string) : result bool :=
  sp <- parse_time start ;;
  ' (shour, sminute) <- unpack2 sp ;;
  ep <- parse_time end_ ;;
  ' (ehour, eminute) <- unpack2 ep ;;
  s <- datetime_time shour sminute ;;
  e <- datetime_time ehour eminute ;;
  Ok (time_gtb s e).

(** views.py lines 113-146: the entry is saved for user 1 with a break
    of a quarter of an hour, the calendar is rendered, and an
    [IntegrityError] of either step is reported. *)
Definition ajax_save (r : request) (json_data : envelope) (db : table)
  : result HttpResponse * table :=
  let report code msg db' :=
    if (code =? DUPLICATE_ENTRY)%Z
    then (Ok (JsonResponse
                (set_error "There is a duplicate entry for this value"
                           json_data)), db')
    else (Ok (JsonResponse
                (set_error (str_exn (IntegrityError code msg)) json_data)),
          db') in
  match create_entry (PyInt 1) (POST_get "entry_date" r)
          (POST_get "start_time" r) (POST_get "end_time" r)
          (Some "00:15:00") (POST_get "daytype" r) db with
  | (Raise (IntegrityError code msg), db') => report code msg db'
  | (Raise e, db') => (Raise e, db')
  | (Ok _, db') =>
      match calendar_for (POST_get "entry_date" r)
              (PyStr "aaron.france@hp.com") db' with
      | Ok calendar =>
          (Ok (JsonResponse
                 (set_calendar calendar (set_success true json_data))), db')
      | Raise (IntegrityError code msg) => report code msg db'
      | Raise e => (Raise e, db')
      end
  end.

(** views.py, [ajax]. *)
Definition ajax (r : request) (db : table) : result HttpResponse * table :=
  if negb (is_ajax r) then (Raise Http404, db)
  else
    let json_data := mk_json (Some false) (Some EmptyString) (Some EmptyString) in
    match start_after_end (POST_get "start_time" r) (POST_get "end_time" r)
    with
    | Raise e => (Raise e, db)
    | Ok true =>
        (Ok (JsonResponse (set_error "Start time after end time" json_data)),
         db)
    | Ok false => ajax_save r json_data db
    end.

(** One round of the loop of [mass_holidays] (lines 669-709): [Ok None]
    goes on with the next day, [Ok (Some j)] is the early [return]. *)
Definition mass_holidays_entry (year month user_id : option string)
    (json_data : envelope) (entry : string * string) (db : table)
  : result (option envelope) * table :=
  match py_int (fst entry) with
  | Raise e => (Raise e, db)
  | Ok n =>
      let day := str_Z n in
      match year, month with
      | Some year, Some month =>
          let date := join "-" [year; month; day] in
          if String.eqb (snd entry) "empty"
             || (String.length (snd entry) =? 0)%nat
          then
            match objects_get (opt_pyval user_id) date db with
            | Ok removal_entry => (Ok None, delete_row removal_entry db)
            | Raise DoesNotExist => (Ok None, db)
            | Raise e => (Raise e, db)
            end
          else
            let time_str := "00:00:00" in
            match create_entry (opt_pyval user_id) (Some date)
                    (Some time_str) (Some time_str) (Some time_str)
                    (Some (snd entry)) db with
            | (Ok _, db') => (Ok None, db')
            | (Raise (IntegrityError code msg), db') =>
                if (code =? DUPLICATE_ENTRY)%Z then
                  match objects_get (opt_pyval user_id) date db' with
                  | Ok change_entry =>
                      (Ok None,
                       save_existing
                         (TrackingEntry.with_daytype (snd entry) change_entry)
                         db')
                  | Raise e => (Raise e, db')
                  end
                else
                  (Raise (Exception (str_exn (IntegrityError code msg))), db')
            | (Raise e, db') =>
                (Ok (Some (set_error (str_exn e) json_data)), db')
            end
      | _, _ => (Raise TypeError, db)
      end
  end.

Fixpoint mass_holidays_loop (year month user_id : option string)
    (json_data : envelope) (items : list (string * string)) (db : table)
  : result envelope * table :=
  match items with
  | [] => (Ok (set_success true json_data), db)
  | entry :: rest =>
      match mass_holidays_entry year month user_id json_data entry db with
      | (Raise e, db') => (Raise e, db')
      | (Ok (Some j), db') => (Ok j, db')
      | (Ok None, db') =>
          mass_holidays_loop year month user_id json_data rest db'
      end
  end.

(** calendar_utils.py, [mass_holidays]. *)
Definition mass_holidays_body (r : request) (db : table)
  : result envelope * table :=
  let json_data := mk_json (Some false) (Some EmptyString) None in
  match holiday_data r with
  | None => (Raise TypeError, db)
  | Some items =>
      mass_holidays_loop (POST_get "year" r) (POST_get "month" r)
        (POST_get "user_id" r) json_data items db
  end.

Definition mass_holidays : request -> table -> result HttpResponse * table :=
  request_check (admin_check (json_response mass_holidays_body)).

End Handlers.

(* ===================================================================== *)
(** * The overtime reports: reporting/views.py *)
(* ===================================================================== *)

(** A balance is a Python [float]: an IEEE 754 double, here in the
    Standard Library's specification of floating-point numbers. *)
Definition float : Type := spec_float.

Definition float_zero : float := S754_zero false.

(** [a != b] on floats. *)
Definition float_neb (a b : float) : bool := negb (SFeqb a b).

(** [a + b] on doubles. *)
Definition float_add (a b : float) : float := SFadd 53 1024 a b.

(** Rounding a non-negative fraction [num / den] to the nearest integer,
    ties to even. *)
Definition round_half_even (num den : Z) : Z :=
  let q := num / den in
  let r := num mod den in
  if (2 * r <? den)%Z then q
  else if (den <? 2 * r)%Z then q + 1
  else if Z.even q then q else q + 1.

(** The magnitude [m * 2^e] as a fraction. *)
Definition magnitude (m : positive) (e : Z) : Z * Z :=
  if (0 <=? e)%Z then (Z.pos m * 2 ^ e, 1) else (Z.pos m, 2 ^ (- e)).

Definition sign_string (s : bool) : string := if s then "-" else EmptyString.

(** The fixed-point conversion: two decimals, correctly rounded. *)
Definition format_fixed2 (s : bool) (m : positive) (e : Z) : string :=
  let '(num, den) := magnitude m e in
  let n := round_half_even (100 * num) den in
  sign_string s ++ str_Z (n / 100) ++ "." ++ pad (str_Z (n mod 100)).

(** ["%.2f" % x]: Python 2.7 writes every digit before the point, whatever
    the magnitude. *)
Definition format_2f (x : float) : string :=
  match x with
  | S754_nan => "nan"
  | S754_infinity s => sign_string s ++ "inf"
  | S754_zero s => sign_string s ++ "0.00"
  | S754_finite s m e => format_fixed2 s m e
  end.

(** The cell of one user and one month in the report by year
    (reporting/views.py line 146). *)
Definition ot_by_year_cell (balance : float) : string :=
  if float_neb balance float_zero then format_2f balance else "-".

(** The cell of one user in the report by month (line 119). *)
Definition ot_by_month_cell (balance : float) : string := format_2f balance.

Section Reporting.

(** [user.get_total_balance(ret='flo', year=year, month=month)] and
    [auth_user.get_subordinates()] belong to tracker/models.py, which is
    not part of the sources: the reports are read with the balances and
    the subordinates as parameters. *)
Variable get_total_balance : Tbluser.t -> pyval -> Z -> float.
Variable subordinates : list Tbluser.t.

Definition months : list Z := zrange 1 12.

(** Line 142-146: the row of one user. *)
Definition ot_by_year_row (year : pyval) (user : Tbluser.t) : list string :=
  ([Tbluser.name user; Tbluser.process user]
   ++ map (fun month => ot_by_year_cell (get_total_balance user year month))
          months)%list.

(** [balances[month]] after the loop. *)
Definition ot_by_year_total (year : pyval) (month : Z) : float :=
  fold_left (fun acc user => float_add acc (get_total_balance user year month))
            subordinates float_zero.

(** The rows written by [ot_by_year], after the heading.  (The name of
    the attachment is built from the loop's [month] afterwards, which is
    unbound when there is no subordinate; the rows are what the cells are
    about.) *)
Definition ot_by_year (year : pyval) : list (list string) :=
  (map (ot_by_year_row year) subordinates
   ++ [ ["Total"; "Total"]
        ++ map (fun n => format_2f (ot_by_year_total year n)) months ])%list.

(** The rows written by [ot_by_month], after the heading. *)
Definition ot_by_month (year : pyval) (month : Z) : list (list string) :=
  (map (fun user =>
          [Tbluser.name user; Tbluser.process user;
           ot_by_month_cell (get_total_balance user year month)])
       subordinates
   ++ [ ["Total"; "Total";
         format_2f (fold_left
                      (fun acc user =>
                         float_add acc (get_total_balance user year month))
                      subordinates float_zero)] ])%list.

End Reporting.

(* ===================================================================== *)
(** * The methods of tracker/models.py and the test-suite *)
(* ===================================================================== *)

(** Seconds since midnight; durations are counted in seconds. *)
Definition seconds_of (t : time) : Z := 3600 * hour t + 60 * minute t + second t.

(** Modelled from the spec: the worked duration of an entry
    (tracker/models.py is not part of the sources): "end time - start time
    - break duration". *)
Definition worked_duration (e : TrackingEntry.t) : Z :=
  seconds_of (TrackingEntry.end_time e)
  - seconds_of (TrackingEntry.start_time e)
  - seconds_of (TrackingEntry.breaks e).

(** Modelled from the spec: [TrackingEntry.is_overtime]
    (tracker/models.py is not part of the sources): an entry is overtime
    "if its worked duration exceeds the user's configured standard shift
    length". *)
Definition is_overtime (u : Tbluser.t) (e : TrackingEntry.t) : bool :=
  (seconds_of (Tbluser.shiftlength u) <? worked_duration e)%Z.

(** Modelled from the spec: [TrackingEntry.time_difference]
    (tracker/models.py is not part of the sources): "the signed
    time-difference (worked minus standard) is the quantity reported". *)
Definition time_difference (u : Tbluser.t) (e : TrackingEntry.t) : Z :=
  worked_duration e - seconds_of (Tbluser.shiftlength u).

(** Modelled from the spec: the signed contribution of a day-type to the
    holiday balance (tracker/models.py is not part of the sources):
    "neutral", "decrement (returning from leave consumes balance)",
    "increment (work-on-holiday adds to balance)".  The amounts are those
    of tests.py: three PUWRK days turn 20 into 26, three RETRN days turn
    20 into 17; a day of holiday taken (HOLIS) uses one day of leave. *)
Definition holiday_contribution (daytype : string) : Z :=
  if String.eqb daytype "PUWRK" then 2
  else if String.eqb daytype "RETRN" then -1
  else if String.eqb daytype "HOLIS" then -1
  else 0.

(** The entries of a user within a year. *)
Definition entries_of_year (u : Tbluser.t) (year_ : Z) (db : table) : table :=
  filter (fun e =>
            (TrackingEntry.user_id e =? Tbluser.id u)%Z
            && (year (TrackingEntry.entry_date e) =? year_)%Z) db.

(** Modelled from the spec: [Tbluser.get_holiday_balance(year)]
    (tracker/models.py is not part of the sources): "iterate entries for
    the user within the period; sum with signed contributions; starting
    balance is the user's stored holiday-balance field, adjusted by the sum
    of this year's entries". *)
Definition get_holiday_balance (u : Tbluser.t) (year_ : Z) (db : table) : Z :=
  fold_left (fun balance e =>
               balance + holiday_contribution (TrackingEntry.daytype e))
            (entries_of_year u year_ db)
            (Tbluser.holiday_balance u).

Module Tests.

(** tests.py, [create_users]: [linked_user]. *)
Definition linked_user : Tbluser.t :=
  Tbluser.mk 3 "test.user@test.com" "test" "case" "AP"
    (mk_time 7 45 0) (mk_time 0 15 0) 20.

(** The methods under test. *)
Record methods : Type := mk_methods {
  m_is_overtime : Tbluser.t -> TrackingEntry.t -> bool;
  m_time_difference : Tbluser.t -> TrackingEntry.t -> Z
}.

(** The entry every case of [TrackingEntryTestCase] builds: the day
    starts at 09:00, the day-type is WKDAY. *)
Definition workday (date end_ breaks : string) : result TrackingEntry.t :=
  TrackingEntry_new (PyInt (Tbluser.id linked_user)) (Some date)
    (Some "09:00") (Some end_) (Some breaks) (Some "WKDAY").

Definition for_all_cases (breaks : string)
    (check : TrackingEntry.t -> bool) (cases : list (string * string))
  : bool :=
  forallb (fun c => match workday (fst c) (snd c) breaks with
                    | Ok e => check e
                    | Raise _ => false
                    end) cases.

(** tests.py lines 415-434. *)
Definition testIsNotOvertime (m : methods) : bool :=
  for_all_cases "00:15"
    (fun e => negb (m_is_overtime m linked_user e))
    [ ("2012-01-01", "17:00"); ("2012-01-02", "14:00");
      ("2012-01-03", "16:46"); ("2012-01-04", "16:45") ].

(** tests.py lines 436-453. *)
Definition testIsOvertime (m : methods) : bool :=
  for_all_cases "00:15"
    (fun e => m_is_overtime m linked_user e)
    [ ("2012-01-06", "18:01"); ("2012-01-07", "19:00") ].

(** tests.py lines 455-473. *)
Definition testTimeDifferencePositive (m : methods) : bool :=
  for_all_cases "00:15"
    (fun e => (0 <? m_time_difference m linked_user e)%Z)
    [ ("2012-01-08", "18:00"); ("2012-01-09", "18:01");
      ("2012-01-10", "19:00") ].

(** tests.py lines 475-493. *)
Definition testTimeDifferenceNegative (m : methods) : bool :=
  for_all_cases "00:15:00"
    (fun e => (m_time_difference m linked_user e <? 0)%Z)
    [ ("2012-01-11", "14:00"); ("2012-01-12", "16:44");
      ("2012-01-13", "09:45") ].

(** tests.py lines 495-511. *)
Definition testTimeDifferenceZero (m : methods) : bool :=
  for_all_cases "00:15"
    (fun e => (m_time_difference m linked_user e =? 0)%Z)
    [ ("2012-01-11", "16:45") ].

Definition TrackingEntryTestCase (m : methods) : bool :=
  testIsNotOvertime m && testIsOvertime m
  && testTimeDifferencePositive m && testTimeDifferenceNegative m
  && testTimeDifferenceZero m.

(** The rows the holiday-balance tests save (lines 366-375, 383-392,
    400-409), starting from an empty table. *)
Fixpoint save_days (days : list (string * string)) (db : table) : table :=
  match days with
  | [] => db
  | d :: rest =>
      save_days rest
        (snd (create_entry (PyInt (Tbluser.id linked_user))
                (Some ("2012-01-" ++ fst d)) (Some "00:00:00")
                (Some "00:00:00") (Some "00:00:00") (Some (snd d)) db))
  end.

Definition testHolidayBalance (get : Tbluser.t -> Z -> table -> Z)
    (days : list (string * string)) (expected : Z) : bool :=
  (get linked_user 2012 (save_days days []) =? expected)%Z.

Definition mix : list (string * string) :=
  [("1", "HOLIS"); ("2", "PUWRK"); ("3", "RETRN")].

Definition testHolidayBalanceMix get : bool :=
  testHolidayBalance get mix 20.

Definition testHolidayBalanceAdd get : bool :=
  testHolidayBalance get [("1", "PUWRK"); ("2", "PUWRK"); ("3", "PUWRK")] 26.

Definition testHolidayBalanceDecrement get : bool :=
  testHolidayBalance get [("1", "RETRN"); ("2", "RETRN"); ("3", "RETRN")] 17.

(** tests.py lines 746-753, [testValidateTime]. *)
Definition testValidateTime
    (validate : option string -> option string -> result bool) : bool :=
  forallb (fun c =>
             match validate (Some (fst (fst c))) (Some (snd (fst c))) with
             | Ok b => Bool.eqb b (snd c)
             | Raise _ => false
             end)
    [ ("00:00", "00:01", true); ("00:00", "23:00", true);
      ("00:00", "00:00", false); ("23:00", "00:00", false);
      ("00:01", "00:00", false) ].

End Tests.

(* ===================================================================== *)
(** * Deleting an entry: calendar_utils.py, [ajax_delete_entry] *)
(* ===================================================================== *)

(** [TrackingEntry(id=i, ...).delete()]: the row with this primary key
    goes, whatever else the instance holds. *)
Definition delete_by_id (i : Z) (db : table) : table :=
  filter (fun r => negb (TrackingEntry.id r =? i)%Z) db.

Section DeleteEntry.

Variable Tbluser_objects_get : pyval -> result Tbluser.t.

(** The [try] block of [ajax_delete_entry] (lines 411-418): the user of
    the session is looked up, the primary key is the submitted
    [hidden-id]. *)
Definition delete_entry (r : request) (db : table) : result unit * table :=
  match (user <- Tbluser_objects_get (session_user r) ;;
         i <- to_user_id (opt_pyval (POST_get "hidden-id" r)) ;;
         not_null "id" i) with
  | Ok i => (Ok tt, delete_by_id i db)
  | Raise x => (Raise x, db)
  end.

(** calendar_utils.py, [ajax_delete_entry]. *)
Definition ajax_delete_entry_body (r : request) (db : table)
  : result envelope * table :=
  let json_data := empty_json in
  let deleted :=
    if truthy_string (POST_get "hidden-id" r) then delete_entry r db
    else (Ok tt, db) in
  match deleted with
  | (Raise e, db') => (Ok (set_error (str_exn e) json_data), db')
  | (Ok _, db') =>
      match calendar_for Tbluser_objects_get (POST_get "entry_date" r)
              (session_user r) db' with
      | Ok calendar =>
          (Ok (set_calendar calendar (set_success true json_data)), db')
      | Raise e => (Raise e, db')
      end
  end.

Definition ajax_delete_entry
  : request -> table -> result HttpResponse * table :=
  request_check (json_response ajax_delete_entry_body).

End DeleteEntry.

(* ===================================================================== *)
(** * The holiday report: reporting/views.py, [holidays_for_yearmonth] *)
(* ===================================================================== *)

(** What a row hands to the CSV writer: a string, a number, or (line 181)
    a list. *)
Inductive csv_field : Type :=
| FieldStr (s : string)
| FieldInt (n : Z)
| FieldList (l : list string).

(** The headings of lines 134-136 and 168-170. *)
Definition ot_by_year_heading : list string :=
  (["Name"; "Team"] ++ map MONTH_MAP_name (zrange 0 12))%list.

Definition holidays_heading : list string :=
  (["Name"] ++ map MONTH_MAP_name (zrange 0 12) ++ ["Used"; "Remaining"])%list.

(** [TrackingEntry.objects.filter(user_id=..., entry_date__year=...,
    entry_date__month=..., daytype="HOLIS").count()]. *)
Definition count_holidays (u : Tbluser.t) (year_ month_ : Z) (db : table) : Z :=
  Z.of_nat
    (List.length
       (filter (fun e =>
                  (TrackingEntry.user_id e =? Tbluser.id u)%Z
                  && (year (TrackingEntry.entry_date e) =? year_)%Z
                  && (month (TrackingEntry.entry_date e) =? month_)%Z
                  && String.eqb (TrackingEntry.daytype e) "HOLIS") db)).

(** Lines 172-181: the row of one user; the total and the balance are
    appended as one list. *)
Definition holidays_row (year_ : Z) (db : table) (user : Tbluser.t)
  : list csv_field :=
  let counts := map (fun month_ => count_holidays user year_ month_ db)
                    (zrange 1 12) in
  let total := fold_left Z.add counts 0 in
  ([FieldStr (Tbluser.name user)]
   ++ map FieldInt counts
   ++ [FieldList [str_Z total; str_Z (Tbluser.holiday_balance user)]])%list.

(** [holidays_for_yearmonth]: the rows handed to the CSV writer after the
    heading, for the subordinates of the user of the session
    ([get_subordinates] belongs to tracker/models.py and is a parameter
    here).  The year is the string of the URL; each [filter] of the loop
    converts it with [int], so a year that is no number raises
    [ValueError] at the first subordinate. *)
Definition holidays_for_yearmonth (subordinates : list Tbluser.t)
    (year_ : option string) (db : table) : result (list (list csv_field)) :=
  if negb (truthy_string year_) then Raise Http404
  else
    mapM (fun user =>
            y <- to_user_id (opt_pyval year_) ;;
            match y with
            | Some y => Ok (holidays_row y db user)
            | None => Raise Http404
            end)
         subordinates.

(* ===================================================================== *)
(** * Vocabulary of the statements *)
(* ===================================================================== *)

(** A request that [request_check] lets through. *)
Definition authenticated (r : request) : Prop :=
  is_ajax r = true /\ truthy_id (session_user_id r) = true.

(** The row [ajax_add_entry] asks the table to insert. *)
Definition form_entry (r : request) : result TrackingEntry.t :=
  TrackingEntry_new (session_user r) (POST_get "entry_date" r)
    (POST_get "start_time" r) (POST_get "end_time" r)
    (POST_get "breaks" r) (POST_get "daytype" r).

(** The row a day of [mass_holidays] asks the table to insert. *)
Definition holiday_entry (year month user_id : string) (n : Z)
    (daytype : string) : result TrackingEntry.t :=
  TrackingEntry_new (PyStr user_id)
    (Some (join "-" [year; month; str_Z n]))
    (Some "00:00:00") (Some "00:00:00") (Some "00:00:00") (Some daytype).

(** A day-type that [mass_holidays] stores, as opposed to the marker of a
    day to clear. *)
Definition stored_daytype (daytype : string) : Prop :=
  String.eqb daytype "empty" = false /\ (String.length daytype =? 0)%nat = false.

(** Two rows that differ in the day-type at most. *)
Definition same_but_daytype (a b : TrackingEntry.t) : Prop :=
  TrackingEntry.id a = TrackingEntry.id b
  /\ TrackingEntry.user_id a = TrackingEntry.user_id b
  /\ TrackingEntry.entry_date a = TrackingEntry.entry_date b
  /\ TrackingEntry.start_time a = TrackingEntry.start_time b
  /\ TrackingEntry.end_time a = TrackingEntry.end_time b
  /\ TrackingEntry.breaks a = TrackingEntry.breaks b.

(** The table after the day-type of the rows of (user, date) of [old] was
    set. *)
Definition set_daytype_of (old : TrackingEntry.t) (daytype : string)
    (db : table) : table :=
  map (fun row =>
         if key_is (TrackingEntry.user_id old) (TrackingEntry.entry_date old) row
         then TrackingEntry.with_daytype daytype row else row) db.

(** The sum of the signed contributions of a list of day-types. *)
Definition total_contribution (daytypes : list string) : Z :=
  fold_right (fun t acc => holiday_contribution t + acc) 0 daytypes.

(** The cell of the [i]-th user and of month [m] in the rows of the
    report by year: the months follow the name and the team. *)
Definition report_cell (rows : list (list string)) (i : nat) (m : Z) : string :=
  nth (Z.to_nat (m + 1)) (nth i rows []) EmptyString.

(** The cell the specification asks for on day [d] of the grid: a blank
    for a placeholder ([d] is 0), the entry of the user for that date when
    there is one, an empty cell that can be clicked otherwise. *)
Definition cell_of_day (u : Tbluser.t) (year month : Z) (db : table) (d : Z)
  : cell :=
  if (d =? 0)%Z then PlainCell EmptyString "empty" "&nbsp"
  else
    match find (key_is (Tbluser.id u) (mk_date year month d)) db with
    | Some e => EntryCell (entry_vals e d)
    | None =>
        PlainCell (join "-" (map pad [str_Z year; str_Z month; str_Z d]))
                  "day-class empty-day" (str_Z d)
    end.

(** The day-types of a table that [str.format] can write. *)
Definition ascii_daytypes (db : table) : Prop :=
  Forall (fun e => ascii_text (TrackingEntry.daytype e) = true) db.

(** A cell that is annotated with the entry [e] on day [d]: the twelve
    values of the click handler are the start and the end (hour, minute and
    HH:MM), the date, the day-type, the day, the primary key and the break
    (minute and HH:MM) of the entry; the click handler is
    [toggleChangeEntries] on these values, the class of the cell names the
    day-type and its text is the day. *)
Definition carries_entry (c : cell) (e : TrackingEntry.t) (d : Z) : Prop :=
  exists vals,
    c = EntryCell vals
    /\ List.length vals = 12%nat
    /\ val vals 0 = str_Z (hour (TrackingEntry.start_time e))
    /\ val vals 1 = str_Z (minute (TrackingEntry.start_time e))
    /\ val vals 2 = slice5 (str_time (TrackingEntry.start_time e))
    /\ val vals 3 = str_Z (hour (TrackingEntry.end_time e))
    /\ val vals 4 = str_Z (minute (TrackingEntry.end_time e))
    /\ val vals 5 = slice5 (str_time (TrackingEntry.end_time e))
    /\ val vals 6 = str_date (TrackingEntry.entry_date e)
    /\ val vals 7 = TrackingEntry.daytype e
    /\ val vals 8 = str_Z d
    /\ val vals 9 = str_Z (TrackingEntry.id e)
    /\ val vals 10 = str_Z (minute (TrackingEntry.breaks e))
    /\ val vals 11 = slice5 (str_time (TrackingEntry.breaks e))
    /\ cell_onclick c
       = "toggleChangeEntries(" ++ val vals 0 ++ ", " ++ val vals 1 ++ ", '"
         ++ val vals 2 ++ "'," ++ nl ++ sp 56
         ++ val vals 3 ++ ", " ++ val vals 4 ++ ", '" ++ val vals 5 ++ "',"
         ++ nl ++ sp 56
         ++ "'" ++ val vals 6 ++ "', '" ++ val vals 7 ++ "', " ++ val vals 9
         ++ "," ++ nl ++ sp 56
         ++ val vals 10 ++ ", '" ++ val vals 11 ++ "')"
    /\ cell_class c = "day-class " ++ TrackingEntry.daytype e
    /\ cell_content c = str_Z d.



(** The time string of an hour and a minute, as the forms submit it. *)
Definition hhmm (h m : Z) : string := pad (str_Z h) ++ ":" ++ pad (str_Z m).

(** [hhmm h m] reads back as [h] and [m]. *)
Definition reads_back (h m : Z) : bool :=
  match parse_time (Some (hhmm h m)) with
  | Ok [a; b] => ((a =? h) && (b =? m))%Z
  | _ => false
  end.

(** The page the "next" and the "previous" link of a calendar lead to. *)
Definition next_month (year month : Z) : Z * Z :=
  if (month + 1 =? 13)%Z then (year + 1, 1) else (year, month + 1).

Definition previous_month (year month : Z) : Z * Z :=
  if (month - 1 =? 0)%Z then (year - 1, 12) else (year, month - 1).

(** The HTML of a grid of cells, as [gen_calendar] joins it. *)
Definition calendar_html (year month : Z) (rows : list (list cell)) : string :=
  table_header year month ++ day_names
  ++ String.concat EmptyString (map week_html rows)
  ++ nl ++ "</table>".

(** The number of HOLIS entries of a user in a year. *)
Definition holidays_of_year (u : Tbluser.t) (year_ : Z) (db : table) : Z :=
  Z.of_nat
    (List.length
       (filter (fun e => String.eqb (TrackingEntry.daytype e) "HOLIS")
               (entries_of_year u year_ db))).

(** The characters of a string that are decimal digits. *)
Definition is_digit (c : ascii) : bool :=
  match digit_of c with
  | Some _ => true
  | None => false
  end.

Definition all_digits (s : string) : Prop :=
  Forall (fun c => is_digit c = true) (list_ascii_of_string s).


(** The same request with other days to plan. *)
Definition with_holiday_data (r : request) (items : list (string * string))
  : request :=
  mk_request (is_ajax r) (session_user_id r) (POST r) (Some items).

(** The answer of [mass_holidays] when every day went through. *)
Definition planned : HttpResponse :=
  JsonResponse (mk_json (Some true) (Some EmptyString) None).

Module Examples.

(** A user table with the users 1 and 3. *)
Definition users (v : pyval) : result Tbluser.t :=
  match to_user_id v with
  | Ok (Some 1) =>
      Ok (Tbluser.mk 1 "aaron.france@hp.com" "aaron" "france" "AP"
            (mk_time 7 45 0) (mk_time 0 15 0) 20)
  | Ok (Some 3) => Ok Tests.linked_user
  | Ok _ => Raise DoesNotExist
  | Raise x => Raise x
  end.

Definition form (entry_date start_time end_time daytype : string)
  : list (string * string) :=
  [ ("entry_date", entry_date); ("start_time", start_time);
    ("end_time", end_time); ("daytype", daytype);
    ("breaks", "00:15:00") ].

(** User 1 books 2012-01-05 as a working day from 09:00 to 17:00. *)
Definition add_workday : request :=
  mk_request true (Some 1) (form "2012-01-05" "09:00" "17:00" "WKDAY") None.

(** User 1 books the same day again, this time as a holiday. *)
Definition add_again : request :=
  mk_request true (Some 1) (form "2012-01-05" "10:00" "11:00" "HOLIS") None.

(** A day that ends before it starts. *)
Definition add_backwards : request :=
  mk_request true (Some 1) (form "2012-01-05" "10:00" "09:00" "WKDAY") None.

(** A day that starts and ends at 10:00. *)
Definition equal_times_request : request :=
  mk_request true (Some 1) (form "2012-01-05" "10:00" "10:00" "WKDAY") None.

(** The manager plans the fifth of January 2012 of user 1 as a holiday. *)
Definition plan_holiday : request :=
  mk_request true (Some 2)
    [ ("year", "2012"); ("month", "1"); ("user_id", "1") ]
    (Some [ ("5", "HOLIS") ]).

Definition workday_row : TrackingEntry.t :=
  TrackingEntry.mk 1 1 (mk_date 2012 1 5) (mk_time 9 0 0) (mk_time 17 0 0)
    (mk_time 0 15 0) "WKDAY".

(** Seven hours and three quarters of overtime in January, none in the
    other months. *)
Definition balances (u : Tbluser.t) (year : pyval) (m : Z) : float :=
  if (m =? 1)%Z then S754_finite false 31 (-2) else float_zero.

End Examples.

(** Proof steps used throughout: boolean tests as propositions, and the
    success of a chain of binds as the success of its links. *)
Ltac bool_to_prop :=
  repeat match goal with
    | H : (_ && _)%bool = true |- _ => apply andb_prop in H; destruct H
    | H : (_ <=? _)%Z = true |- _ => apply Z.leb_le in H
    | H : (_ <? _)%Z = true |- _ => apply Z.ltb_lt in H
    | H : (_ =? _)%Z = true |- _ => apply Z.eqb_eq in H
    | H : (_ <=? _)%Z = false |- _ => apply Z.leb_gt in H
    | H : (_ <? _)%Z = false |- _ => apply Z.ltb_ge in H
    | H : (_ =? _)%Z = false |- _ => apply Z.eqb_neq in H
    end.

Ltac bind_ok :=
  repeat match goal with
    | |- bind ?c _ = Ok _ -> _ =>
        let E := fresh "E" in destruct c eqn:E; cbn [bind]; [|discriminate]
    end.

(* ===================================================================== *)
(** * Properties *)
(* ===================================================================== *)

(** ** General helpers *)

Lemma length_append (a b : string) :
  String.length (a ++ b) = (String.length a + String.length b)%nat.
Proof.
  induction a as [|c a IH]; simpl; [reflexivity | now rewrite IH].
Qed.

(** ** Times of day *)

(** What [datetime.time(h, m)] returns is a time of day with no seconds. *)
Lemma datetime_time_ok h m t :
  datetime_time h m = Ok t ->
  t = mk_time h m 0 /\ 0 <= h <= 23 /\ 0 <= m <= 59.
Proof.
  unfold datetime_time.
  destruct (fits_int h && fits_int m); cbn [negb]; [|discriminate].
  destruct ((0 <=? h) && (h <=? 23))%Z eqn:Hh; [|discriminate].
  destruct ((0 <=? m) && (m <=? 59))%Z eqn:Hm; [|discriminate].
  intros [= <-]. bool_to_prop. repeat split; assumption.
Qed.

(** A time of day is made of C [int]s. *)
Lemma datetime_time_in_range h m :
  0 <= h <= 23 -> 0 <= m <= 59 -> datetime_time h m = Ok (mk_time h m 0).
Proof.
  intros Hh Hm. unfold datetime_time, fits_int.
  replace ((-2147483648 <=? h) && (h <=? 2147483647))%Z with true
    by (symmetry; apply andb_true_intro; split; apply Z.leb_le; lia).
  replace ((-2147483648 <=? m) && (m <=? 2147483647))%Z with true
    by (symmetry; apply andb_true_intro; split; apply Z.leb_le; lia).
  cbn [andb negb].
  replace ((0 <=? h) && (h <=? 23))%Z with true
    by (symmetry; apply andb_true_intro; split; apply Z.leb_le; lia).
  replace ((0 <=? m) && (m <=? 59))%Z with true
    by (symmetry; apply andb_true_intro; split; apply Z.leb_le; lia).
  reflexivity.
Qed.

(** What [datetime.date(y, m, d)] returns is a date of the calendar. *)
Lemma datetime_date_ok y m d dt :
  datetime_date y m d = Ok dt ->
  dt = mk_date y m d
  /\ 1 <= y <= 9999 /\ 1 <= m <= 12 /\ 1 <= d <= days_in_month y m.
Proof.
  unfold datetime_date.
  destruct (fits_int y && fits_int m && fits_int d); cbn [negb];
    [|discriminate].
  destruct (_ && _)%bool eqn:Hc; [|discriminate].
  intros [= <-]. bool_to_prop. repeat split; assumption.
Qed.

Lemma days_in_month_le_31 y m : days_in_month y m <= 31.
Proof.
  unfold days_in_month, mdays.
  destruct ((m =? 2)%Z && isleap y) eqn:E.
  - apply andb_prop in E. destruct E as [E _]. apply Z.eqb_eq in E.
    subst m. lia.
  - destruct m as [|p|p]; try lia.
    do 4 (try (destruct p as [p|p|]; try lia)).
Qed.

Lemma fits_int_small n : -2147483648 <= n <= 2147483647 -> fits_int n = true.
Proof.
  intros H. unfold fits_int. apply andb_true_intro.
  split; apply Z.leb_le; lia.
Qed.

(** A date of the calendar is made of C [int]s. *)
Lemma datetime_date_in_range y m d :
  1 <= y <= 9999 -> 1 <= m <= 12 -> 1 <= d <= days_in_month y m ->
  datetime_date y m d = Ok (mk_date y m d).
Proof.
  intros Hy Hm Hd. pose proof (days_in_month_le_31 y m) as H31.
  unfold datetime_date.
  rewrite !fits_int_small by lia. cbn [andb negb].
  replace ((1 <=? y) && (y <=? 9999) && (1 <=? m) && (m <=? 12)
           && (1 <=? d) && (d <=? days_in_month y m))%Z with true;
    [reflexivity|].
  symmetry. repeat (apply andb_true_intro; split); apply Z.leb_le; lia.
Qed.

(** On times of day without seconds, the order of [datetime.time] is the
    order of the clock. *)
Lemma time_ltb_minutes a b :
  0 <= minute a <= 59 -> 0 <= minute b <= 59 -> second a = second b ->
  time_ltb a b = (minutes_of a <? minutes_of b)%Z.
Proof.
  intros Ha Hb Hs. unfold time_ltb, minutes_of. rewrite Hs, Z.ltb_irrefl.
  rewrite andb_false_r, orb_false_r.
  destruct (hour a <? hour b)%Z eqn:H1; cbn [orb andb]; bool_to_prop.
  - symmetry. apply Z.ltb_lt. lia.
  - destruct (hour a =? hour b)%Z eqn:H2; cbn [orb andb]; bool_to_prop.
    + rewrite H2.
      destruct (minute a <? minute b)%Z eqn:H3; symmetry; bool_to_prop;
        [apply Z.ltb_lt | apply Z.ltb_ge]; lia.
    + symmetry. apply Z.ltb_ge. lia.
Qed.

(** On well-formed time strings [validate_time] computes the comparison
    of the two clock times. *)
Lemma validate_time_well_formed start end_ s e :
  well_formed_time start s -> well_formed_time end_ e ->
  validate_time (Some start) (Some end_)
  = Ok (minutes_of s <? minutes_of e)%Z.
Proof.
  intros [Hps Hts] [Hpe Hte]. unfold validate_time.
  rewrite Hps. cbn [bind unpack2]. rewrite Hpe. cbn [bind unpack2].
  rewrite Hts, Hte. cbn [bind].
  apply datetime_time_ok in Hts, Hte.
  destruct Hts as (Es & _ & Hms), Hte as (Ee & _ & Hme).
  f_equal. apply time_ltb_minutes; try assumption.
  rewrite Es, Ee. reflexivity.
Qed.

(** The test of views.py on the same strings is the reverse comparison. *)
Lemma start_after_end_well_formed start end_ s e :
  well_formed_time start s -> well_formed_time end_ e ->
  start_after_end (Some start) (Some end_)
  = Ok (minutes_of e <? minutes_of s)%Z.
Proof.
  intros [Hps Hts] [Hpe Hte]. unfold start_after_end.
  rewrite Hps. cbn [bind unpack2]. rewrite Hpe. cbn [bind unpack2].
  rewrite Hts, Hte. cbn [bind].
  apply datetime_time_ok in Hts, Hte.
  destruct Hts as (Es & _ & Hms), Hte as (Ee & _ & Hme).
  f_equal. unfold time_gtb. apply time_ltb_minutes; try assumption.
  rewrite Es, Ee. reflexivity.
Qed.

(** The model of [validate_time] passes the repository's own test. *)
Lemma validate_time_passes_testValidateTime :
  Tests.testValidateTime validate_time = true.
Proof. reflexivity. Qed.

(** C4. For every pair of well-formed time strings, [validate_time]
    accepts exactly when the start strictly precedes the end; it rejects
    equal times and a start after the end. *)
Theorem validate_time_accepts_iff_start_precedes_end :
  forall start end_ s e,
    well_formed_time start s -> well_formed_time end_ e ->
    (validate_time (Some start) (Some end_) = Ok true <-> precedes s e)
    /\ (minutes_of s = minutes_of e ->
        validate_time (Some start) (Some end_) = Ok false)
    /\ (precedes e s ->
        validate_time (Some start) (Some end_) = Ok false).
Proof.
  intros start end_ s e Hs He.
  rewrite (validate_time_well_formed _ _ _ _ Hs He). unfold precedes.
  repeat split.
  - intros [= H]. now apply Z.ltb_lt.
  - intros H. f_equal. now apply Z.ltb_lt.
  - intros H. f_equal. apply Z.ltb_ge. lia.
  - intros H. f_equal. apply Z.ltb_ge. lia.
Qed.

Lemma validate_time_accepts_iff_start_precedes_end_witness :
  (validate_time (Some "09:00") (Some "17:00") = Ok true
   <-> precedes (mk_time 9 0 0) (mk_time 17 0 0))
  /\ (minutes_of (mk_time 9 0 0) = minutes_of (mk_time 17 0 0) ->
      validate_time (Some "09:00") (Some "17:00") = Ok false)
  /\ (precedes (mk_time 17 0 0) (mk_time 9 0 0) ->
      validate_time (Some "09:00") (Some "17:00") = Ok false).
Proof.
  apply (validate_time_accepts_iff_start_precedes_end
           "09:00" "17:00" (mk_time 9 0 0) (mk_time 17 0 0));
    split; reflexivity.
Defined.

Lemma In_zrange n : forall a x,
  a <= x < a + Z.of_nat n -> In x (zrange a n).
Proof.
  induction n as [|n IH]; intros a x Hx; cbn [zrange]; [lia|].
  destruct (Z.eq_dec a x) as [-> | Hne]; [now left | right].
  apply IH. lia.
Qed.

Lemma reads_back_all :
  forallb (fun h => forallb (reads_back h) (zrange 0 60)) (zrange 0 24) = true.
Proof. vm_compute. reflexivity. Qed.

(** Every time of day, written as hours and minutes of two digits, is a
    well-formed time string: the statement about [validate_time] covers
    all of 00:00 .. 23:59. *)
Lemma hhmm_well_formed h m :
  0 <= h <= 23 -> 0 <= m <= 59 ->
  well_formed_time (hhmm h m) (mk_time h m 0).
Proof.
  intros Hh Hm. pose proof reads_back_all as Hall.
  rewrite forallb_forall in Hall.
  specialize (Hall h (In_zrange 24 0 h ltac:(lia))).
  rewrite forallb_forall in Hall.
  specialize (Hall m (In_zrange 60 0 m ltac:(lia))).
  unfold reads_back in Hall. unfold well_formed_time. cbn [hour minute].
  split.
  - destruct (parse_time (Some (hhmm h m))) as [[|a [|b [|c l]]]|x];
      try discriminate.
    apply andb_prop in Hall. destruct Hall as [Ha Hb].
    apply Z.eqb_eq in Ha, Hb. now subst.
  - now apply datetime_time_in_range.
Qed.

(** ** The two time checks *)

(** C9. [ajax] of views.py turns a request away only when the start is
    strictly after the end: with equal start and end it goes on to save
    the entry, where [validate_time], the check of [ajax_add_entry] and
    [ajax_change_entry], answers [False] and the entry is refused. *)
Theorem ajax_saves_equal_times_that_validate_time_rejects :
  forall get r db start end_ s e,
    is_ajax r = true ->
    POST_get "start_time" r = Some start ->
    POST_get "end_time" r = Some end_ ->
    well_formed_time start s -> well_formed_time end_ e ->
    (precedes e s ->
     ajax get r db
     = (Ok (JsonResponse
              (mk_json (Some false) (Some "Start time after end time")
                       (Some EmptyString))), db))
    /\ (minutes_of s = minutes_of e ->
        ajax get r db
        = ajax_save get r
            (mk_json (Some false) (Some EmptyString) (Some EmptyString)) db
        /\ snd (ajax get r db)
           = snd (create_entry (PyInt 1) (POST_get "entry_date" r)
                    (Some start) (Some end_) (Some "00:15:00")
                    (POST_get "daytype" r) db)
        /\ validate_time (Some start) (Some end_) = Ok false
        /\ ajax_add_entry_body get r db
           = (Ok (set_error "Start time after end time" empty_json), db)
        /\ ajax_change_entry_body get r db
           = (Ok (set_error "Start time after end time" empty_json), db)).
Proof.
  intros get r db start end_ s e Hajax Hstart Hend Hs He.
  pose proof (start_after_end_well_formed _ _ _ _ Hs He) as Hgt.
  pose proof (validate_time_well_formed _ _ _ _ Hs He) as Hlt.
  unfold precedes. split.
  - intros H. unfold ajax. rewrite Hajax, Hstart, Hend, Hgt.
    cbn [negb]. apply Z.ltb_lt in H. rewrite H. reflexivity.
  - intros H.
    assert (Hsave : ajax get r db
                    = ajax_save get r
                        (mk_json (Some false) (Some EmptyString)
                                 (Some EmptyString)) db).
    { unfold ajax. rewrite Hajax, Hstart, Hend, Hgt. cbn [negb].
      rewrite H, Z.ltb_irrefl. reflexivity. }
    rewrite H, Z.ltb_irrefl in Hlt.
    repeat split.
    + exact Hsave.
    + rewrite Hsave. unfold ajax_save. rewrite Hstart, Hend.
      destruct (create_entry _ _ _ _ _ _ db) as [[u|x] db']; cbn [snd].
      * destruct (calendar_for _ _ _ db') as [c|x]; [reflexivity|].
        destruct x; try reflexivity.
        destruct (code =? DUPLICATE_ENTRY)%Z; reflexivity.
      * destruct x; try reflexivity.
        destruct (code =? DUPLICATE_ENTRY)%Z; reflexivity.
    + exact Hlt.
    + unfold ajax_add_entry_body. rewrite Hstart, Hend, Hlt. reflexivity.
    + unfold ajax_change_entry_body. rewrite Hstart, Hend, Hlt. reflexivity.
Qed.

Lemma ajax_saves_equal_times_that_validate_time_rejects_witness :
  snd (ajax Examples.users Examples.equal_times_request [])
  = [ TrackingEntry.mk 1 1 (mk_date 2012 1 5) (mk_time 10 0 0)
        (mk_time 10 0 0) (mk_time 0 15 0) "WKDAY" ]
  /\ validate_time (Some "10:00") (Some "10:00") = Ok false.
Proof.
  pose proof (ajax_saves_equal_times_that_validate_time_rejects
                Examples.users Examples.equal_times_request []
                "10:00" "10:00" (mk_time 10 0 0) (mk_time 10 0 0)
                eq_refl eq_refl eq_refl
                (conj eq_refl eq_refl) (conj eq_refl eq_refl)) as [_ H].
  destruct (H eq_refl) as (_ & Hsnd & Hv & _).
  split; [rewrite Hsnd; reflexivity | exact Hv].
Defined.

(** ** The month check of the calendar renderer *)

Lemma in_keys_MONTH_MAP m :
  in_keys (m - 1) MONTH_MAP_keys = true <-> 1 <= m <= 12.
Proof.
  unfold in_keys. rewrite existsb_exists. split.
  - intros (k & Hin & Hk). apply Z.eqb_eq in Hk.
    cbn in Hin. intuition lia.
  - intros H. exists (m - 1). split; [|apply Z.eqb_refl].
    cbn. lia.
Qed.

Lemma mapM_raise {A B} (f : A -> result B) l x :
  mapM f l = Raise x -> exists a, In a l /\ f a = Raise x.
Proof.
  induction l as [|a l IH]; cbn [mapM]; [discriminate|].
  destruct (f a) as [b|y] eqn:Hf; cbn [bind].
  - destruct (mapM f l) as [bs|y]; cbn [bind]; [discriminate|].
    intros [= ->]. destruct (IH eq_refl) as (a' & Hin & Ha').
    exists a'. split; [now right | assumption].
  - intros [= ->]. exists a. split; [now left | assumption].
Qed.

Lemma render_day_raise database y m d x :
  render_day database y m d = Raise x ->
  x = MultipleObjectsReturned \/ x = UnicodeEncodeError.
Proof.
  unfold render_day.
  destruct (filter _ database) as [|e1 [|e2 rows]]; cbn [queryset_get].
  - discriminate.
  - destruct (ascii_text _); [discriminate | intros [= <-]; now right].
  - intros [= <-]. now left.
Qed.

Lemma monthcalendar_raise y m x :
  monthcalendar y m = Raise x -> x = ValueError \/ x = OverflowError.
Proof.
  unfold monthcalendar, datetime_date.
  destruct (negb _); cbn [bind]; [intros [= <-]; now right|].
  destruct (_ && _)%bool; cbn [bind]; [discriminate|].
  intros [= <-]. now left.
Qed.

(** C6. Whatever the year, the day and the user: a month outside 1..12
    makes [gen_calendar] raise [Http404] instead of rendering a grid, and a
    month within 1..12 never does. *)
Theorem gen_calendar_raises_Http404_iff_month_outside_1_12 :
  forall get today_ year month day user db,
    (forall v, get v <> Raise Http404) ->
    ((month < 1 \/ 12 < month) ->
     gen_calendar get year month day user db = Raise Http404
     /\ calendar_wrapper today_ (gen_calendar get)
          (WithArguments year month day user) db = Raise Http404)
    /\ (1 <= month <= 12 ->
        gen_calendar get year month day user db <> Raise Http404
        /\ calendar_wrapper today_ (gen_calendar get)
             (WithArguments year month day user) db <> Raise Http404).
Proof.
  intros get today_ y m d user db Hget.
  split; intros Hm.
  - assert (E : gen_calendar get y m d user db = Raise Http404).
    { unfold gen_calendar, gen_calendar_grid.
      destruct (in_keys (m - 1) MONTH_MAP_keys) eqn:Hk;
        [apply in_keys_MONTH_MAP in Hk; lia | reflexivity]. }
    split; [exact E|]. cbn [calendar_wrapper]. rewrite E. reflexivity.
  - assert (E : gen_calendar get y m d user db <> Raise Http404).
    { unfold gen_calendar, gen_calendar_grid.
      destruct (in_keys (m - 1) MONTH_MAP_keys) eqn:Hk;
        [|apply in_keys_MONTH_MAP in Hm; congruence].
      cbn [negb]. destruct (get user) as [u|x] eqn:Hu; cbn [bind].
      + destruct (monthcalendar y m) as [weeks|x] eqn:Hc; cbn [bind].
        * destruct (mapM _ weeks) as [rows|x] eqn:Hrows; cbn [bind];
            [discriminate|].
          apply mapM_raise in Hrows. destruct Hrows as (w & _ & Hw).
          apply mapM_raise in Hw. destruct Hw as (d' & _ & Hd).
          apply render_day_raise in Hd. destruct Hd as [-> | ->]; discriminate.
        * apply monthcalendar_raise in Hc. destruct Hc as [-> | ->]; discriminate.
      + intros [= ->]. now apply (Hget user). }
    split; [exact E|]. cbn [calendar_wrapper].
    destruct (gen_calendar get y m d user db) as [html|x]; cbn [bind];
      [discriminate | intros [= ->]; now apply E].
Qed.

Lemma gen_calendar_raises_Http404_iff_month_outside_1_12_witness :
  gen_calendar (fun _ => Ok Tests.linked_user) 2012 13 1 (PyInt 3) []
  = Raise Http404
  /\ gen_calendar (fun _ => Ok Tests.linked_user) 2012 12 1 (PyInt 3) []
     <> Raise Http404.
Proof.
  destruct (gen_calendar_raises_Http404_iff_month_outside_1_12
              (fun _ => Ok Tests.linked_user) (mk_date 2012 1 1)
              2012 13 1 (PyInt 3) []) as [H13 _]; [discriminate|].
  destruct (gen_calendar_raises_Http404_iff_month_outside_1_12
              (fun _ => Ok Tests.linked_user) (mk_date 2012 1 1)
              2012 12 1 (PyInt 3) []) as [_ H12]; [discriminate|].
  split; [apply H13; right; lia | apply H12; lia].
Defined.

(** ** The table and its uniqueness constraint *)

Lemma date_eqb_eq a b : date_eqb a b = true <-> a = b.
Proof.
  unfold date_eqb. destruct a as [y1 m1 d1], b as [y2 m2 d2]. cbn.
  rewrite !andb_true_iff, !Z.eqb_eq. split.
  - intros [[-> ->] ->]. reflexivity.
  - intros [= -> -> ->]. auto.
Qed.

Lemma key_is_iff u d e : key_is u d e = true <-> entry_key e = (u, d).
Proof.
  unfold key_is, entry_key. rewrite andb_true_iff, Z.eqb_eq, date_eqb_eq.
  split; [intros [-> ->]; reflexivity | intros [= -> ->]; auto].
Qed.

Lemma same_key_iff a b : same_key a b = true <-> entry_key a = entry_key b.
Proof.
  unfold same_key, entry_key. rewrite andb_true_iff, Z.eqb_eq, date_eqb_eq.
  split; [intros [-> ->]; reflexivity | intros [= -> ->]; auto].
Qed.

Lemma existsb_same_key e db :
  existsb (same_key e) db = true <-> In (entry_key e) (map entry_key db).
Proof.
  rewrite existsb_exists, in_map_iff. split.
  - intros (r & Hin & Hk). apply same_key_iff in Hk. eauto.
  - intros (r & Hk & Hin). exists r. split; [assumption|].
    now apply same_key_iff.
Qed.

Lemma with_id_key i e :
  entry_key (TrackingEntry.with_id i e) = entry_key e.
Proof. reflexivity. Qed.

Lemma ids_below_next_id db i :
  In i (map TrackingEntry.id db) -> i < next_id db.
Proof.
  unfold next_id. induction db as [|r db IH]; cbn [map fold_right In];
    [tauto|].
  intros [<- | Hin]; [lia | specialize (IH Hin); lia].
Qed.

Lemma next_id_fresh db : ~ In (next_id db) (map TrackingEntry.id db).
Proof. intros H. apply ids_below_next_id in H. lia. Qed.

(** The insert of a row whose (user, date) is taken is refused and leaves
    the table as it was. *)
Lemma save_new_duplicate e db :
  existsb (same_key e) db = true ->
  save_new e db = (Raise (IntegrityError DUPLICATE_ENTRY "Duplicate entry"), db).
Proof. intros H. unfold save_new. now rewrite H. Qed.

(** An accepted insert appends the row, and the row is found again. *)
Lemma save_new_fresh e db :
  existsb (same_key e) db = false ->
  save_new e db
  = (Ok tt, (db ++ [TrackingEntry.with_id (next_id db) e])%list).
Proof. intros H. unfold save_new. now rewrite H. Qed.

Lemma save_new_well_formed e db :
  well_formed_table db ->
  valid_date (TrackingEntry.entry_date e) ->
  well_formed_table (snd (save_new e db)).
Proof.
  intros (Hk & Hi & Hd) He. unfold save_new.
  destruct (existsb (same_key e) db) eqn:Hdup; cbn [snd];
    [repeat split; assumption|].
  repeat split.
  - unfold unique_entries. rewrite map_app. apply NoDup_app; trivial.
    + cbn. constructor; [tauto | constructor].
    + intros k Hin [<- | []]. rewrite with_id_key in Hin.
      apply existsb_same_key in Hin. congruence.
  - rewrite map_app. apply NoDup_app; trivial.
    + cbn. constructor; [tauto | constructor].
    + intros k Hin [<- | []]. cbn in Hin. now apply next_id_fresh in Hin.
  - apply Forall_app. split; [assumption|]. constructor; [exact He | constructor].
Qed.

Lemma filter_none {A} (p : A -> bool) l :
  (forall x, In x l -> p x = false) -> filter p l = [].
Proof.
  induction l as [|a l IH]; cbn; [reflexivity|]. intros H.
  rewrite (H a (or_introl eq_refl)). apply IH. intros x Hx. apply H. now right.
Qed.

(** In a table with one row per (user, date), the look-up by (user, date)
    finds the row and nothing else. *)
Lemma filter_key_unique db old :
  unique_entries db -> In old db ->
  filter (key_is (TrackingEntry.user_id old) (TrackingEntry.entry_date old)) db
  = [old].
Proof.
  unfold unique_entries.
  induction db as [|a db IH]; cbn [map filter]; [intros _ []|].
  intros Hnd Hin. inversion Hnd as [|k ks Hnotin Hnd']; subst.
  destruct Hin as [-> | Hin].
  - assert (Hk : key_is (TrackingEntry.user_id old)
                   (TrackingEntry.entry_date old) old = true)
      by now apply key_is_iff.
    rewrite Hk. f_equal. apply filter_none. intros x Hx.
    destruct (key_is _ _ x) eqn:E; [|reflexivity].
    apply key_is_iff in E. exfalso. apply Hnotin.
    apply in_map_iff. exists x. split; [exact E | exact Hx].
  - destruct (key_is _ _ a) eqn:E.
    + apply key_is_iff in E. exfalso. apply Hnotin.
      apply in_map_iff. exists old. split; [now rewrite E | exact Hin].
    + now apply IH.
Qed.

Lemma NoDup_map_injective {A B} (f : A -> B) l a b :
  NoDup (map f l) -> In a l -> In b l -> f a = f b -> a = b.
Proof.
  induction l as [|c l IH]; cbn [map In]; [tauto|].
  intros Hnd Ha Hb E. inversion Hnd as [|x xs Hnotin Hnd']; subst.
  destruct Ha as [-> | Ha], Hb as [-> | Hb]; trivial.
  - exfalso. apply Hnotin. rewrite E. now apply in_map.
  - exfalso. apply Hnotin. rewrite <- E. now apply in_map.
  - now apply IH.
Qed.

(** With one row per primary key and per (user, date), rewriting the row
    of [old] with another day-type is changing the day-type of the row of
    its (user, date), and of no other row. *)
Lemma save_existing_with_daytype db old d :
  well_formed_table db -> In old db ->
  save_existing (TrackingEntry.with_daytype d old) db
  = map (fun r =>
           if key_is (TrackingEntry.user_id old)
                     (TrackingEntry.entry_date old) r
           then TrackingEntry.with_daytype d r else r) db.
Proof.
  intros (Hk & Hi & _) Hin. unfold save_existing. apply map_ext_in.
  intros r Hr. cbn [TrackingEntry.id TrackingEntry.with_daytype].
  destruct (TrackingEntry.id r =? TrackingEntry.id old)%Z eqn:Eid;
    destruct (key_is _ _ r) eqn:Ekey; trivial.
  - apply Z.eqb_eq in Eid.
    now rewrite (NoDup_map_injective _ _ _ _ Hi Hr Hin Eid).
  - apply Z.eqb_eq in Eid.
    rewrite (NoDup_map_injective _ _ _ _ Hi Hr Hin Eid) in Ekey.
    now rewrite (proj2 (key_is_iff _ _ old) eq_refl) in Ekey.
  - apply key_is_iff in Ekey.
    assert (r = old) as ->
      by (apply (NoDup_map_injective entry_key db); assumption).
    now rewrite Z.eqb_refl in Eid.
Qed.

Lemma map_daytype_well_formed (p : TrackingEntry.t -> bool) d db :
  well_formed_table db ->
  well_formed_table
    (map (fun r => if p r then TrackingEntry.with_daytype d r else r) db).
Proof.
  intros (Hk & Hi & Hd). unfold well_formed_table, unique_entries.
  rewrite !map_map.
  rewrite (map_ext (fun r => entry_key (if p r then TrackingEntry.with_daytype d r else r))
             entry_key) by (intros r; now destruct (p r)).
  rewrite (map_ext (fun r => TrackingEntry.id (if p r then TrackingEntry.with_daytype d r else r))
             TrackingEntry.id) by (intros r; now destruct (p r)).
  repeat split; trivial.
  apply Forall_map. eapply Forall_impl; [|exact Hd].
  intros r Hr. now destruct (p r).
Qed.

Lemma NoDup_map_filter {A B} (f : A -> B) (p : A -> bool) l :
  NoDup (map f l) -> NoDup (map f (filter p l)).
Proof.
  induction l as [|a l IH]; cbn; [trivial|].
  intros H. inversion H as [|x xs Hnotin Hnd]; subst.
  destruct (p a); cbn; [|now apply IH].
  constructor; [|now apply IH].
  intros Hin. apply Hnotin. apply in_map_iff in Hin.
  destruct Hin as (x & <- & Hx). apply in_map. now apply filter_In in Hx.
Qed.

Lemma delete_row_well_formed e db :
  well_formed_table db -> well_formed_table (delete_row e db).
Proof.
  intros (Hk & Hi & Hd). unfold delete_row. repeat split.
  - now apply NoDup_map_filter.
  - now apply NoDup_map_filter.
  - apply Forall_forall. intros r Hr. apply filter_In in Hr.
    rewrite Forall_forall in Hd. now apply Hd.
Qed.

Lemma to_date_valid s d : to_date s = Ok d -> valid_date d.
Proof.
  unfold to_date.
  destruct (mapM py_int (split "-" s)) as [parts|x]; cbn [bind];
    [|discriminate].
  destruct (unpack3 parts) as [[[y m] d']|x]; cbn [bind]; [|discriminate].
  destruct (datetime_date y m d') as [d0|x] eqn:E; [|discriminate].
  intros [= ->]. unfold valid_date.
  apply datetime_date_ok in E. destruct E as (-> & Hy & Hm & Hd).
  cbn [year month day]. now apply datetime_date_in_range.
Qed.

Lemma not_null_ok {A} column (v : option A) a :
  not_null column v = Ok a -> v = Some a.
Proof. destruct v; cbn; congruence. Qed.

Lemma convert_some {A} (f : string -> result A) v a :
  convert f v = Ok (Some a) -> exists s, v = Some s /\ f s = Ok a.
Proof.
  destruct v as [s|]; cbn [convert]; [|discriminate].
  destruct (f s) as [a'|x] eqn:E; cbn [bind]; [|discriminate].
  intros [= ->]. eauto.
Qed.

(** What the model layer builds from submitted values: a row without a
    primary key, for the user and the date that were submitted. *)
Lemma TrackingEntry_new_ok user_id entry_date start_time end_time breaks
    daytype e :
  TrackingEntry_new user_id entry_date start_time end_time breaks daytype
  = Ok e ->
  exists s u,
    entry_date = Some s /\ to_date s = Ok (TrackingEntry.entry_date e)
    /\ to_user_id user_id = Ok (Some u) /\ TrackingEntry.user_id e = u
    /\ daytype = Some (TrackingEntry.daytype e)
    /\ valid_date (TrackingEntry.entry_date e).
Proof.
  unfold TrackingEntry_new. bind_ok. intros [= <-].
  repeat match goal with
    | H : not_null _ _ = Ok _ |- _ => apply not_null_ok in H; subst
    end.
  match goal with
  | H : convert to_date _ = Ok _ |- _ =>
      apply convert_some in H; destruct H as (s & -> & Hs)
  end.
  eexists s, _.
  cbn [TrackingEntry.entry_date TrackingEntry.user_id TrackingEntry.daytype].
  repeat split; trivial. now apply to_date_valid in Hs.
Qed.

Lemma create_entry_well_formed user_id entry_date start_time end_time breaks
    daytype db :
  well_formed_table db ->
  well_formed_table
    (snd (create_entry user_id entry_date start_time end_time breaks daytype
            db)).
Proof.
  intros Hdb. unfold create_entry.
  destruct (TrackingEntry_new _ _ _ _ _ _) as [e|x] eqn:E; [|exact Hdb].
  apply save_new_well_formed; [exact Hdb|].
  apply TrackingEntry_new_ok in E. destruct E as (s & u & _ & _ & _ & _ & _ & H).
  exact H.
Qed.

(** ** What the handlers answer on a refused request *)

Lemma request_check_authenticated func r db :
  authenticated r -> request_check func r db = func r db.
Proof. intros [Ha Hs]. unfold request_check. now rewrite Ha, Hs. Qed.

Lemma admin_check_authenticated func r db :
  authenticated r -> admin_check func r db = func r db.
Proof. intros [Ha Hs]. unfold admin_check. now rewrite Hs. Qed.

(** The insert of [ajax_add_entry] and of [ajax] is the insert of the
    row of the form. *)
Lemma create_entry_form_duplicate r e db :
  form_entry r = Ok e -> existsb (same_key e) db = true ->
  create_entry (session_user r) (POST_get "entry_date" r)
    (POST_get "start_time" r) (POST_get "end_time" r)
    (POST_get "breaks" r) (POST_get "daytype" r) db
  = (Raise (IntegrityError DUPLICATE_ENTRY "Duplicate entry"), db).
Proof.
  intros He Hdup. unfold create_entry. unfold form_entry in He.
  rewrite He. now apply save_new_duplicate.
Qed.

(** [ajax_add_entry] on a duplicate: the message, no other key, the table
    as it was. *)
Lemma ajax_add_entry_duplicate get r e db :
  authenticated r ->
  validate_time (POST_get "start_time" r) (POST_get "end_time" r) = Ok true ->
  form_entry r = Ok e -> existsb (same_key e) db = true ->
  ajax_add_entry get r db
  = (Ok (JsonResponse
           (mk_json None (Some "There is a duplicate entry for this value")
                    None)), db).
Proof.
  intros Hr Hv He Hdup. unfold ajax_add_entry.
  rewrite request_check_authenticated by assumption.
  unfold json_response, ajax_add_entry_body. rewrite Hv.
  rewrite (create_entry_form_duplicate r e db He Hdup). reflexivity.
Qed.

(** The same refusals through [ajax] of views.py: there the answer is
    built on [{"success": False, "error": "", "calendar": ""}]. *)
Lemma ajax_refusals_say_success_false get r db :
  is_ajax r = true ->
  (start_after_end (POST_get "start_time" r) (POST_get "end_time" r) = Ok true ->
   ajax get r db
   = (Ok (JsonResponse
            (mk_json (Some false) (Some "Start time after end time")
                     (Some EmptyString))), db))
  /\ (forall e,
        start_after_end (POST_get "start_time" r) (POST_get "end_time" r)
        = Ok false ->
        TrackingEntry_new (PyInt 1) (POST_get "entry_date" r)
          (POST_get "start_time" r) (POST_get "end_time" r)
          (Some "00:15:00") (POST_get "daytype" r) = Ok e ->
        existsb (same_key e) db = true ->
        ajax get r db
        = (Ok (JsonResponse
                 (mk_json (Some false)
                    (Some "There is a duplicate entry for this value")
                    (Some EmptyString))), db)).
Proof.
  intros Ha. unfold ajax. rewrite Ha. cbn [negb]. split.
  - intros ->. reflexivity.
  - intros e -> He Hdup. unfold ajax_save, create_entry. rewrite He.
    rewrite (save_new_duplicate e db Hdup). reflexivity.
Qed.

(** C5. A request to [ajax_add_entry] or [ajax_change_entry] that fails
    the time validation, and a request to [ajax_add_entry] that collides
    with an entry of the same user and date, is answered normally with a
    JSON object whose [error] is a message; the object has no [success]
    key at all, where the claim has [success] false. *)
Theorem ajax_add_entry_refusal_lacks_success_key :
  forall get r db,
    authenticated r ->
    (validate_time (POST_get "start_time" r) (POST_get "end_time" r)
     = Ok false ->
     ajax_add_entry get r db
     = (Ok (JsonResponse (mk_json None (Some "Start time after end time") None)),
        db)
     /\ ajax_change_entry get r db
        = (Ok (JsonResponse
                 (mk_json None (Some "Start time after end time") None)), db))
    /\ (forall e,
          validate_time (POST_get "start_time" r) (POST_get "end_time" r)
          = Ok true ->
          form_entry r = Ok e -> existsb (same_key e) db = true ->
          ajax_add_entry get r db
          = (Ok (JsonResponse
                   (mk_json None
                      (Some "There is a duplicate entry for this value") None)),
             db)).
Proof.
  intros get r db Hr. split.
  - intros Hv. unfold ajax_add_entry, ajax_change_entry.
    rewrite !request_check_authenticated by assumption.
    unfold json_response, ajax_add_entry_body, ajax_change_entry_body.
    rewrite Hv. split; reflexivity.
  - intros e Hv He Hdup. now apply ajax_add_entry_duplicate with (e := e).
Qed.

Lemma ajax_add_entry_refusal_lacks_success_key_witness :
  ajax_add_entry Examples.users Examples.add_backwards []
  = (Ok (JsonResponse (mk_json None (Some "Start time after end time") None)),
     [])
  /\ ajax_add_entry Examples.users Examples.add_again [Examples.workday_row]
     = (Ok (JsonResponse
              (mk_json None (Some "There is a duplicate entry for this value")
                       None)),
        [Examples.workday_row]).
Proof.
  split.
  - apply (ajax_add_entry_refusal_lacks_success_key
             Examples.users Examples.add_backwards []).
    + split; reflexivity.
    + reflexivity.
  - apply (ajax_add_entry_refusal_lacks_success_key
             Examples.users Examples.add_again [Examples.workday_row]
             (conj eq_refl eq_refl))
      with (e := TrackingEntry.mk 0 1 (mk_date 2012 1 5) (mk_time 10 0 0)
                   (mk_time 11 0 0) (mk_time 0 15 0) "HOLIS");
      reflexivity.
Defined.

(** ** One entry per user and date *)

Lemma queryset_get_ok rows e : queryset_get rows = Ok e -> rows = [e].
Proof.
  destruct rows as [|a [|b rows]]; cbn; congruence.
Qed.

Lemma objects_get_ok user_id entry_date db e :
  objects_get user_id entry_date db = Ok e ->
  In e db
  /\ exists u d, to_user_id user_id = Ok (Some u) /\ to_date entry_date = Ok d
                 /\ entry_key e = (u, d).
Proof.
  unfold objects_get.
  destruct (to_user_id user_id) as [[u|]|x]; cbn [bind]; try discriminate.
  - destruct (to_date entry_date) as [d|x]; cbn [bind]; [|discriminate].
    intros H. apply queryset_get_ok in H.
    assert (Hin : In e (filter (key_is u d) db)) by (rewrite H; now left).
    apply filter_In in Hin. destruct Hin as [Hin Hk].
    apply key_is_iff in Hk. eauto 6.
  - destruct (to_date entry_date); cbn [bind]; discriminate.
Qed.

(** Every round of the loop of [mass_holidays] keeps the table well
    formed. *)
Lemma mass_holidays_entry_well_formed year month user_id json_data entry db :
  well_formed_table db ->
  well_formed_table
    (snd (mass_holidays_entry year month user_id json_data entry db)).
Proof.
  intros Hdb. unfold mass_holidays_entry.
  destruct (py_int (fst entry)) as [n|x]; [|exact Hdb].
  destruct year as [year|]; [|exact Hdb].
  destruct month as [month|]; [|exact Hdb].
  destruct (_ || _)%bool.
  - destruct (objects_get _ _ db) as [removal|x]; cbn [snd].
    + now apply delete_row_well_formed.
    + destruct x; exact Hdb.
  - pose proof (create_entry_well_formed (opt_pyval user_id)
                  (Some (join "-" [year; month; str_Z n]))
                  (Some "00:00:00") (Some "00:00:00") (Some "00:00:00")
                  (Some (snd entry)) db Hdb) as Hdb'.
    destruct (create_entry _ _ _ _ _ _ db) as [[u|x] db']; cbn [snd] in *;
      [exact Hdb'|].
    destruct x; try exact Hdb'.
    destruct (code =? DUPLICATE_ENTRY)%Z; [|exact Hdb'].
    destruct (objects_get _ _ db') as [change|x] eqn:Hget; cbn [snd];
      [|exact Hdb'].
    apply objects_get_ok in Hget. destruct Hget as [Hin _].
    rewrite save_existing_with_daytype by assumption.
    now apply map_daytype_well_formed.
Qed.

Lemma mass_holidays_loop_well_formed year month user_id json_data items :
  forall db,
    well_formed_table db ->
    well_formed_table
      (snd (mass_holidays_loop year month user_id json_data items db)).
Proof.
  induction items as [|entry rest IH]; intros db Hdb; cbn [mass_holidays_loop];
    [exact Hdb|].
  pose proof (mass_holidays_entry_well_formed year month user_id json_data
                entry db Hdb) as Hstep.
  destruct (mass_holidays_entry _ _ _ _ entry db) as [[[j|]|x] db'];
    cbn [snd] in *; trivial.
  now apply IH.
Qed.

Lemma snd_json_response func r db :
  snd (json_response func r db) = snd (func r db).
Proof.
  unfold json_response. now destruct (func r db) as [[j|x] db'].
Qed.

Lemma mass_holidays_well_formed r db :
  well_formed_table db -> well_formed_table (snd (mass_holidays r db)).
Proof.
  intros Hdb. unfold mass_holidays, request_check, admin_check.
  destruct (negb (is_ajax r)); [exact Hdb|].
  destruct (negb (truthy_id (session_user_id r))); [exact Hdb|].
  rewrite snd_json_response. unfold mass_holidays_body.
  destruct (holiday_data r) as [items|]; [|exact Hdb].
  now apply mass_holidays_loop_well_formed.
Qed.

Lemma ajax_add_entry_table get r db :
  snd (ajax_add_entry get r db) = db
  \/ snd (ajax_add_entry get r db)
     = snd (create_entry (session_user r) (POST_get "entry_date" r)
              (POST_get "start_time" r) (POST_get "end_time" r)
              (POST_get "breaks" r) (POST_get "daytype" r) db).
Proof.
  unfold ajax_add_entry, request_check.
  destruct (negb (is_ajax r)); [now left|].
  destruct (negb (truthy_id (session_user_id r))); [now left|].
  rewrite snd_json_response. unfold ajax_add_entry_body.
  destruct (validate_time _ _) as [[|]|x].
  - right. destruct (create_entry _ _ _ _ _ _ db) as [[u|x] db']; cbn [snd].
    + now destruct (calendar_for _ _ _ db').
    + destruct x; trivial. now destruct (code =? DUPLICATE_ENTRY)%Z.
  - now left.
  - left. now destruct x.
Qed.

Lemma ajax_add_entry_well_formed get r db :
  well_formed_table db -> well_formed_table (snd (ajax_add_entry get r db)).
Proof.
  intros Hdb. destruct (ajax_add_entry_table get r db) as [-> | ->];
    [exact Hdb | now apply create_entry_well_formed].
Qed.

(** When [ajax_add_entry] answers with success, the row of the form is in
    the table. *)
Lemma ajax_add_entry_success_stores get r db j db1 e :
  ajax_add_entry get r db = (Ok (JsonResponse j), db1) ->
  success j = Some true ->
  form_entry r = Ok e ->
  In (entry_key e) (map entry_key db1).
Proof.
  unfold ajax_add_entry, request_check.
  destruct (negb (is_ajax r)); [discriminate|].
  destruct (negb (truthy_id (session_user_id r))); [discriminate|].
  unfold json_response, ajax_add_entry_body, form_entry.
  destruct (validate_time _ _) as [[|]|x].
  - unfold create_entry. intros H Hs He. rewrite He in H.
    unfold save_new in H. destruct (existsb (same_key e) db) eqn:Hdup.
    + cbn in H. injection H as <- <-. discriminate.
    + destruct (calendar_for _ _ _ _); [|discriminate].
      injection H as <- <-. rewrite map_app. apply in_or_app. right.
      now left.
  - intros [= <- <-]. discriminate.
  - destruct x; try discriminate. intros [= <- <-]. discriminate.
Qed.

(** C1, as the claim has it, fails on [mass_holidays]: user 1 books
    2012-01-05 as a working day through [ajax_add_entry]; planning the same
    day as a holiday through [mass_holidays] then reports success, with no
    error, and the stored entry has changed. *)
Lemma mass_holidays_overwrites_the_existing_entry :
  let db1 := snd (ajax_add_entry Examples.users Examples.add_workday []) in
  exists j db2,
    db1 = [Examples.workday_row]
    /\ mass_holidays Examples.plan_holiday db1 = (Ok (JsonResponse j), db2)
    /\ success j = Some true
    /\ error j = Some EmptyString
    /\ db2 <> db1
    /\ map TrackingEntry.daytype db1 = ["WKDAY"]
    /\ map TrackingEntry.daytype db2 = ["HOLIS"].
Proof.
  exists (mk_json (Some true) (Some EmptyString) None),
         [TrackingEntry.with_daytype "HOLIS" Examples.workday_row].
  repeat split; try reflexivity. discriminate.
Qed.

(** C1, amended. A well-formed table holds at most one entry per
    (user, date), and [ajax_add_entry] and [mass_holidays] keep it so.  A
    second insert for a (user, date) through [TrackingEntry.save] is refused
    with the uniqueness error and stores nothing; through [ajax_add_entry]
    the error is reported to the caller and the table, the first entry
    included, stays as it was. *)
Theorem duplicate_insert_is_refused_and_reported :
  forall get db,
    well_formed_table db ->
    (forall r, well_formed_table (snd (ajax_add_entry get r db)))
    /\ (forall r, well_formed_table (snd (mass_holidays r db)))
    /\ (forall e,
          In (entry_key e) (map entry_key db) ->
          save_new e db
          = (Raise (IntegrityError DUPLICATE_ENTRY "Duplicate entry"), db))
    /\ (forall r1 r2 e1 e2 j db1,
          ajax_add_entry get r1 db = (Ok (JsonResponse j), db1) ->
          success j = Some true ->
          form_entry r1 = Ok e1 ->
          authenticated r2 ->
          validate_time (POST_get "start_time" r2) (POST_get "end_time" r2)
          = Ok true ->
          form_entry r2 = Ok e2 ->
          entry_key e2 = entry_key e1 ->
          ajax_add_entry get r2 db1
          = (Ok (JsonResponse
                   (mk_json None
                      (Some "There is a duplicate entry for this value") None)),
             db1)).
Proof.
  intros get db Hdb. repeat split.
  - apply ajax_add_entry_well_formed; assumption.
  - apply ajax_add_entry_well_formed; assumption.
  - apply ajax_add_entry_well_formed; assumption.
  - apply mass_holidays_well_formed; assumption.
  - apply mass_holidays_well_formed; assumption.
  - apply mass_holidays_well_formed; assumption.
  - intros e Hin. apply save_new_duplicate. now apply existsb_same_key.
  - intros r1 r2 e1 e2 j db1 H1 Hj He1 Hr2 Hv He2 Hk.
    apply ajax_add_entry_duplicate with (e := e2); trivial.
    apply existsb_same_key. rewrite Hk.
    now apply (ajax_add_entry_success_stores get r1 db j db1 e1).
Qed.

Lemma duplicate_insert_is_refused_and_reported_witness :
  well_formed_table [Examples.workday_row]
  /\ ajax_add_entry Examples.users Examples.add_again [Examples.workday_row]
     = (Ok (JsonResponse
              (mk_json None (Some "There is a duplicate entry for this value")
                       None)),
        [Examples.workday_row]).
Proof.
  assert (H0 : well_formed_table []).
  { repeat split; constructor. }
  destruct (duplicate_insert_is_refused_and_reported Examples.users [] H0)
    as (Hwf & _ & _ & Hpair).
  split.
  - exact (Hwf Examples.add_workday).
  - eapply (Hpair Examples.add_workday Examples.add_again
              (TrackingEntry.mk 0 1 (mk_date 2012 1 5) (mk_time 9 0 0)
                 (mk_time 17 0 0) (mk_time 0 15 0) "WKDAY")
              (TrackingEntry.mk 0 1 (mk_date 2012 1 5) (mk_time 10 0 0)
                 (mk_time 11 0 0) (mk_time 0 15 0) "HOLIS")).
    + vm_compute. reflexivity.
    + reflexivity.
    + reflexivity.
    + split; reflexivity.
    + reflexivity.
    + reflexivity.
    + reflexivity.
Defined.

(** ** The duplicate branch of [mass_holidays] *)

Lemma set_daytype_of_frame old daytype db :
  Forall2 (fun row row' =>
             same_but_daytype row row'
             /\ TrackingEntry.daytype row'
                = if key_is (TrackingEntry.user_id old)
                            (TrackingEntry.entry_date old) row
                  then daytype else TrackingEntry.daytype row)
          db (set_daytype_of old daytype db).
Proof.
  unfold set_daytype_of. induction db as [|row db IH]; cbn [map];
    constructor; trivial.
  destruct (key_is _ _ row); repeat split; reflexivity.
Qed.

(** C10. When a day of [mass_holidays] collides with the entry [old] of
    the same user and date, the round of the loop sets the day-type of that
    entry and goes on; every row keeps its primary key, user, date, start
    time, end time and break, and the rows of other users and dates keep
    their day-type as well.  A request with this one day is answered with
    success and an empty error. *)
Theorem mass_holidays_duplicate_sets_daytype_only :
  forall r db year month user_id day_key daytype n e old json_data,
    well_formed_table db ->
    authenticated r ->
    POST_get "year" r = Some year ->
    POST_get "month" r = Some month ->
    POST_get "user_id" r = Some user_id ->
    stored_daytype daytype ->
    py_int day_key = Ok n ->
    holiday_entry year month user_id n daytype = Ok e ->
    In old db -> entry_key old = entry_key e ->
    mass_holidays_entry (Some year) (Some month) (Some user_id) json_data
      (day_key, daytype) db
    = (Ok None, set_daytype_of old daytype db)
    /\ (holiday_data r = Some [(day_key, daytype)] ->
        mass_holidays r db
        = (Ok (JsonResponse (mk_json (Some true) (Some EmptyString) None)),
           set_daytype_of old daytype db))
    /\ Forall2 (fun row row' =>
                  same_but_daytype row row'
                  /\ TrackingEntry.daytype row'
                     = if same_key old row then daytype
                       else TrackingEntry.daytype row)
               db (set_daytype_of old daytype db).
Proof.
  intros r db year month user_id day_key daytype n e old json_data
         Hdb Hr Hy Hm Hu [Hne Hlen] Hn He Hin Hk.
  assert (Hstep : forall j,
             mass_holidays_entry (Some year) (Some month) (Some user_id) j
               (day_key, daytype) db
             = (Ok None, set_daytype_of old daytype db)).
  { intros j. unfold mass_holidays_entry. cbn [fst snd].
    rewrite Hn, Hne, Hlen. cbn [orb].
    unfold create_entry. unfold holiday_entry in He. cbn [opt_pyval].
    rewrite He.
    assert (Hdup : existsb (same_key e) db = true).
    { apply existsb_same_key. rewrite <- Hk. now apply in_map. }
    rewrite (save_new_duplicate e db Hdup).
    rewrite Z.eqb_refl.
    apply TrackingEntry_new_ok in He.
    destruct He as (s & u & [= <-] & Hd & Hu' & Hue & _ & _).
    unfold objects_get. cbn [join append] in Hd |- *.
    rewrite Hu', Hd. cbn [bind].
    assert (Hkey : (u, TrackingEntry.entry_date e)
                   = (TrackingEntry.user_id old, TrackingEntry.entry_date old)).
    { unfold entry_key in Hk. rewrite Hk, Hue. reflexivity. }
    injection Hkey as -> ->.
    destruct Hdb as (Huniq & Hids & Hdates).
    rewrite (filter_key_unique db old Huniq Hin). cbn [queryset_get].
    rewrite save_existing_with_daytype; [reflexivity | | assumption].
    repeat split; assumption. }
  split; [apply Hstep|]. split.
  - intros Hdata. unfold mass_holidays.
    rewrite request_check_authenticated, admin_check_authenticated
      by assumption.
    unfold json_response, mass_holidays_body.
    rewrite Hdata, Hy, Hm, Hu. cbn [mass_holidays_loop].
    rewrite Hstep. reflexivity.
  - pose proof (set_daytype_of_frame old daytype db) as Hf.
    eapply Forall2_impl; [|exact Hf].
    intros a b [Hs Hd]. split; [exact Hs|]. rewrite Hd.
    unfold same_key, key_is.
    rewrite (Z.eqb_sym (TrackingEntry.user_id old)).
    destruct (TrackingEntry.user_id a =? TrackingEntry.user_id old)%Z;
      cbn [andb]; trivial.
    destruct (date_eqb (TrackingEntry.entry_date old)
                (TrackingEntry.entry_date a)) eqn:E1;
      destruct (date_eqb (TrackingEntry.entry_date a)
                  (TrackingEntry.entry_date old)) eqn:E2; trivial.
    + apply date_eqb_eq in E1. symmetry in E1. apply date_eqb_eq in E1.
      congruence.
    + apply date_eqb_eq in E2. symmetry in E2. apply date_eqb_eq in E2.
      congruence.
Qed.

Lemma mass_holidays_duplicate_sets_daytype_only_witness :
  mass_holidays Examples.plan_holiday [Examples.workday_row]
  = (Ok (JsonResponse (mk_json (Some true) (Some EmptyString) None)),
     [TrackingEntry.mk 1 1 (mk_date 2012 1 5) (mk_time 9 0 0) (mk_time 17 0 0)
        (mk_time 0 15 0) "HOLIS"]).
Proof.
  assert (Hwf : well_formed_table [Examples.workday_row]).
  { repeat split; repeat constructor; intros []. }
  destruct (mass_holidays_duplicate_sets_daytype_only
              Examples.plan_holiday [Examples.workday_row]
              "2012" "1" "1" "5" "HOLIS" 5
              (TrackingEntry.mk 0 1 (mk_date 2012 1 5) (mk_time 0 0 0)
                 (mk_time 0 0 0) (mk_time 0 0 0) "HOLIS")
              Examples.workday_row empty_json Hwf
              (conj eq_refl eq_refl) eq_refl eq_refl eq_refl
              (conj eq_refl eq_refl) eq_refl eq_refl
              (or_introl eq_refl) eq_refl) as (_ & H & _).
  exact (H eq_refl).
Defined.

(** ** The cells of the overtime report *)

Lemma pad_length s : (2 <= String.length (pad s))%nat.
Proof.
  unfold pad, pad_with.
  destruct (String.length s <? 2)%nat eqn:E.
  - apply Nat.ltb_lt in E. rewrite length_append.
    destruct (String.length s) as [|[|k]]; cbn; lia.
  - apply Nat.ltb_ge in E. exact E.
Qed.

Lemma format_fixed2_length s m e :
  (3 <= String.length (format_fixed2 s m e))%nat.
Proof.
  unfold format_fixed2. destruct (magnitude m e) as [num den].
  rewrite !length_append.
  pose proof (pad_length (str_Z (round_half_even (100 * num) den mod 100))).
  cbn [String.length]. lia.
Qed.

(** A formatted number is never the placeholder. *)
Lemma format_2f_not_placeholder balance : format_2f balance <> "-".
Proof.
  destruct balance as [s|s| |s m e]; cbn [format_2f].
  - destruct s; discriminate.
  - destruct s; discriminate.
  - discriminate.
  - intros H. pose proof (format_fixed2_length s m e) as L.
    rewrite H in L. cbn in L. lia.
Qed.

Lemma ot_by_year_cell_spec balance :
  (ot_by_year_cell balance = "-" <-> SFeqb balance float_zero = true)
  /\ (SFeqb balance float_zero = false ->
      ot_by_year_cell balance = format_2f balance).
Proof.
  unfold ot_by_year_cell, float_neb.
  destruct (SFeqb balance float_zero); cbn [negb]; split.
  - split; reflexivity.
  - discriminate.
  - split; [|discriminate]. intros H. now apply format_2f_not_placeholder in H.
  - reflexivity.
Qed.

(** The reports print a zero in full where line 119 and the row of the
    totals format the balance without the test of line 146. *)
Lemma ot_by_month_cell_of_zero : ot_by_month_cell float_zero = "0.00".
Proof. reflexivity. Qed.

Lemma report_cell_of_row get_total_balance subordinates year i user m :
  nth_error subordinates i = Some user -> 1 <= m <= 12 ->
  report_cell (ot_by_year get_total_balance subordinates year) i m
  = ot_by_year_cell (get_total_balance user year m).
Proof.
  intros Hi Hm. unfold report_cell, ot_by_year.
  assert (Hrow : nth_error
                   (map (ot_by_year_row get_total_balance year) subordinates
                    ++ [ (["Total"; "Total"]
                          ++ map (fun n =>
                                    format_2f
                                      (ot_by_year_total get_total_balance
                                         subordinates year n)) months)%list ])%list i
                 = Some (ot_by_year_row get_total_balance year user)).
  { rewrite nth_error_app1.
    - now rewrite nth_error_map, Hi.
    - rewrite length_map. apply nth_error_Some. congruence. }
  rewrite (nth_error_nth _ _ _ Hrow). unfold ot_by_year_row.
  assert (m = 1 \/ m = 2 \/ m = 3 \/ m = 4 \/ m = 5 \/ m = 6 \/ m = 7
          \/ m = 8 \/ m = 9 \/ m = 10 \/ m = 11 \/ m = 12) as Hcases by lia.
  repeat (destruct Hcases as [-> | Hcases]; [reflexivity|]).
  subst m. reflexivity.
Qed.

(** C8. In the rows of the report by year, the cell of a user and a
    month is the placeholder "-" exactly when the user's balance of that
    month is zero, and the balance formatted with two decimals otherwise;
    a formatted balance is never the placeholder. *)
Theorem ot_by_year_cell_is_placeholder_iff_balance_is_zero :
  forall get_total_balance subordinates year i user m,
    nth_error subordinates i = Some user -> 1 <= m <= 12 ->
    let balance := get_total_balance user year m in
    let cell := report_cell (ot_by_year get_total_balance subordinates year) i m in
    (cell = "-" <-> SFeqb balance float_zero = true)
    /\ (SFeqb balance float_zero = false -> cell = format_2f balance)
    /\ format_2f balance <> "-".
Proof.
  intros get_total_balance subordinates year i user m Hi Hm balance cell.
  subst cell. rewrite (report_cell_of_row _ _ _ _ _ _ Hi Hm). fold balance.
  destruct (ot_by_year_cell_spec balance) as [H1 H2].
  repeat split; try apply H1; trivial.
  apply format_2f_not_placeholder.
Qed.

Lemma ot_by_year_cell_is_placeholder_iff_balance_is_zero_witness :
  report_cell (ot_by_year Examples.balances [Tests.linked_user] (PyStr "2012"))
    0 1 = "7.75"
  /\ report_cell (ot_by_year Examples.balances [Tests.linked_user] (PyStr "2012"))
       0 2 = "-".
Proof.
  split.
  - destruct (ot_by_year_cell_is_placeholder_iff_balance_is_zero
                Examples.balances [Tests.linked_user] (PyStr "2012") 0%nat
                Tests.linked_user 1 eq_refl) as (_ & H & _); [lia|].
    exact (H eq_refl).
  - destruct (ot_by_year_cell_is_placeholder_iff_balance_is_zero
                Examples.balances [Tests.linked_user] (PyStr "2012") 0%nat
                Tests.linked_user 2 eq_refl) as (H & _ & _); [lia|].
    exact (proj2 H eq_refl).
Defined.

(** ** Overtime and the time-difference *)

(** The methods as the specification words them, run on the five tests of
    [TrackingEntryTestCase]: the two tests of [is_overtime] and the tests
    of a positive and of a negative time-difference pass.  The entry of
    [testTimeDifferenceZero] is 09:00-16:45, which is a quarter of an hour
    short of the shift once the break is taken off; the day the
    specification has at zero is 09:00-17:00. *)
Lemma methods_on_TrackingEntryTestCase :
  let m := Tests.mk_methods is_overtime time_difference in
  Tests.testIsNotOvertime m = true
  /\ Tests.testIsOvertime m = true
  /\ Tests.testTimeDifferencePositive m = true
  /\ Tests.testTimeDifferenceNegative m = true
  /\ exists e,
       Tests.workday "2012-01-11" "16:45" "00:15" = Ok e
       /\ time_difference Tests.linked_user e = - (15 * 60).
Proof.
  repeat split. eexists. split; reflexivity.
Qed.

(** C2. The worked duration of an entry is end minus start minus break.
    The entry is overtime exactly when the worked duration strictly exceeds
    the standard shift length of the user, that is when the day ends later
    than start, break and shift take together; the reported
    time-difference is worked minus standard, it is positive exactly for
    the overtime entries, and otherwise negative or zero.  Against a shift
    of 07:45 and with a break of 15 minutes, 09:00-17:00 has a
    time-difference of exactly zero and is not overtime, and 09:00-18:01
    has a positive time-difference and is overtime. *)
Theorem overtime_and_time_difference :
  (forall u e,
      let start := seconds_of (TrackingEntry.start_time e) in
      let end_ := seconds_of (TrackingEntry.end_time e) in
      let break := seconds_of (TrackingEntry.breaks e) in
      let standard := seconds_of (Tbluser.shiftlength u) in
      worked_duration e = end_ - start - break
      /\ (is_overtime u e = true <-> standard < worked_duration e)
      /\ (is_overtime u e = true <-> start + break + standard < end_)
      /\ time_difference u e = worked_duration e - standard
      /\ (is_overtime u e = true <-> 0 < time_difference u e)
      /\ (is_overtime u e = false <-> time_difference u e <= 0)
      /\ (time_difference u e = 0 <-> end_ = start + break + standard))
  /\ (exists e1700 e1801,
         Tests.workday "2012-01-01" "17:00" "00:15" = Ok e1700
         /\ Tests.workday "2012-01-06" "18:01" "00:15" = Ok e1801
         /\ worked_duration e1700 = 7 * 3600 + 45 * 60
         /\ seconds_of (Tbluser.shiftlength Tests.linked_user)
            = 7 * 3600 + 45 * 60
         /\ time_difference Tests.linked_user e1700 = 0
         /\ is_overtime Tests.linked_user e1700 = false
         /\ 0 < time_difference Tests.linked_user e1801
         /\ is_overtime Tests.linked_user e1801 = true).
Proof.
  split.
  - intros u e start end_ break standard.
    assert (Hw : worked_duration e = end_ - start - break) by reflexivity.
    assert (Hd : time_difference u e = worked_duration e - standard)
      by reflexivity.
    assert (Ho : is_overtime u e = (standard <? worked_duration e)%Z)
      by reflexivity.
    split; [exact Hw|]. split; [rewrite Ho; apply Z.ltb_lt|].
    split; [rewrite Ho, Z.ltb_lt; lia|]. split; [exact Hd|].
    split; [rewrite Ho, Z.ltb_lt; lia|].
    split; [rewrite Ho, Z.ltb_ge; lia | lia].
  - do 2 eexists. repeat split; reflexivity.
Qed.

(** ** The holiday balance *)

Lemma fold_contributions entries balance :
  fold_left (fun b e => b + holiday_contribution (TrackingEntry.daytype e))
            entries balance
  = balance + total_contribution (map TrackingEntry.daytype entries).
Proof.
  revert balance. induction entries as [|e entries IH]; intros balance;
    cbn [fold_left map total_contribution fold_right]; [lia|].
  rewrite IH. unfold total_contribution. lia.
Qed.

(** The balance is the stored balance plus the sum of the contributions
    of the year. *)
Lemma get_holiday_balance_sum u y db :
  get_holiday_balance u y db
  = Tbluser.holiday_balance u
    + total_contribution (map TrackingEntry.daytype (entries_of_year u y db)).
Proof. unfold get_holiday_balance. apply fold_contributions. Qed.

(** The sum does not depend on the order of the entries. *)
Lemma total_contribution_permutation l l' :
  Permutation l l' -> total_contribution l = total_contribution l'.
Proof.
  unfold total_contribution.
  induction 1; cbn [fold_right]; lia.
Qed.

(** The model of the accumulator passes the three tests of the balance. *)
Lemma get_holiday_balance_passes_tests :
  Tests.testHolidayBalanceMix get_holiday_balance = true
  /\ Tests.testHolidayBalanceAdd get_holiday_balance = true
  /\ Tests.testHolidayBalanceDecrement get_holiday_balance = true.
Proof. repeat split. Qed.

(** C3. For a user with a stored balance of 20 whose entries of 2012 are
    one HOLIS, one PUWRK and one RETRN entry, in any order and among the
    entries of other users and years, the balance computed for 2012 is 20:
    the contributions of the three day-types sum to zero. *)
Theorem holiday_balance_of_HOLIS_PUWRK_RETRN_is_unchanged :
  forall u db,
    Tbluser.holiday_balance u = 20 ->
    Permutation (map TrackingEntry.daytype (entries_of_year u 2012 db))
                ["HOLIS"; "PUWRK"; "RETRN"] ->
    get_holiday_balance u 2012 db = 20
    /\ total_contribution ["HOLIS"; "PUWRK"; "RETRN"] = 0.
Proof.
  intros u db Hb Hp. rewrite get_holiday_balance_sum, Hb.
  rewrite (total_contribution_permutation _ _ Hp). split; reflexivity.
Qed.

Lemma holiday_balance_of_HOLIS_PUWRK_RETRN_is_unchanged_witness :
  map (fun e => (TrackingEntry.entry_date e, TrackingEntry.daytype e))
      (Tests.save_days Tests.mix [])
  = [ (mk_date 2012 1 1, "HOLIS"); (mk_date 2012 1 2, "PUWRK");
      (mk_date 2012 1 3, "RETRN") ]
  /\ get_holiday_balance Tests.linked_user 2012 (Tests.save_days Tests.mix [])
     = 20.
Proof.
  split; [reflexivity|].
  apply (holiday_balance_of_HOLIS_PUWRK_RETRN_is_unchanged
           Tests.linked_user (Tests.save_days Tests.mix []) eq_refl).
  apply Permutation_refl.
Defined.

(** ** The month grid *)

Lemma days_in_month_bounds y m :
  1 <= m <= 12 -> 28 <= days_in_month y m <= 31.
Proof.
  intros Hm. unfold days_in_month.
  assert (m = 1 \/ m = 2 \/ m = 3 \/ m = 4 \/ m = 5 \/ m = 6 \/ m = 7
          \/ m = 8 \/ m = 9 \/ m = 10 \/ m = 11 \/ m = 12) as Hcases by lia.
  repeat (destruct Hcases as [-> | Hcases];
          [cbn [mdays Z.eqb Pos.eqb andb]; try destruct (isleap y); lia|]).
  subst m. cbn [mdays Z.eqb Pos.eqb andb]. lia.
Qed.

Lemma weekday_range y m d : 0 <= weekday y m d < 7.
Proof. unfold weekday. apply Z.mod_pos_bound. lia. Qed.



Lemma length_zrange n : forall a, List.length (zrange a n) = n.
Proof. induction n as [|n IH]; intros a; cbn; [|rewrite IH]; reflexivity. Qed.






(** The flat list fills whole weeks, in every month but the last one
    there is. *)
Lemma itermonthdays_length y m :
  1 <= m <= 12 -> ~ (y = 9999 /\ m = 12) ->
  exists k, List.length (itermonthdays y m) = (7 * k)%nat.
Proof.
  intros Hm Hlast. unfold itermonthdays.
  replace ((y =? 9999) && (m =? 12))%Z with false
    by (symmetry; apply andb_false_iff;
        destruct (Z.eqb_spec y 9999); [right; apply Z.eqb_neq; lia | now left]).
  pose proof (weekday_range y m 1) as Hw.
  pose proof (days_in_month_bounds y m Hm) as Hn.
  rewrite !length_app, !repeat_length, length_zrange.
  rewrite Z.sub_0_r, (Z.mod_small _ 7) by assumption.
  set (s := weekday y m 1 + days_in_month y m).
  assert (Hr : 0 <= (0 - weekday y m 1 - days_in_month y m) mod 7 < 7)
    by (apply Z.mod_pos_bound; lia).
  assert (Hdiv : (s + (0 - weekday y m 1 - days_in_month y m) mod 7) mod 7 = 0).
  { subst s. rewrite Zplus_mod_idemp_r.
    replace (weekday y m 1 + days_in_month y m
             + (0 - weekday y m 1 - days_in_month y m)) with 0 by lia.
    reflexivity. }
  apply Z.mod_divide in Hdiv; [|lia]. destruct Hdiv as [q Hq].
  exists (Z.to_nat q). subst s. lia.
Qed.

(** December 9999 is the exception: its last week stops at the Friday. *)
Lemma monthcalendar_of_the_last_month :
  monthcalendar 9999 12
  = Ok [ [0; 0; 1; 2; 3; 4; 5]; [6; 7; 8; 9; 10; 11; 12];
         [13; 14; 15; 16; 17; 18; 19]; [20; 21; 22; 23; 24; 25; 26];
         [27; 28; 29; 30; 31] ].
Proof. reflexivity. Qed.

Lemma chunks7_spec k : forall fuel days,
  List.length days = (7 * k)%nat -> (k <= fuel)%nat ->
  Forall (fun week => List.length week = 7%nat) (chunks7 fuel days)
  /\ List.concat (chunks7 fuel days) = days.
Proof.
  induction k as [|k IH]; intros fuel days Hlen Hfuel.
  - destruct days; [|discriminate]. destruct fuel; cbn; auto.
  - destruct fuel as [|fuel]; [lia|].
    destruct days as [|d days]; [discriminate|].
    cbn [chunks7]. set (l := d :: days) in *.
    destruct (IH fuel (skipn 7 l)) as [Hall Hcat].
    + rewrite length_skipn. lia.
    + lia.
    + split.
      * constructor; [|exact Hall]. rewrite length_firstn. lia.
      * rewrite concat_cons, Hcat. apply firstn_skipn.
Qed.


(** ** The cells of the calendar *)

Lemma mapM_ok_map {A B} (f : A -> result B) (g : A -> B) l :
  (forall a, In a l -> f a = Ok (g a)) -> mapM f l = Ok (map g l).
Proof.
  induction l as [|a l IH]; intros H; cbn [mapM map]; [reflexivity|].
  rewrite (H a (or_introl eq_refl)). cbn [bind].
  rewrite IH by (intros b Hb; apply H; now right). reflexivity.
Qed.

(** The query set of the month, narrowed to a day, is the look-up by
    (user, date). *)
Lemma month_entries_of_day u y m d db :
  filter (fun e => (day (TrackingEntry.entry_date e) =? d)%Z)
         (month_entries u y m db)
  = filter (key_is (Tbluser.id u) (mk_date y m d)) db.
Proof.
  unfold month_entries, key_is, date_eqb.
  induction db as [|e db IH]; cbn [filter]; [reflexivity|].
  cbn [year month day].
  destruct (TrackingEntry.user_id e =? Tbluser.id u)%Z;
    destruct (year (TrackingEntry.entry_date e) =? y)%Z;
    destruct (month (TrackingEntry.entry_date e) =? m)%Z;
    cbn [andb filter]; trivial.
  destruct (day (TrackingEntry.entry_date e) =? d)%Z; cbn [andb];
    now rewrite IH.
Qed.

Lemma find_head_of_filter {A} (p : A -> bool) l :
  find p l = hd_error (filter p l).
Proof.
  induction l as [|a l IH]; cbn [find filter]; [reflexivity|].
  destruct (p a); [reflexivity | exact IH].
Qed.

(** The look-up by (user, date) in a table with one row per (user, date):
    no row, or the one row. *)
Lemma filter_key_is_unique u d db :
  unique_entries db ->
  filter (key_is u d) db = match find (key_is u d) db with
                           | Some e => [e]
                           | None => []
                           end.
Proof.
  intros Hu. rewrite find_head_of_filter.
  destruct (filter (key_is u d) db) as [|e rows] eqn:E; [reflexivity|].
  cbn [hd_error].
  assert (Hin : In e (filter (key_is u d) db)) by (rewrite E; now left).
  apply filter_In in Hin. destruct Hin as [Hin Hk].
  apply key_is_iff in Hk. injection Hk as <- <-.
  rewrite <- E. now apply filter_key_unique.
Qed.

Lemma valid_date_day d : valid_date d -> 1 <= day d.
Proof.
  unfold valid_date. intros H. apply datetime_date_ok in H. lia.
Qed.

(** On a well-formed table, what the inner loop of [gen_calendar] writes
    is the cell of the specification. *)
Lemma render_day_ok u y m d db c :
  well_formed_table db ->
  render_day (month_entries u y m db) y m d = Ok c ->
  c = cell_of_day u y m db d.
Proof.
  intros (Hu & _ & Hd). unfold render_day, cell_of_day.
  rewrite month_entries_of_day, (filter_key_is_unique _ _ db Hu).
  destruct (d =? 0)%Z eqn:E0.
  - apply Z.eqb_eq in E0. subst d.
    destruct (find _ db) as [e|] eqn:Ef;
      [|cbn [queryset_get]; intros [= <-]; reflexivity].
    apply find_some in Ef. destruct Ef as [Hin Hk].
    apply key_is_iff in Hk. rewrite Forall_forall in Hd.
    apply Hd, valid_date_day in Hin.
    unfold entry_key in Hk. injection Hk as _ Hk. rewrite Hk in Hin.
    cbn in Hin. lia.
  - destruct (find _ db) as [e|]; cbn [queryset_get].
    + destruct (ascii_text _); [|discriminate]. now intros [= <-].
    + unfold plain_cell. rewrite E0. cbn [negb]. now intros [= <-].
Qed.

(** With day-types that can be written, the inner loop never fails. *)
Lemma render_day_cell_of_day u y m d db :
  well_formed_table db -> ascii_daytypes db ->
  render_day (month_entries u y m db) y m d = Ok (cell_of_day u y m db d).
Proof.
  intros Hdb Hascii.
  destruct (render_day (month_entries u y m db) y m d) as [c|x] eqn:E.
  - f_equal. now apply (render_day_ok u y m d db).
  - exfalso. destruct Hdb as (Hu & _ & _). unfold render_day in E.
    rewrite month_entries_of_day, (filter_key_is_unique _ _ db Hu) in E.
    destruct (find _ db) as [e|] eqn:Ef; cbn [queryset_get] in E;
      [|discriminate].
    apply find_some in Ef. destruct Ef as [Hin _].
    unfold ascii_daytypes in Hascii. rewrite Forall_forall in Hascii.
    rewrite (Hascii e Hin) in E. discriminate.
Qed.


(** The cell of an entry is annotated with the entry. *)
Lemma entry_cell_carries_entry e d :
  carries_entry (EntryCell (entry_vals e d)) e d.
Proof.
  exists (entry_vals e d). repeat split; reflexivity.
Qed.

Lemma cell_of_day_entry u y m d db e :
  unique_entries db -> d <> 0 ->
  In e db -> entry_key e = (Tbluser.id u, mk_date y m d) ->
  cell_of_day u y m db d = EntryCell (entry_vals e d).
Proof.
  intros Hu Hd Hin Hk. unfold cell_of_day.
  destruct (d =? 0)%Z eqn:E0; [apply Z.eqb_eq in E0; contradiction|].
  pose proof (filter_key_is_unique (Tbluser.id u) (mk_date y m d) db Hu) as Hf.
  injection Hk as Hku Hkd.
  rewrite <- Hku, <- Hkd, (filter_key_unique db e Hu Hin) in Hf.
  rewrite <- Hku, <- Hkd.
  destruct (find _ db) as [e'|]; [|discriminate].
  now injection Hf as <-.
Qed.


Lemma monthcalendar_ok y m :
  1 <= y <= 9999 -> 1 <= m <= 12 ->
  monthcalendar y m
  = Ok (chunks7 (List.length (itermonthdays y m)) (itermonthdays y m)).
Proof.
  intros Hy Hm. unfold monthcalendar.
  pose proof (days_in_month_bounds y m Hm) as Hn.
  rewrite datetime_date_in_range by lia. reflexivity.
Qed.



(* ===================================================================== *)
(** * Further properties of the code *)
(* ===================================================================== *)

(** ** Padding *)

Lemma length_repeat_string c k :
  String.length (repeat_string (String c EmptyString) k) = k.
Proof. induction k as [|k IH]; cbn; [|rewrite IH]; reflexivity. Qed.

(** X1. [pad]: with a pad character, the result is the string with pad
    characters in front and nothing else; its length is the larger of the
    length of the string and the amount, so a string that is long enough
    comes back as it is. *)
Theorem pad_with_shape :
  forall s c amount,
    pad_with s (String c EmptyString) amount
    = repeat_string (String c EmptyString) (amount - String.length s) ++ s
    /\ String.length (pad_with s (String c EmptyString) amount)
       = Nat.max (String.length s) amount
    /\ ((amount <= String.length s)%nat ->
        pad_with s (String c EmptyString) amount = s).
Proof.
  intros s c amount. unfold pad_with.
  destruct (String.length s <? amount)%nat eqn:E.
  - apply Nat.ltb_lt in E. repeat split.
    + rewrite length_append, length_repeat_string. lia.
    + lia.
  - apply Nat.ltb_ge in E.
    replace (amount - String.length s)%nat with 0%nat by lia.
    repeat split. lia.
Qed.

(** ** What [validate_time] raises *)

Lemma py_int_raise s x : py_int s = Raise x -> x = ValueError.
Proof.
  unfold py_int.
  destruct (match strip (list_ascii_of_string s) with
            | [] => (1, strip (list_ascii_of_string s))
            | _ => _
            end) as [sign ds] eqn:E.
  clear E. destruct ds as [|c ds]; [congruence|].
  destruct (digits_value 0 (c :: ds)); congruence.
Qed.

Lemma mapM_py_int_raise l x : mapM py_int l = Raise x -> x = ValueError.
Proof.
  intros H. apply mapM_raise in H. destruct H as (s & _ & Hs).
  now apply py_int_raise in Hs.
Qed.

Lemma mapM_length {A B} (f : A -> result B) l bs :
  mapM f l = Ok bs -> List.length bs = List.length l.
Proof.
  revert bs. induction l as [|a l IH]; intros bs; cbn [mapM].
  - intros [= <-]. reflexivity.
  - destruct (f a) as [b|x]; cbn [bind]; [|discriminate].
    destruct (mapM f l) as [bs'|x]; cbn [bind]; [|discriminate].
    intros [= <-]. cbn. now rewrite (IH bs' eq_refl).
Qed.

Lemma unpack2_ok {A} (xs : list A) a b :
  unpack2 xs = Ok (a, b) -> xs = [a; b].
Proof.
  destruct xs as [|x [|y [|z xs]]]; cbn; congruence.
Qed.

Lemma unpack2_raise {A} (xs : list A) x : unpack2 xs = Raise x -> x = ValueError.
Proof.
  destruct xs as [|a [|b [|c xs]]]; cbn; congruence.
Qed.

Lemma datetime_time_raise h m x :
  datetime_time h m = Raise x ->
  (x = ValueError /\ fits_int h && fits_int m = true)
  \/ (x = OverflowError /\ fits_int h && fits_int m = false).
Proof.
  unfold datetime_time.
  destruct (fits_int h && fits_int m); cbn [negb].
  - destruct (_ && _)%bool; [destruct (_ && _)%bool|];
      try discriminate; intros [= <-]; left; now split.
  - intros [= <-]. right. now split.
Qed.

Lemma datetime_time_overflow h m :
  fits_int h && fits_int m = false -> datetime_time h m = Raise OverflowError.
Proof. intros H. unfold datetime_time. now rewrite H. Qed.

(** On two strings [validate_time] answers, or raises [ValueError] or
    [OverflowError]. *)
Lemma validate_time_raise start end_ x :
  validate_time (Some start) (Some end_) = Raise x ->
  x = ValueError \/ x = OverflowError.
Proof.
  unfold validate_time, parse_time.
  destruct (mapM py_int (split ":" start)) as [sp|y] eqn:Es; cbn [bind].
  - destruct (unpack2 sp) as [[sh sm]|y] eqn:Eus; cbn [bind].
    + destruct (mapM py_int (split ":" end_)) as [ep|y] eqn:Ee; cbn [bind].
      * destruct (unpack2 ep) as [[eh em]|y] eqn:Eue; cbn [bind].
        -- destruct (datetime_time sh sm) as [s|y] eqn:Ets; cbn [bind].
           ++ destruct (datetime_time eh em) as [e|y] eqn:Ete; cbn [bind];
                [discriminate|].
              intros [= <-]. apply datetime_time_raise in Ete. tauto.
           ++ intros [= <-]. apply datetime_time_raise in Ets. tauto.
        -- intros [= <-]. left. now apply unpack2_raise in Eue.
      * intros [= <-]. left. now apply mapM_py_int_raise in Ee.
    + intros [= <-]. left. now apply unpack2_raise in Eus.
  - intros [= <-]. left. now apply mapM_py_int_raise in Es.
Qed.

(** When it answers, both strings had two fields. *)
Lemma validate_time_ok_fields start end_ b :
  validate_time (Some start) (Some end_) = Ok b ->
  List.length (split ":" start) = 2%nat
  /\ List.length (split ":" end_) = 2%nat.
Proof.
  unfold validate_time, parse_time.
  destruct (mapM py_int (split ":" start)) as [sp|y] eqn:Es; cbn [bind];
    [|discriminate].
  destruct (unpack2 sp) as [[sh sm]|y] eqn:Eus; cbn [bind]; [|discriminate].
  destruct (mapM py_int (split ":" end_)) as [ep|y] eqn:Ee; cbn [bind];
    [|discriminate].
  destruct (unpack2 ep) as [[eh em]|y] eqn:Eue; cbn [bind]; [|discriminate].
  intros _. apply unpack2_ok in Eus, Eue. subst sp ep.
  apply mapM_length in Es, Ee. cbn in Es, Ee. now rewrite <- Es, <- Ee.
Qed.

(** The exception reaches [datetime.time] only when both strings read as
    two numbers. *)
Lemma validate_time_raise_fields start end_ x :
  validate_time (Some start) (Some end_) = Raise x ->
  List.length (split ":" start) <> 2%nat
  \/ List.length (split ":" end_) <> 2%nat ->
  x = ValueError.
Proof.
  unfold validate_time, parse_time. intros H Hlen.
  destruct (mapM py_int (split ":" start)) as [sp|y] eqn:Es; cbn [bind] in H;
    [|injection H as <-; now apply mapM_py_int_raise in Es].
  destruct (unpack2 sp) as [[sh sm]|y] eqn:Eus; cbn [bind] in H;
    [|injection H as <-; now apply unpack2_raise in Eus].
  destruct (mapM py_int (split ":" end_)) as [ep|y] eqn:Ee; cbn [bind] in H;
    [|injection H as <-; now apply mapM_py_int_raise in Ee].
  destruct (unpack2 ep) as [[eh em]|y] eqn:Eue; cbn [bind] in H;
    [|injection H as <-; now apply unpack2_raise in Eue].
  exfalso. apply unpack2_ok in Eus, Eue. subst sp ep.
  apply mapM_length in Es, Ee. cbn in Es, Ee. lia.
Qed.

(** X2. The time check of the AJAX handlers.  When [validate_time] raises
    on two submitted strings, it raises [ValueError] or [OverflowError].
    [ValueError] is the exception the handlers catch: [ajax_add_entry] and
    [ajax_change_entry] answer "Date Error" and leave the table alone; a
    string that has not exactly two fields around one colon (a time with
    seconds, say) is such a case.  [OverflowError] is not caught: when both
    strings read as two numbers and an hour or a minute of the start, or of
    the end after a start that is a time of day, does not fit in 32 bits,
    the exception leaves the handler and the request is aborted, the table
    still as it was. *)
Theorem malformed_times_are_a_date_error :
  forall get r db start end_,
    authenticated r ->
    POST_get "start_time" r = Some start ->
    POST_get "end_time" r = Some end_ ->
    (forall x, validate_time (Some start) (Some end_) = Raise x ->
               (x = ValueError
                /\ ajax_add_entry get r db
                   = (Ok (JsonResponse (mk_json None (Some "Date Error") None)),
                      db)
                /\ ajax_change_entry get r db
                   = (Ok (JsonResponse (mk_json None (Some "Date Error") None)),
                      db))
               \/ (x = OverflowError
                   /\ ajax_add_entry get r db = (Raise OverflowError, db)
                   /\ ajax_change_entry get r db = (Raise OverflowError, db)))
    /\ (List.length (split ":" start) <> 2%nat
        \/ List.length (split ":" end_) <> 2%nat ->
        validate_time (Some start) (Some end_) = Raise ValueError)
    /\ (forall shour sminute ehour eminute,
          parse_time (Some start) = Ok [shour; sminute] ->
          parse_time (Some end_) = Ok [ehour; eminute] ->
          fits_int shour && fits_int sminute = false
          \/ (0 <= shour <= 23 /\ 0 <= sminute <= 59
              /\ fits_int ehour && fits_int eminute = false) ->
          validate_time (Some start) (Some end_) = Raise OverflowError).
Proof.
  intros get r db start end_ Hr Hs He. split; [|split].
  - intros x Hx.
    unfold ajax_add_entry, ajax_change_entry.
    rewrite !request_check_authenticated by assumption.
    unfold json_response, ajax_add_entry_body, ajax_change_entry_body.
    rewrite Hs, He, Hx.
    destruct (validate_time_raise _ _ _ Hx) as [-> | ->];
      [left | right]; repeat split.
  - intros Hlen.
    destruct (validate_time (Some start) (Some end_)) as [b|x] eqn:E.
    + apply validate_time_ok_fields in E. lia.
    + now rewrite (validate_time_raise_fields _ _ _ E Hlen).
  - intros sh sm eh em Hps Hpe Hfit. unfold validate_time.
    rewrite Hps. cbn [bind unpack2]. rewrite Hpe. cbn [bind unpack2].
    destruct Hfit as [Hfit | (Hh & Hm & Hfit)].
    + now rewrite (datetime_time_overflow _ _ Hfit).
    + rewrite (datetime_time_in_range sh sm Hh Hm). cbn [bind].
      now rewrite (datetime_time_overflow _ _ Hfit).
Qed.

Lemma malformed_times_are_a_date_error_witness :
  ajax_add_entry Examples.users
    (mk_request true (Some 1)
       (Examples.form "2012-01-05" "09:00:00" "17:00" "WKDAY") None) []
  = (Ok (JsonResponse (mk_json None (Some "Date Error") None)), [])
  /\ ajax_add_entry Examples.users
       (mk_request true (Some 1)
          (Examples.form "2012-01-05" "2147483648:00" "17:00" "WKDAY") None) []
     = (Raise OverflowError, []).
Proof.
  split.
  - destruct (malformed_times_are_a_date_error Examples.users
                (mk_request true (Some 1)
                   (Examples.form "2012-01-05" "09:00:00" "17:00" "WKDAY") None)
                [] "09:00:00" "17:00" (conj eq_refl eq_refl) eq_refl eq_refl)
      as [H _].
    destruct (H ValueError eq_refl) as [(_ & Ha & _) | (Hx & _)];
      [exact Ha | discriminate].
  - destruct (malformed_times_are_a_date_error Examples.users
                (mk_request true (Some 1)
                   (Examples.form "2012-01-05" "2147483648:00" "17:00" "WKDAY")
                   None)
                [] "2147483648:00" "17:00" (conj eq_refl eq_refl) eq_refl eq_refl)
      as (H & _ & Ho).
    destruct (H OverflowError
                (Ho 2147483648 0 17 0 eq_refl eq_refl (or_introl eq_refl)))
      as [(Hx & _) | (_ & Ha & _)]; [discriminate | exact Ha].
Defined.

(** ** Numbers written and read back *)

Lemma digit_of_digit_char d :
  0 <= d <= 9 -> digit_of (digit_char d) = Some d.
Proof.
  intros H.
  assert (d = 0 \/ d = 1 \/ d = 2 \/ d = 3 \/ d = 4 \/ d = 5 \/ d = 6
          \/ d = 7 \/ d = 8 \/ d = 9) as Hcases by lia.
  repeat (destruct Hcases as [-> | Hcases]; [reflexivity|]).
  subst d. reflexivity.
Qed.

Lemma digits_value_app ds : forall k rest v,
  digits_value k ds = Some v ->
  digits_value k (ds ++ rest) = digits_value v rest.
Proof.
  induction ds as [|c ds IH]; intros k rest v; cbn [digits_value app].
  - now intros [= ->].
  - destruct (digit_of c) as [d|]; [apply IH | discriminate].
Qed.

Lemma Forall_is_digit_app l l' :
  Forall (fun c => is_digit c = true) l ->
  Forall (fun c => is_digit c = true) l' ->
  Forall (fun c => is_digit c = true) (l ++ l').
Proof. intros H H'. apply Forall_app. now split. Qed.

Lemma str_pos_aux_S fuel n acc :
  str_pos_aux (S fuel) n acc
  = if (n <? 10)%Z then String (digit_char (n mod 10)) acc
    else str_pos_aux fuel (n / 10) (String (digit_char (n mod 10)) acc).
Proof. reflexivity. Qed.

(** The digits [str] writes in front of what it has: they are digits,
    there is at least one, and read after [k] they give [k] shifted, plus
    the number. *)
Lemma str_pos_aux_digits fuel : forall n acc,
  0 <= n < 2 ^ Z.of_nat (S fuel) ->
  exists ds,
    list_ascii_of_string (str_pos_aux (S fuel) n acc)
    = (ds ++ list_ascii_of_string acc)%list
    /\ ds <> []
    /\ Forall (fun c => is_digit c = true) ds
    /\ forall k, digits_value k ds
                 = Some (k * 10 ^ Z.of_nat (List.length ds) + n).
Proof.
  assert (Hone : forall n acc,
             0 <= n < 10 ->
             exists ds,
               list_ascii_of_string (String (digit_char n) acc)
               = (ds ++ list_ascii_of_string acc)%list
               /\ ds <> []
               /\ Forall (fun c => is_digit c = true) ds
               /\ forall k, digits_value k ds
                            = Some (k * 10 ^ Z.of_nat (List.length ds) + n)).
  { intros n acc Hn. exists [digit_char n].
    pose proof (digit_of_digit_char n ltac:(lia)) as Hd.
    repeat split.
    - discriminate.
    - constructor; [|constructor]. unfold is_digit. now rewrite Hd.
    - intros k. cbn [digits_value List.length]. rewrite Hd.
      f_equal. change (Z.of_nat 1) with 1. lia. }
  induction fuel as [|fuel IH]; intros n acc Hn.
  - change (2 ^ Z.of_nat 1) with 2 in Hn.
    rewrite str_pos_aux_S. cbn [str_pos_aux]. rewrite Z.mod_small by lia.
    destruct (n <? 10)%Z; apply Hone; lia.
  - rewrite str_pos_aux_S.
    destruct (n <? 10)%Z eqn:E.
    + apply Z.ltb_lt in E. rewrite Z.mod_small by lia. apply Hone. lia.
    + apply Z.ltb_ge in E.
      assert (Hdiv : 0 <= n / 10 < 2 ^ Z.of_nat (S fuel)).
      { split; [apply Z.div_pos; lia|].
        apply Z.div_lt_upper_bound; [lia|].
        rewrite (Nat2Z.inj_succ (S fuel)), Z.pow_succ_r in Hn by lia. lia. }
      destruct (IH (n / 10) (String (digit_char (n mod 10)) acc) Hdiv)
        as (ds & Hl & Hne & Hall & Hval).
      pose proof (Z.mod_pos_bound n 10 ltac:(lia)) as Hmod.
      pose proof (digit_of_digit_char (n mod 10) ltac:(lia)) as Hd.
      exists (ds ++ [digit_char (n mod 10)])%list. repeat split.
      * rewrite Hl. cbn [list_ascii_of_string]. now rewrite <- app_assoc.
      * destruct ds; discriminate.
      * apply Forall_is_digit_app; [exact Hall|].
        constructor; [|constructor]. unfold is_digit. now rewrite Hd.
      * intros k. rewrite (digits_value_app ds k _ _ (Hval k)).
        cbn [digits_value]. rewrite Hd. f_equal.
        rewrite length_app, Nat2Z.inj_add. cbn [List.length].
        change (Z.of_nat 1) with 1. rewrite Z.pow_add_r, Z.pow_1_r by lia.
        pose proof (Z.div_mod n 10 ltac:(lia)). lia.
Qed.

(** [str(n)] of a number that is not negative: digits that read back as
    [n]. *)
Lemma str_Z_digits n :
  0 <= n ->
  all_digits (str_Z n)
  /\ list_ascii_of_string (str_Z n) <> []
  /\ digits_value 0 (list_ascii_of_string (str_Z n)) = Some n.
Proof.
  intros Hn. unfold str_Z, all_digits.
  destruct (n <? 0)%Z eqn:E; [apply Z.ltb_lt in E; lia|].
  unfold str_nonneg.
  assert (Hfuel : 0 <= n < 2 ^ Z.of_nat (S (Z.to_nat (Z.log2 n)))).
  { split; [assumption|].
    rewrite Nat2Z.inj_succ, Z2Nat.id by apply Z.log2_nonneg.
    destruct (Z.eq_dec n 0) as [-> | Hne]; [reflexivity|].
    apply Z.log2_spec. lia. }
  destruct (str_pos_aux_digits _ n EmptyString Hfuel)
    as (ds & Hl & Hne & Hall & Hval).
  cbn [list_ascii_of_string] in Hl. rewrite app_nil_r in Hl.
  rewrite Hl. repeat split; trivial.
Qed.

Lemma digit_is_not_space c : is_digit c = true -> is_space c = false.
Proof.
  unfold is_digit, digit_of, is_space.
  destruct (_ && _)%bool eqn:E; [|discriminate]. intros _.
  bool_to_prop.
  replace (nat_of_ascii c =? 32)%nat with false
    by (symmetry; apply Nat.eqb_neq; lia).
  replace (nat_of_ascii c <=? 13)%nat with false
    by (symmetry; apply Nat.leb_gt; lia).
  replace (28 <=? nat_of_ascii c)%nat with true
    by (symmetry; apply Nat.leb_le; lia).
  replace (nat_of_ascii c <=? 31)%nat with false
    by (symmetry; apply Nat.leb_gt; lia).
  replace (nat_of_ascii c =? 133)%nat with false
    by (symmetry; apply Nat.eqb_neq; lia).
  replace (nat_of_ascii c =? 160)%nat with false
    by (symmetry; apply Nat.eqb_neq; lia).
  now rewrite andb_false_r.
Qed.

Lemma lstrip_digits l :
  Forall (fun c => is_digit c = true) l -> lstrip l = l.
Proof.
  destruct 1 as [|c l Hc Hl]; [reflexivity|].
  cbn [lstrip]. now rewrite (digit_is_not_space c Hc).
Qed.

Lemma strip_digits l :
  Forall (fun c => is_digit c = true) l -> strip l = l.
Proof.
  intros H. unfold strip. rewrite (lstrip_digits l H).
  rewrite lstrip_digits by now apply Forall_rev.
  apply rev_involutive.
Qed.

Lemma lstrip_head c l : is_space c = false -> lstrip (c :: l) = c :: l.
Proof. intros H. cbn [lstrip]. now rewrite H. Qed.

Lemma strip_minus_digits ds :
  Forall (fun c => is_digit c = true) ds -> ds <> [] ->
  strip ("-"%char :: ds) = "-"%char :: ds.
Proof.
  intros Hall Hne. unfold strip.
  rewrite (lstrip_head "-"%char ds eq_refl). cbn [rev].
  pose proof (Forall_rev Hall) as Hr.
  destruct (rev ds) as [|c ds'] eqn:Er.
  - apply (f_equal (@rev ascii)) in Er. rewrite rev_involutive in Er.
    contradiction.
  - inversion Hr as [|x xs Hc _]; subst.
    change ((c :: ds') ++ ["-"%char])%list with (c :: (ds' ++ ["-"%char]))%list.
    rewrite (lstrip_head c _ (digit_is_not_space c Hc)).
    change (c :: (ds' ++ ["-"%char]))%list with ((c :: ds') ++ ["-"%char])%list.
    rewrite <- Er, rev_app_distr, rev_involutive. reflexivity.
Qed.

(** A digit is neither of the signs. *)
Lemma digit_is_no_sign {A} c (r : list ascii) (minus plus : list ascii -> A)
    (other : A) :
  is_digit c = true ->
  match c :: r with
  | "-"%char :: r' => minus r'
  | "+"%char :: r' => plus r'
  | _ => other
  end = other.
Proof.
  destruct c as [[] [] [] [] [] [] [] []]; cbn; trivial; discriminate.
Qed.

(** [int] reads a string of digits as the number they write. *)
Lemma py_int_digits s n :
  all_digits s -> list_ascii_of_string s <> [] ->
  digits_value 0 (list_ascii_of_string s) = Some n ->
  py_int s = Ok n.
Proof.
  unfold all_digits, py_int. intros Hall Hne Hval.
  rewrite (strip_digits _ Hall).
  destruct (list_ascii_of_string s) as [|c ds]; [contradiction|].
  inversion Hall as [|c' ds' Hc Hds]; subst.
  rewrite (digit_is_no_sign c ds (fun r => (-1, r)) (fun r => (1, r))
             (1, c :: ds) Hc).
  rewrite Hval. f_equal. lia.
Qed.

(** [int(str(n))] is [n]: what the code writes with [str] for a number it
    reads back with [int], also after [pad] has put zeros in front. *)
Lemma py_int_of_str_Z :
  forall n,
    py_int (str_Z n) = Ok n
    /\ (0 <= n -> py_int (pad (str_Z n)) = Ok n).
Proof.
  intros n. split.
  - destruct (Z.lt_ge_cases n 0) as [Hneg | Hpos].
    + unfold str_Z. rewrite (proj2 (Z.ltb_lt n 0) Hneg).
      destruct (str_Z_digits (- n) ltac:(lia)) as (Hall & Hne & Hval).
      unfold str_Z in Hall, Hne, Hval. unfold all_digits in Hall.
      rewrite (proj2 (Z.ltb_ge (- n) 0)) in Hall, Hne, Hval by lia.
      unfold py_int.
      change (list_ascii_of_string ("-" ++ str_nonneg (- n)))
        with ("-"%char :: list_ascii_of_string (str_nonneg (- n))).
      assert (Hstrip : strip ("-"%char :: list_ascii_of_string (str_nonneg (- n)))
                       = "-"%char :: list_ascii_of_string (str_nonneg (- n)))
        by now apply strip_minus_digits.
      rewrite Hstrip.
      destruct (list_ascii_of_string (str_nonneg (- n))) as [|c ds];
        [contradiction|].
      rewrite Hval. f_equal. lia.
    + destruct (str_Z_digits n ltac:(lia)) as (Hall & Hne & Hval).
      now apply py_int_digits.
  - intros Hpos.
    destruct (str_Z_digits n Hpos) as (Hall & Hne & Hval).
    unfold pad, pad_with.
    destruct (String.length (str_Z n) <? 2)%nat; [|now apply py_int_digits].
    assert (Hl : forall k s,
               list_ascii_of_string (repeat_string "0" k ++ s)
               = (repeat "0"%char k ++ list_ascii_of_string s)%list).
    { induction k as [|k IHk]; intros s; cbn; [|rewrite IHk]; reflexivity. }
    assert (Hz : forall k l v,
               digits_value 0 l = Some v ->
               digits_value 0 (repeat "0"%char k ++ l) = Some v).
    { induction k as [|k IHk]; intros l v Hv; cbn [repeat app]; [exact Hv|].
      cbn [digits_value]. change (digit_of "0"%char) with (Some 0).
      change (10 * 0 + 0) with 0. now apply IHk. }
    apply py_int_digits.
    + unfold all_digits. rewrite Hl. apply Forall_is_digit_app; [|exact Hall].
      apply Forall_forall. intros c Hc. apply repeat_spec in Hc. now subst.
    + rewrite Hl. intros H. apply app_eq_nil in H. now destruct H.
    + rewrite Hl. now apply Hz.
Qed.

Lemma list_ascii_of_repeat_zero k s :
  list_ascii_of_string (repeat_string "0" k ++ s)
  = (repeat "0"%char k ++ list_ascii_of_string s)%list.
Proof. induction k as [|k IH]; cbn; [|rewrite IH]; reflexivity. Qed.

(** [pad] keeps a string of digits a string of digits. *)
Lemma pad_all_digits s : all_digits s -> all_digits (pad s).
Proof.
  unfold all_digits, pad, pad_with. intros H.
  destruct (String.length s <? 2)%nat; [|exact H].
  rewrite list_ascii_of_repeat_zero. apply Forall_is_digit_app; [|exact H].
  apply Forall_forall. intros c Hc. apply repeat_spec in Hc. now subst.
Qed.

Lemma digit_is_not_dash c : is_digit c = true -> Ascii.eqb c "-" = false.
Proof.
  destruct c as [[] [] [] [] [] [] [] []]; cbn; trivial; discriminate.
Qed.

Lemma split_dash_digits s :
  all_digits s -> split "-" s = [s].
Proof.
  unfold all_digits. induction s as [|c s IH]; cbn [list_ascii_of_string split];
    [reflexivity|].
  intros H. inversion H as [|c' l Hc Hs]; subst.
  rewrite (digit_is_not_dash c Hc), (IH Hs). reflexivity.
Qed.

Lemma split_dash_app a rest :
  all_digits a -> split "-" (a ++ String "-" rest) = a :: split "-" rest.
Proof.
  unfold all_digits.
  induction a as [|c a IH]; cbn [list_ascii_of_string split append].
  - intros _. reflexivity.
  - intros H. inversion H as [|c' l Hc Ha]; subst.
    rewrite (digit_is_not_dash c Hc), (IH Ha). reflexivity.
Qed.

(** X3. The date a blank day of the calendar carries for the form, the
    year, month and day joined with dashes after [pad], is read back by the
    handlers as that very day: [split("-")] and [int] give the three
    numbers, and the model layer the date. *)
Theorem blank_day_date_reads_back :
  forall y m d,
    0 <= y -> 0 <= m -> 0 < d ->
    exists s,
      plain_cell y m d = PlainCell s "day-class empty-day" (str_Z d)
      /\ split_entry_date (Some s) = Ok (y, m, d)
      /\ (forall dt, datetime_date y m d = Ok dt -> to_date s = Ok dt).
Proof.
  intros y m d Hy Hm Hd.
  exists (join "-" (map pad [str_Z y; str_Z m; str_Z d])).
  assert (Hparts : mapM py_int
                     (split "-" (join "-" (map pad [str_Z y; str_Z m; str_Z d])))
                   = Ok [y; m; d]).
  { cbn [map join].
    destruct (str_Z_digits y Hy) as (Ay & _ & _).
    destruct (str_Z_digits m Hm) as (Am & _ & _).
    destruct (str_Z_digits d ltac:(lia)) as (Ad & _ & _).
    change ("-" ++ ?x) with (String "-"%char x).
    rewrite split_dash_app by now apply pad_all_digits.
    change ("-" ++ pad (str_Z d)) with (String "-"%char (pad (str_Z d))).
    rewrite split_dash_app by now apply pad_all_digits.
    rewrite split_dash_digits by now apply pad_all_digits.
    cbn [mapM].
    rewrite (proj2 (py_int_of_str_Z y) Hy), (proj2 (py_int_of_str_Z m) Hm),
      (proj2 (py_int_of_str_Z d) ltac:(lia)).
    reflexivity. }
  repeat split.
  - unfold plain_cell.
    destruct (d =? 0)%Z eqn:E; [apply Z.eqb_eq in E; lia | reflexivity].
  - unfold split_entry_date. rewrite Hparts. reflexivity.
  - intros dt Hdt. unfold to_date. rewrite Hparts. cbn [bind unpack3].
    now rewrite Hdt.
Qed.

Lemma blank_day_date_reads_back_witness :
  exists s,
    plain_cell 2012 1 5 = PlainCell s "day-class empty-day" "5"
    /\ split_entry_date (Some s) = Ok (2012, 1, 5)
    /\ to_date s = Ok (mk_date 2012 1 5).
Proof.
  destruct (blank_day_date_reads_back 2012 1 5) as (s & Hc & Hs & Hd);
    try lia.
  exists s. repeat split; [exact Hc | exact Hs | now apply Hd].
Defined.

(** ** The links and the size of the calendar *)

(** X4. For a month in 1..12 the two links of the calendar lead to
    months in 1..12, December to January of the next year and January to
    December of the year before, and each undoes the other. *)
Theorem calendar_links_stay_in_the_year_cycle :
  forall y m,
    1 <= m <= 12 ->
    next_url y m = calendar_url (fst (next_month y m)) (snd (next_month y m))
    /\ previous_url y m
       = calendar_url (fst (previous_month y m)) (snd (previous_month y m))
    /\ 1 <= snd (next_month y m) <= 12
    /\ 1 <= snd (previous_month y m) <= 12
    /\ (m = 12 -> next_month y m = (y + 1, 1))
    /\ (m = 1 -> previous_month y m = (y - 1, 12))
    /\ previous_month (fst (next_month y m)) (snd (next_month y m)) = (y, m)
    /\ next_month (fst (previous_month y m)) (snd (previous_month y m))
       = (y, m).
Proof.
  intros y m Hm. unfold next_url, previous_url, next_month, previous_month.
  repeat split;
    repeat match goal with
      | |- context [(?a =? ?b)%Z] =>
          destruct (Z.eqb_spec a b); cbn [fst snd] in *
      end;
    intros; try lia; try reflexivity; f_equal; lia.
Qed.

Lemma calendar_links_stay_in_the_year_cycle_witness :
  next_url 2012 12 = calendar_url 2013 1
  /\ previous_url 2012 1 = calendar_url 2011 12.
Proof.
  destruct (calendar_links_stay_in_the_year_cycle 2012 12 ltac:(lia))
    as (Hn & _).
  destruct (calendar_links_stay_in_the_year_cycle 2012 1 ltac:(lia))
    as (_ & Hp & _).
  split; [exact Hn | exact Hp].
Defined.

Lemma chunks7_length k : forall fuel (days : list Z),
  List.length days = (7 * k)%nat -> (k <= fuel)%nat ->
  List.length (chunks7 fuel days) = k.
Proof.
  induction k as [|k IH]; intros fuel days Hlen Hfuel.
  - destruct days; [|discriminate]. now destruct fuel.
  - destruct fuel as [|fuel]; [lia|].
    destruct days as [|d days]; [discriminate|].
    cbn [chunks7]. cbn [List.length]. f_equal.
    apply IH; [|lia]. rewrite length_skipn. cbn [List.length] in *. lia.
Qed.

Lemma itermonthdays_length_bounds y m :
  1 <= m <= 12 ->
  (28 <= List.length (itermonthdays y m) <= 43)%nat.
Proof.
  intros Hm. unfold itermonthdays.
  pose proof (weekday_range y m 1) as Hw.
  pose proof (days_in_month_bounds y m Hm) as Hn.
  rewrite !length_app, !repeat_length, length_zrange.
  rewrite Z.sub_0_r, (Z.mod_small _ 7) by assumption.
  assert (Hr : 0 <= (0 - weekday y m 1 - days_in_month y m) mod 7 < 7)
    by (apply Z.mod_pos_bound; lia).
  destruct ((y =? 9999) && (m =? 12))%Z; lia.
Qed.

(** Cutting a list into weeks loses nothing, whatever its length. *)
Lemma chunks7_concat : forall fuel (days : list Z),
  (List.length days <= fuel)%nat -> List.concat (chunks7 fuel days) = days.
Proof.
  induction fuel as [|fuel IH]; intros days Hlen.
  - destruct days; [reflexivity | cbn in Hlen; lia].
  - destruct days as [|d days]; [reflexivity|].
    cbn [chunks7]. set (l := d :: days) in *.
    rewrite concat_cons, IH; [apply firstn_skipn|].
    rewrite length_skipn. subst l. cbn [List.length] in *. lia.
Qed.

Lemma mapM_ok_inv {A B} (f : A -> result B) (g : A -> B) l : forall bs,
  (forall a b, In a l -> f a = Ok b -> b = g a) ->
  mapM f l = Ok bs -> bs = map g l.
Proof.
  induction l as [|a l IH]; intros bs H; cbn [mapM map].
  - now intros [= <-].
  - destruct (f a) as [b|x] eqn:Ea; cbn [bind]; [|discriminate].
    destruct (mapM f l) as [bs'|x] eqn:El; cbn [bind]; [|discriminate].
    intros [= <-]. f_equal.
    + apply H; [now left | exact Ea].
    + apply IH; [|reflexivity]. intros a' b' Hin. apply H. now right.
Qed.

(** On a well-formed table, for a user that exists, the cells
    [gen_calendar] writes are those of the specification. *)
Lemma gen_calendar_grid_cells get db y m d user u rows :
  1 <= y <= 9999 -> 1 <= m <= 12 -> get user = Ok u ->
  well_formed_table db ->
  gen_calendar_grid get y m d user db = Ok rows ->
  rows = map (map (cell_of_day u y m db))
             (chunks7 (List.length (itermonthdays y m)) (itermonthdays y m)).
Proof.
  intros Hy Hm Hget Hdb. unfold gen_calendar_grid.
  rewrite (proj2 (in_keys_MONTH_MAP m) Hm). cbn [negb].
  rewrite Hget. cbn [bind]. rewrite (monthcalendar_ok y m Hy Hm). cbn [bind].
  apply mapM_ok_inv. intros week row _. apply mapM_ok_inv.
  intros d' c _. now apply render_day_ok.
Qed.

(** On a well-formed table whose day-types can be written, for a user
    that exists, [gen_calendar] does not fail. *)
Lemma gen_calendar_grid_ok get db y m d user u :
  1 <= y <= 9999 -> 1 <= m <= 12 -> get user = Ok u ->
  well_formed_table db -> ascii_daytypes db ->
  gen_calendar_grid get y m d user db
  = Ok (map (map (cell_of_day u y m db))
            (chunks7 (List.length (itermonthdays y m)) (itermonthdays y m))).
Proof.
  intros Hy Hm Hget Hdb Hascii. unfold gen_calendar_grid.
  rewrite (proj2 (in_keys_MONTH_MAP m) Hm). cbn [negb].
  rewrite Hget. cbn [bind]. rewrite (monthcalendar_ok y m Hy Hm). cbn [bind].
  apply mapM_ok_map. intros week _. apply mapM_ok_map. intros d' _.
  now apply render_day_cell_of_day.
Qed.

(** X5. For a year in 1..9999 and a month in 1..12 (December 9999 apart,
    whose last week the calendar module cannot complete), a user that
    exists and a well-formed table whose day-types are ASCII,
    [gen_calendar] returns its HTML (it raises nothing), and the grid has
    between four and six weeks of seven cells. *)
Theorem gen_calendar_renders_four_to_six_weeks :
  forall get db y m d user u,
    1 <= y <= 9999 -> 1 <= m <= 12 -> ~ (y = 9999 /\ m = 12) ->
    get user = Ok u ->
    well_formed_table db -> ascii_daytypes db ->
    exists rows,
      gen_calendar_grid get y m d user db = Ok rows
      /\ gen_calendar get y m d user db = Ok (calendar_html y m rows)
      /\ (4 <= List.length rows <= 6)%nat
      /\ Forall (fun week => List.length week = 7%nat) rows.
Proof.
  intros get db y m d user u Hy Hm Hlast Hget Hdb Hascii.
  pose proof (gen_calendar_grid_ok get db y m d user u Hy Hm Hget Hdb Hascii)
    as Hg.
  destruct (itermonthdays_length y m Hm Hlast) as [k Hk].
  pose proof (itermonthdays_length_bounds y m Hm) as Hb.
  destruct (chunks7_spec k (List.length (itermonthdays y m))
              (itermonthdays y m) Hk) as [Hall _]; [lia|].
  pose proof (chunks7_length k (List.length (itermonthdays y m))
                (itermonthdays y m) Hk ltac:(lia)) as Hlen.
  eexists. split; [exact Hg|]. split; [|split].
  - unfold gen_calendar. rewrite Hg. reflexivity.
  - rewrite length_map, Hlen. lia.
  - apply Forall_map. eapply Forall_impl; [|exact Hall].
    intros week Hw. now rewrite length_map.
Qed.

Lemma gen_calendar_renders_four_to_six_weeks_witness :
  exists rows,
    gen_calendar_grid Examples.users 2012 1 1 (PyInt 1) [Examples.workday_row]
    = Ok rows
    /\ (4 <= List.length rows <= 6)%nat.
Proof.
  assert (Hwf : well_formed_table [Examples.workday_row]).
  { repeat split; repeat constructor; intros []. }
  assert (Hascii : ascii_daytypes [Examples.workday_row])
    by (repeat constructor).
  destruct (gen_calendar_renders_four_to_six_weeks
              Examples.users [Examples.workday_row] 2012 1 1 (PyInt 1)
              (Tbluser.mk 1 "aaron.france@hp.com" "aaron" "france" "AP"
                 (mk_time 7 45 0) (mk_time 0 15 0) 20))
    as (rows & Hg & _ & Hlen & _); try lia; trivial.
  exists rows. split; assumption.
Defined.

(** ** What [ajax_add_entry] stores *)

Lemma TrackingEntry_new_fields user_id entry_date start_time end_time breaks
    daytype x :
  TrackingEntry_new user_id entry_date start_time end_time breaks daytype
  = Ok x ->
  exists u d s e b t,
    to_user_id user_id = Ok (Some u)
    /\ convert to_date entry_date = Ok (Some d)
    /\ convert to_time start_time = Ok (Some s)
    /\ convert to_time end_time = Ok (Some e)
    /\ convert to_time breaks = Ok (Some b)
    /\ daytype = Some t
    /\ x = TrackingEntry.mk 0 u d s e b t.
Proof.
  unfold TrackingEntry_new. bind_ok. intros [= <-].
  repeat match goal with
    | H : not_null _ _ = Ok _ |- _ => apply not_null_ok in H; subst
    end.
  do 6 eexists. repeat split; reflexivity.
Qed.

Lemma session_user_id_of r u :
  to_user_id (session_user r) = Ok (Some u) -> session_user_id r = Some u.
Proof.
  unfold session_user. destruct (session_user_id r) as [n|]; cbn; congruence.
Qed.

Lemma to_date_split s dt :
  to_date s = Ok dt ->
  split_entry_date (Some s) = Ok (year dt, month dt, day dt).
Proof.
  unfold to_date, split_entry_date.
  destruct (mapM py_int (split "-" s)) as [parts|x]; cbn [bind];
    [|discriminate].
  destruct (unpack3 parts) as [[[y m] d]|x]; cbn [bind]; [|discriminate].
  destruct (datetime_date y m d) as [d0|x] eqn:E; [|discriminate].
  apply datetime_date_ok in E. destruct E as (-> & _).
  intros [= <-]. reflexivity.
Qed.

(** X6. An answer of [ajax_add_entry] with success means that exactly
    one row was appended for the user of the session, under a fresh primary
    key and a (user, date) that was free, and that the calendar of the
    answer is rendered from the table with that row; any other answer
    carries an error and leaves the table as it was. *)
Theorem ajax_add_entry_stores_exactly_on_success :
  forall get r db j db1,
    ajax_add_entry get r db = (Ok (JsonResponse j), db1) ->
    (success j = Some true ->
     exists e html,
       form_entry r = Ok e
       /\ session_user_id r = Some (TrackingEntry.user_id e)
       /\ ~ In (entry_key e) (map entry_key db)
       /\ ~ In (next_id db) (map TrackingEntry.id db)
       /\ db1 = (db ++ [TrackingEntry.with_id (next_id db) e])%list
       /\ calendar_for get (POST_get "entry_date" r) (session_user r) db1
          = Ok html
       /\ j = mk_json (Some true) None (Some html))
    /\ (success j <> Some true ->
        db1 = db /\ exists msg, j = mk_json None (Some msg) None).
Proof.
  intros get r db j db1. unfold ajax_add_entry, request_check.
  destruct (negb (is_ajax r)); [discriminate|].
  destruct (negb (truthy_id (session_user_id r))); [discriminate|].
  unfold json_response, ajax_add_entry_body.
  fold (form_entry r).
  destruct (validate_time _ _) as [[|]|x].
  - unfold create_entry. fold (form_entry r).
    destruct (form_entry r) as [e|x] eqn:He.
    + unfold save_new. destruct (existsb (same_key e) db) eqn:Hdup.
      * cbn. intros [= <- <-]. split; [discriminate|].
        intros _. split; [reflexivity | eexists; reflexivity].
      * destruct (calendar_for _ _ _ _) as [html|x] eqn:Hc; [|discriminate].
        intros [= <- <-]. split; [|intros H; now elim H].
        intros _. exists e, html.
        unfold form_entry in He. apply TrackingEntry_new_fields in He.
        destruct He as (u & d & s & e' & b & t & Hu & _ & _ & _ & _ & _ & ->).
        cbn [TrackingEntry.user_id].
        repeat split; trivial.
        -- now apply session_user_id_of.
        -- intros Hin. apply existsb_same_key in Hin. congruence.
        -- apply next_id_fresh.
    + destruct x; try discriminate.
      destruct (code =? DUPLICATE_ENTRY)%Z; intros [= <- <-];
        (split; [discriminate|]); intros _; (split; [reflexivity | eexists; reflexivity]).
  - intros [= <- <-]. split; [discriminate|].
    intros _. split; [reflexivity | eexists; reflexivity].
  - destruct x; try discriminate. intros [= <- <-]. split; [discriminate|].
    intros _. split; [reflexivity | eexists; reflexivity].
Qed.

Lemma ajax_add_entry_stores_exactly_on_success_witness :
  snd (ajax_add_entry Examples.users Examples.add_workday [])
  = [Examples.workday_row]
  /\ snd (ajax_add_entry Examples.users Examples.add_again
            [Examples.workday_row])
     = [Examples.workday_row].
Proof.
  split.
  - destruct (ajax_add_entry Examples.users Examples.add_workday [])
      as [[[j|s]|x] db1] eqn:E; try (vm_compute in E; discriminate).
    destruct (ajax_add_entry_stores_exactly_on_success _ _ _ _ _ E)
      as [Hs _].
    assert (Hj : success j = Some true)
      by (vm_compute in E; injection E as <- _; reflexivity).
    destruct (Hs Hj) as (e & html & He & _ & _ & _ & -> & _).
    vm_compute in He. injection He as <-. reflexivity.
  - destruct (ajax_add_entry Examples.users Examples.add_again
                [Examples.workday_row])
      as [[[j|s]|x] db1] eqn:E; try (vm_compute in E; discriminate).
    destruct (ajax_add_entry_stores_exactly_on_success _ _ _ _ _ E)
      as [_ Hf].
    assert (Hj : success j <> Some true)
      by (vm_compute in E; injection E as <- _; discriminate).
    exact (proj1 (Hf Hj)).
Defined.

Lemma valid_date_bounds dt :
  valid_date dt ->
  1 <= year dt <= 9999 /\ 1 <= month dt <= 12
  /\ 1 <= day dt <= days_in_month (year dt) (month dt).
Proof.
  unfold valid_date. intros H. apply datetime_date_ok in H. lia.
Qed.

Lemma date_eta dt : mk_date (year dt) (month dt) (day dt) = dt.
Proof. now destruct dt. Qed.

(** Every day of the month is in the grid. *)
Lemma day_in_itermonthdays y m d :
  1 <= d <= days_in_month y m -> In d (itermonthdays y m).
Proof.
  intros Hd. unfold itermonthdays. apply in_or_app. right.
  apply in_or_app. left. apply In_zrange. lia.
Qed.

(** X7. After [ajax_add_entry] has answered with success on a
    well-formed table, the calendar it returns is the calendar of the month
    of the new entry, and on the day of the entry the grid has a cell that
    is annotated with the stored entry: the start, the end and the break
    that were submitted, the date, the day-type, and the new primary key,
    the tenth value of the click handler. *)
Theorem added_entry_shows_in_the_returned_calendar :
  forall get r db j db1 e u,
    well_formed_table db ->
    ajax_add_entry get r db = (Ok (JsonResponse j), db1) ->
    success j = Some true ->
    form_entry r = Ok e ->
    get (session_user r) = Ok u ->
    session_user_id r = Some (Tbluser.id u) ->
    let date := TrackingEntry.entry_date e in
    let stored := TrackingEntry.with_id (next_id db) e in
    exists rows c vals,
      gen_calendar_grid get (year date) (month date) (day date)
        (session_user r) db1 = Ok rows
      /\ calendar j = Some (calendar_html (year date) (month date) rows)
      /\ In stored db1
      /\ In c (List.concat rows)
      /\ carries_entry c stored (day date)
      /\ c = EntryCell vals
      /\ val vals 0 = str_Z (hour (TrackingEntry.start_time e))
      /\ val vals 1 = str_Z (minute (TrackingEntry.start_time e))
      /\ val vals 3 = str_Z (hour (TrackingEntry.end_time e))
      /\ val vals 4 = str_Z (minute (TrackingEntry.end_time e))
      /\ val vals 6 = str_date date
      /\ val vals 7 = TrackingEntry.daytype e
      /\ val vals 8 = str_Z (day date)
      /\ val vals 9 = str_Z (next_id db)
      /\ val vals 10 = str_Z (minute (TrackingEntry.breaks e)).
Proof.
  intros get r db j db1 e u Hdb Hadd Hj He Hget Hsession date stored.
  destruct (ajax_add_entry_table get r db) as [Htab | Htab].
  - exfalso.
    pose proof (ajax_add_entry_success_stores get r db j db1 e Hadd Hj He)
      as Hin.
    rewrite Hadd in Htab. cbn [snd] in Htab. subst db1.
    unfold ajax_add_entry, request_check in Hadd.
    destruct (negb (is_ajax r)); [discriminate|].
    destruct (negb (truthy_id (session_user_id r))); [discriminate|].
    unfold json_response, ajax_add_entry_body in Hadd.
    destruct (validate_time _ _) as [[|]|x].
    + unfold create_entry in Hadd. fold (form_entry r) in Hadd.
      rewrite He in Hadd.
      apply existsb_same_key in Hin. rewrite (save_new_duplicate e db Hin) in Hadd.
      cbn in Hadd. injection Hadd as <-. discriminate.
    + injection Hadd as <-. discriminate.
    + destruct x; try discriminate. injection Hadd as <-. discriminate.
  - assert (Hwf1 : well_formed_table db1).
    { pose proof (ajax_add_entry_well_formed get r db Hdb) as H.
      now rewrite Hadd in H. }
    rewrite Hadd in Htab. cbn [snd] in Htab.
    unfold create_entry in Htab. fold (form_entry r) in Htab.
    rewrite He in Htab.
    (* the calendar of the answer *)
    assert (Hcal : exists html,
               calendar_for get (POST_get "entry_date" r) (session_user r) db1
               = Ok html /\ calendar j = Some html
               /\ db1 = (db ++ [stored])%list).
    { unfold ajax_add_entry, request_check in Hadd.
      destruct (negb (is_ajax r)); [discriminate|].
      destruct (negb (truthy_id (session_user_id r))); [discriminate|].
      unfold json_response, ajax_add_entry_body in Hadd.
      destruct (validate_time _ _) as [[|]|x].
      - unfold create_entry in Hadd. fold (form_entry r) in Hadd.
        rewrite He in Hadd. unfold save_new in Hadd, Htab.
        destruct (existsb (same_key e) db).
        + cbn in Hadd. injection Hadd as <- _. discriminate.
        + destruct (calendar_for _ _ _ _) as [html|x] eqn:Hc; [|discriminate].
          injection Hadd as <- <-. exists html. repeat split. exact Hc.
      - injection Hadd as <- _. discriminate.
      - destruct x; try discriminate. injection Hadd as <- _. discriminate. }
    destruct Hcal as (html & Hc & Hjc & Hdb1).
    pose proof He as Hnew. unfold form_entry in Hnew.
    apply TrackingEntry_new_ok in Hnew.
    destruct Hnew as (s & uid & Hs & Hd & Hu & Hue & _ & Hvalid).
    apply session_user_id_of in Hu.
    assert (Hsplit := to_date_split s _ Hd). fold date in Hsplit, Hvalid.
    destruct (valid_date_bounds date Hvalid) as (Hy & Hm & Hday).
    unfold calendar_for in Hc. rewrite Hs, Hsplit in Hc. cbn [bind] in Hc.
    unfold gen_calendar in Hc.
    destruct (gen_calendar_grid get (year date) (month date) (day date)
                (session_user r) db1) as [rows|x] eqn:Hgrid;
      cbn [bind] in Hc; [|discriminate].
    pose proof (gen_calendar_grid_cells get db1 (year date) (month date)
                  (day date) (session_user r) u rows Hy Hm Hget Hwf1 Hgrid)
      as Hrows.
    assert (Hstored : In stored db1)
      by (rewrite Hdb1; apply in_or_app; right; now left).
    exists rows, (EntryCell (entry_vals stored (day date))),
      (entry_vals stored (day date)).
    split; [reflexivity|].
    split; [rewrite Hjc; f_equal; now injection Hc as <-|].
    split; [exact Hstored|].
    split; [|split; [apply entry_cell_carries_entry | repeat split]].
    rewrite Hrows, <- concat_map. apply in_map_iff. exists (day date). split.
    + apply cell_of_day_entry; trivial.
      * now destruct Hwf1.
      * lia.
      * unfold entry_key. subst stored. cbn [TrackingEntry.with_id
          TrackingEntry.user_id TrackingEntry.entry_date].
        fold date. rewrite date_eta. f_equal. congruence.
    + rewrite chunks7_concat by lia. now apply day_in_itermonthdays.
Qed.

Lemma added_entry_shows_in_the_returned_calendar_witness :
  exists rows c vals,
    gen_calendar_grid Examples.users 2012 1 5 (PyInt 1) [Examples.workday_row]
    = Ok rows
    /\ In c (List.concat rows)
    /\ carries_entry c Examples.workday_row 5
    /\ c = EntryCell vals
    /\ val vals 0 = "9" /\ val vals 3 = "17" /\ val vals 6 = "2012-01-05"
    /\ val vals 7 = "WKDAY" /\ val vals 9 = "1".
Proof.
  assert (H0 : well_formed_table []) by (repeat split; constructor).
  destruct (ajax_add_entry Examples.users Examples.add_workday [])
    as [[[j|s]|x] db1] eqn:E; try (vm_compute in E; discriminate).
  assert (Hj : success j = Some true)
    by (vm_compute in E; injection E as <- _; reflexivity).
  assert (Hdb1 : db1 = [Examples.workday_row])
    by (vm_compute in E; injection E as _ <-; reflexivity).
  destruct (added_entry_shows_in_the_returned_calendar
              Examples.users Examples.add_workday [] j db1
              (TrackingEntry.mk 0 1 (mk_date 2012 1 5) (mk_time 9 0 0)
                 (mk_time 17 0 0) (mk_time 0 15 0) "WKDAY")
              (Tbluser.mk 1 "aaron.france@hp.com" "aaron" "france" "AP"
                 (mk_time 7 45 0) (mk_time 0 15 0) 20)
              H0 E Hj eq_refl eq_refl eq_refl)
    as (rows & c & vals & Hg & _ & _ & Hin & Hcarries & Hc & H0' & _ & H3
        & _ & H6 & H7 & _ & H9 & _).
  subst db1. exists rows, c, vals.
  repeat split; assumption.
Defined.

(** ** The handler of views.py *)

Lemma ajax_table get r db :
  snd (ajax get r db) = db
  \/ snd (ajax get r db)
     = snd (create_entry (PyInt 1) (POST_get "entry_date" r)
              (POST_get "start_time" r) (POST_get "end_time" r)
              (Some "00:15:00") (POST_get "daytype" r) db).
Proof.
  unfold ajax. destruct (negb (is_ajax r)); [now left|].
  destruct (start_after_end _ _) as [[|]|x]; [now left| |now left].
  right. unfold ajax_save.
  destruct (create_entry _ _ _ _ _ _ db) as [[u|x] db']; cbn [snd].
  - destruct (calendar_for _ _ _ db') as [c|x]; [reflexivity|].
    destruct x; try reflexivity.
    destruct (code =? DUPLICATE_ENTRY)%Z; reflexivity.
  - destruct x; try reflexivity.
    destruct (code =? DUPLICATE_ENTRY)%Z; reflexivity.
Qed.

(** X8. Whoever is logged in, [ajax] of views.py stores for user 1 and
    with a break of a quarter of an hour: a row of the table after the
    request was there before, or it is the one new row, of user 1, with
    break 00:15:00 and a fresh primary key.  No row is removed or
    changed. *)
Theorem ajax_stores_for_user_1_only :
  forall get r db,
    (forall e, In e db -> In e (snd (ajax get r db)))
    /\ (forall e,
          In e (snd (ajax get r db)) ->
          In e db
          \/ (TrackingEntry.user_id e = 1
              /\ TrackingEntry.breaks e = mk_time 0 15 0
              /\ TrackingEntry.id e = next_id db)).
Proof.
  intros get r db.
  destruct (ajax_table get r db) as [-> | ->]; [split; auto|].
  unfold create_entry.
  destruct (TrackingEntry_new _ _ _ _ _ _) as [e0|x] eqn:E0;
    [|cbn [snd]; split; auto].
  unfold save_new. destruct (existsb (same_key e0) db); cbn [snd];
    [split; auto|].
  split.
  - intros e He. apply in_or_app. now left.
  - intros e He. apply in_app_or in He. destruct He as [He | [<- | []]];
      [now left | right].
    apply TrackingEntry_new_fields in E0.
    destruct E0 as (u & d & s & e' & b & t & Hu & _ & _ & _ & Hb & _ & ->).
    cbn in Hu, Hb. injection Hu as <-. injection Hb as <-.
    repeat split.
Qed.

(** ** The check of the request *)

(** X9. [request_check]: a request that is not an AJAX request, or whose
    session has no user id (an id of 0 counts as none), is turned away with
    [Http404] by every decorated handler, and the table is not touched. *)
Theorem unauthenticated_requests_are_turned_away :
  forall get r db,
    is_ajax r = false \/ session_user_id r = None \/ session_user_id r = Some 0 ->
    ajax_add_entry get r db = (Raise Http404, db)
    /\ ajax_change_entry get r db = (Raise Http404, db)
    /\ ajax_delete_entry get r db = (Raise Http404, db)
    /\ mass_holidays r db = (Raise Http404, db).
Proof.
  intros get r db H.
  unfold ajax_add_entry, ajax_change_entry, ajax_delete_entry, mass_holidays,
    request_check.
  destruct (is_ajax r); cbn [negb].
  - assert (Ht : truthy_id (session_user_id r) = false).
    { destruct H as [H | [-> | ->]]; [discriminate | reflexivity..]. }
    rewrite Ht. cbn [negb]. repeat split.
  - repeat split.
Qed.

Lemma unauthenticated_requests_are_turned_away_witness :
  ajax_add_entry Examples.users
    (mk_request true (Some 0)
       (Examples.form "2012-01-05" "09:00" "17:00" "WKDAY") None) []
  = (Raise Http404, []).
Proof.
  apply (unauthenticated_requests_are_turned_away Examples.users
           (mk_request true (Some 0)
              (Examples.form "2012-01-05" "09:00" "17:00" "WKDAY") None) []).
  right. right. reflexivity.
Defined.

(** ** Changing and deleting an entry *)

Lemma delete_by_id_well_formed i db :
  well_formed_table db -> well_formed_table (delete_by_id i db).
Proof.
  intros (Hk & Hi & Hd). unfold delete_by_id. repeat split.
  - now apply NoDup_map_filter.
  - now apply NoDup_map_filter.
  - apply Forall_forall. intros r Hr. apply filter_In in Hr.
    rewrite Forall_forall in Hd. now apply Hd.
Qed.

(** Rewriting the row of a primary key keeps one row per (user, date)
    when no other row has the (user, date) of the new row. *)
Lemma save_existing_unique e db :
  NoDup (map TrackingEntry.id db) -> unique_entries db ->
  (forall r, In r db -> TrackingEntry.id r <> TrackingEntry.id e ->
             entry_key r <> entry_key e) ->
  unique_entries (save_existing e db).
Proof.
  unfold unique_entries, save_existing.
  induction db as [|a db IH]; intros Hi Hk Hother; cbn [map]; [constructor|].
  cbn [map] in Hi, Hk.
  inversion Hi as [|i is_ Hi1 Hi2]; inversion Hk as [|k ks Hk1 Hk2]; subst.
  destruct (TrackingEntry.id a =? TrackingEntry.id e)%Z eqn:E.
  - apply Z.eqb_eq in E.
    assert (Hsame : map (fun r => if (TrackingEntry.id r =? TrackingEntry.id e)%Z
                                  then e else r) db = db).
    { rewrite <- (map_id db) at 2. apply map_ext_in. intros r Hr.
      destruct (TrackingEntry.id r =? TrackingEntry.id e)%Z eqn:Er; trivial.
      apply Z.eqb_eq in Er. exfalso. apply Hi1. rewrite E, <- Er.
      now apply in_map. }
    rewrite Hsame. constructor; [|exact Hk2].
    intros Hin. apply in_map_iff in Hin. destruct Hin as (r & Hr & Hrin).
    apply (Hother r); [now right | | exact Hr].
    intros Heq. apply Hi1. rewrite E, <- Heq. now apply in_map.
  - apply Z.eqb_neq in E. constructor.
    + intros Hin. apply in_map_iff in Hin. destruct Hin as (x & Hx & Hxin).
      apply in_map_iff in Hxin. destruct Hxin as (r & Hr & Hrin). subst x.
      destruct (TrackingEntry.id r =? TrackingEntry.id e)%Z.
      * apply (Hother a); [now left | exact E | now symmetry].
      * apply Hk1. rewrite <- Hx. now apply in_map.
    + apply IH; trivial. intros r Hr. apply Hother. now right.
Qed.

Lemma save_existing_ids e db :
  map TrackingEntry.id (save_existing e db) = map TrackingEntry.id db.
Proof.
  unfold save_existing. rewrite map_map. apply map_ext. intros r.
  destruct (TrackingEntry.id r =? TrackingEntry.id e)%Z eqn:E; trivial.
  now apply Z.eqb_eq in E.
Qed.

Lemma save_with_id_well_formed e db :
  well_formed_table db -> valid_date (TrackingEntry.entry_date e) ->
  well_formed_table (snd (save_with_id e db)).
Proof.
  intros (Hk & Hi & Hd) He. unfold save_with_id.
  destruct (existsb (fun r => same_key e r
                              && negb (TrackingEntry.id r =? TrackingEntry.id e)%Z)
              db) eqn:Hdup; cbn [snd]; [repeat split; assumption|].
  assert (Hother : forall r, In r db ->
                             TrackingEntry.id r <> TrackingEntry.id e ->
                             entry_key r <> entry_key e).
  { intros r Hr Hne Heq.
    assert (existsb (fun r => same_key e r
                              && negb (TrackingEntry.id r =? TrackingEntry.id e)%Z)
              db = true); [|congruence].
    apply existsb_exists. exists r. split; [exact Hr|].
    rewrite (proj2 (same_key_iff e r)) by now symmetry.
    now rewrite (proj2 (Z.eqb_neq _ _) Hne). }
  destruct (existsb (fun r => (TrackingEntry.id r =? TrackingEntry.id e)%Z) db)
    eqn:Hex; cbn [snd].
  - repeat split.
    + now apply save_existing_unique.
    + now rewrite save_existing_ids.
    + unfold save_existing. apply Forall_map.
      eapply Forall_impl; [|exact Hd]. intros r Hr.
      now destruct (TrackingEntry.id r =? TrackingEntry.id e)%Z.
  - assert (Hfresh : forall r, In r db ->
                               TrackingEntry.id r <> TrackingEntry.id e).
    { intros r Hr Heq.
      assert (existsb (fun r => (TrackingEntry.id r =? TrackingEntry.id e)%Z) db
              = true); [|congruence].
      apply existsb_exists. exists r. split; [exact Hr | now apply Z.eqb_eq]. }
    repeat split.
    + unfold unique_entries. rewrite map_app. apply NoDup_app; trivial.
      * cbn. constructor; [tauto | constructor].
      * intros k Hin [<- | []]. apply in_map_iff in Hin.
        destruct Hin as (r & Hr & Hrin). now apply (Hother r Hrin (Hfresh r Hrin)).
    + rewrite map_app. apply NoDup_app; trivial.
      * cbn. constructor; [tauto | constructor].
      * intros k Hin [<- | []]. apply in_map_iff in Hin.
        destruct Hin as (r & Hr & Hrin). now apply (Hfresh r Hrin).
    + apply Forall_app. split; [assumption|].
      constructor; [exact He | constructor].
Qed.

Lemma change_entry_well_formed get r db :
  well_formed_table db -> well_formed_table (snd (change_entry get r db)).
Proof.
  intros Hdb. unfold change_entry.
  destruct (get (session_user r)) as [user|x]; cbn [bind]; [|exact Hdb].
  destruct (to_user_id _) as [i|x]; cbn [bind]; [|exact Hdb].
  destruct (not_null "id" i) as [i'|x]; cbn [bind]; [|exact Hdb].
  destruct (TrackingEntry_new _ _ _ _ _ _) as [e|x] eqn:E; cbn [bind];
    [|exact Hdb].
  apply save_with_id_well_formed; [exact Hdb|].
  apply TrackingEntry_new_ok in E.
  destruct E as (s & u & _ & _ & _ & _ & _ & H). exact H.
Qed.

(** X10. The other handlers that write keep the table well formed, one
    row per (user, date) and per primary key, with dates of the calendar:
    [ajax_change_entry], [ajax_delete_entry] and [ajax] of views.py. *)
Theorem handlers_keep_the_table_well_formed :
  forall get r db,
    well_formed_table db ->
    well_formed_table (snd (ajax_change_entry get r db))
    /\ well_formed_table (snd (ajax_delete_entry get r db))
    /\ well_formed_table (snd (ajax get r db)).
Proof.
  intros get r db Hdb. split; [|split].
  - unfold ajax_change_entry, request_check.
    destruct (negb (is_ajax r)); [exact Hdb|].
    destruct (negb (truthy_id (session_user_id r))); [exact Hdb|].
    rewrite snd_json_response. unfold ajax_change_entry_body.
    destruct (validate_time _ _) as [[|]|x]; [|exact Hdb|destruct x; exact Hdb].
    pose proof (change_entry_well_formed get r db Hdb) as Hc.
    destruct (if truthy_string (POST_get "hidden-id" r)
              then change_entry get r db else (Ok tt, db))
      as [[u|x] db'] eqn:E.
    + assert (well_formed_table db').
      { destruct (truthy_string _); [now rewrite E in Hc|].
        injection E as _ <-. exact Hdb. }
      now destruct (calendar_for _ _ _ db').
    + destruct (truthy_string _); [now rewrite E in Hc | discriminate].
  - unfold ajax_delete_entry, request_check.
    destruct (negb (is_ajax r)); [exact Hdb|].
    destruct (negb (truthy_id (session_user_id r))); [exact Hdb|].
    rewrite snd_json_response. unfold ajax_delete_entry_body.
    assert (Hd : well_formed_table (snd (delete_entry get r db))).
    { unfold delete_entry.
      destruct (_ <- get (session_user r) ;; _) as [i|x]; cbn [snd];
        [now apply delete_by_id_well_formed | exact Hdb]. }
    destruct (if truthy_string (POST_get "hidden-id" r)
              then delete_entry get r db else (Ok tt, db))
      as [[u|x] db'] eqn:E.
    + assert (well_formed_table db').
      { destruct (truthy_string _); [now rewrite E in Hd|].
        injection E as _ <-. exact Hdb. }
      now destruct (calendar_for _ _ _ db').
    + destruct (truthy_string _); [now rewrite E in Hd | discriminate].
  - destruct (ajax_table get r db) as [-> | ->];
      [exact Hdb | now apply create_entry_well_formed].
Qed.

Lemma handlers_keep_the_table_well_formed_witness :
  well_formed_table
    (snd (ajax Examples.users Examples.equal_times_request
            [Examples.workday_row])).
Proof.
  assert (Hwf : well_formed_table [Examples.workday_row]).
  { repeat split; repeat constructor; intros []. }
  exact (proj2 (proj2 (handlers_keep_the_table_well_formed
                         Examples.users Examples.equal_times_request
                         [Examples.workday_row] Hwf))).
Defined.

Lemma ajax_stores_for_user_1_only_witness :
  In (TrackingEntry.mk 1 1 (mk_date 2012 1 5) (mk_time 9 0 0) (mk_time 17 0 0)
        (mk_time 0 15 0) "WKDAY") []
  \/ (TrackingEntry.user_id
        (TrackingEntry.mk 1 1 (mk_date 2012 1 5) (mk_time 9 0 0)
           (mk_time 17 0 0) (mk_time 0 15 0) "WKDAY") = 1
      /\ TrackingEntry.breaks
           (TrackingEntry.mk 1 1 (mk_date 2012 1 5) (mk_time 9 0 0)
              (mk_time 17 0 0) (mk_time 0 15 0) "WKDAY") = mk_time 0 15 0
      /\ TrackingEntry.id
           (TrackingEntry.mk 1 1 (mk_date 2012 1 5) (mk_time 9 0 0)
              (mk_time 17 0 0) (mk_time 0 15 0) "WKDAY") = next_id []).
Proof.
  apply (proj2 (ajax_stores_for_user_1_only Examples.users
                  (mk_request true (Some 3)
                     (Examples.form "2012-01-05" "09:00" "17:00" "WKDAY") None)
                  [])).
  left. reflexivity.
Defined.

Lemma next_id_positive db : 1 <= next_id db.
Proof.
  unfold next_id.
  assert (0 <= fold_right Z.max 0 (map TrackingEntry.id db)); [|lia].
  induction db as [|r db IH]; cbn [map fold_right]; lia.
Qed.

Lemma truthy_string_str_Z n : 0 <= n -> truthy_string (Some (str_Z n)) = true.
Proof.
  intros Hn. destruct (str_Z_digits n Hn) as (_ & Hne & _).
  unfold truthy_string. destruct (str_Z n); [now elim Hne | reflexivity].
Qed.

Lemma delete_by_id_frame i db row :
  In row (delete_by_id i db) <-> In row db /\ TrackingEntry.id row <> i.
Proof.
  unfold delete_by_id. rewrite filter_In, negb_true_iff, Z.eqb_neq. tauto.
Qed.

(** Deleting the row that was appended last gives the table back. *)
Lemma delete_by_id_appended e db :
  delete_by_id (next_id db)
    (db ++ [TrackingEntry.with_id (next_id db) e])%list
  = db.
Proof.
  unfold delete_by_id. rewrite filter_app. cbn [filter TrackingEntry.with_id
    TrackingEntry.id]. rewrite Z.eqb_refl. cbn [negb]. rewrite app_nil_r.
  rewrite <- (filter_ext_in (fun _ => true)).
  - induction db as [|r l IH]; cbn [filter]; [|rewrite IH]; reflexivity.
  - intros r Hr. symmetry. apply negb_true_iff, Z.eqb_neq.
    pose proof (ids_below_next_id db (TrackingEntry.id r) (in_map _ _ _ Hr)).
    lia.
Qed.

(** The table after [ajax_delete_entry]. *)
Lemma ajax_delete_entry_table get r db :
  authenticated r ->
  snd (ajax_delete_entry get r db)
  = if truthy_string (POST_get "hidden-id" r)
    then snd (delete_entry get r db) else db.
Proof.
  intros Hr. unfold ajax_delete_entry.
  rewrite request_check_authenticated by assumption.
  rewrite snd_json_response. unfold ajax_delete_entry_body.
  destruct (truthy_string (POST_get "hidden-id" r)).
  - destruct (delete_entry get r db) as [[u|x] db']; cbn [snd]; trivial.
    now destruct (calendar_for _ _ _ db').
  - cbn [snd]. now destruct (calendar_for _ _ _ db).
Qed.

(** X11. [ajax_delete_entry] deletes by primary key.  For a request that
    passes the check, with a [hidden-id] that reads as the number [i] and a
    session user that exists, the table afterwards holds exactly the rows
    whose primary key is not [i]; without a [hidden-id], or with one that
    is no number, or with a session user that is unknown, the table is left
    as it was. *)
Theorem ajax_delete_entry_deletes_by_primary_key :
  forall get r db,
    authenticated r ->
    (truthy_string (POST_get "hidden-id" r) = false ->
     snd (ajax_delete_entry get r db) = db)
    /\ (forall s x,
          POST_get "hidden-id" r = Some s ->
          py_int s = Raise x \/ get (session_user r) = Raise x ->
          snd (ajax_delete_entry get r db) = db
          /\ (truthy_string (Some s) = true ->
              exists msg,
                fst (ajax_delete_entry get r db)
                = Ok (JsonResponse (mk_json None (Some msg) None))))
    /\ (forall s i user,
          POST_get "hidden-id" r = Some s -> truthy_string (Some s) = true ->
          py_int s = Ok i -> get (session_user r) = Ok user ->
          snd (ajax_delete_entry get r db) = delete_by_id i db
          /\ forall row,
               In row (snd (ajax_delete_entry get r db))
               <-> In row db /\ TrackingEntry.id row <> i).
Proof.
  intros get r db Hr. split; [|split].
  - intros Hf. rewrite ajax_delete_entry_table by assumption. now rewrite Hf.
  - intros s x Hs Hfail.
    assert (Hd : delete_entry get r db
                 = (Raise (match get (session_user r) with
                           | Ok _ => x
                           | Raise y => y
                           end), db)).
    { unfold delete_entry. rewrite Hs. cbn [opt_pyval to_user_id].
      destruct (get (session_user r)) as [user|y]; cbn [bind]; [|reflexivity].
      destruct Hfail as [Hi | Hg]; [|discriminate].
      rewrite Hi. reflexivity. }
    split.
    + rewrite ajax_delete_entry_table by assumption. rewrite Hs, Hd.
      now destruct (truthy_string (Some s)).
    + intros Ht. unfold ajax_delete_entry.
      rewrite request_check_authenticated by assumption.
      unfold json_response, ajax_delete_entry_body. rewrite Hs, Ht, Hd.
      eexists. reflexivity.
  - intros s i user Hs Ht Hi Hg.
    assert (Hd : snd (ajax_delete_entry get r db) = delete_by_id i db).
    { rewrite ajax_delete_entry_table by assumption. rewrite Hs, Ht.
      unfold delete_entry. rewrite Hs, Hg. cbn [bind opt_pyval to_user_id].
      rewrite Hi. reflexivity. }
    split; [exact Hd|]. intros row. rewrite Hd. apply delete_by_id_frame.
Qed.

Lemma ajax_delete_entry_deletes_by_primary_key_witness :
  snd (ajax_delete_entry Examples.users
         (mk_request true (Some 1)
            [("hidden-id", "1"); ("entry_date", "2012-01-05")] None)
         [Examples.workday_row])
  = [].
Proof.
  destruct (ajax_delete_entry_deletes_by_primary_key Examples.users
              (mk_request true (Some 1)
                 [("hidden-id", "1"); ("entry_date", "2012-01-05")] None)
              [Examples.workday_row] (conj eq_refl eq_refl)) as (_ & _ & H).
  destruct (H "1" 1
              (Tbluser.mk 1 "aaron.france@hp.com" "aaron" "france" "AP"
                 (mk_time 7 45 0) (mk_time 0 15 0) 20)
              eq_refl eq_refl eq_refl eq_refl) as [Hd _].
  rewrite Hd. reflexivity.
Defined.

(** The table after a successful [ajax_add_entry]. *)
Lemma ajax_add_entry_success_table get r db j db1 e :
  ajax_add_entry get r db = (Ok (JsonResponse j), db1) ->
  success j = Some true ->
  form_entry r = Ok e ->
  db1 = (db ++ [TrackingEntry.with_id (next_id db) e])%list.
Proof.
  unfold ajax_add_entry, request_check.
  destruct (negb (is_ajax r)); [discriminate|].
  destruct (negb (truthy_id (session_user_id r))); [discriminate|].
  unfold json_response, ajax_add_entry_body.
  destruct (validate_time _ _) as [[|]|x].
  - unfold create_entry. fold (form_entry r). intros H Hj He.
    rewrite He in H. unfold save_new in H.
    destruct (existsb (same_key e) db).
    + cbn in H. injection H as <- _. discriminate.
    + destruct (calendar_for _ _ _ _); [|discriminate].
      now injection H as _ <-.
  - intros [= <- _]. discriminate.
  - destruct x; try discriminate. intros [= <- _]. discriminate.
Qed.

(** X12. Adding an entry and deleting it again gives the table back: the
    primary key the new entry's calendar cell hands out (the tenth value of
    the click handler), sent as [hidden-id] to [ajax_delete_entry] by a
    user that exists, removes that very row and no other. *)
Theorem delete_undoes_add :
  forall get r db j db1 e rd user,
    ajax_add_entry get r db = (Ok (JsonResponse j), db1) ->
    success j = Some true ->
    form_entry r = Ok e ->
    authenticated rd ->
    get (session_user rd) = Ok user ->
    POST_get "hidden-id" rd
    = Some (val (entry_vals (TrackingEntry.with_id (next_id db) e)
                   (day (TrackingEntry.entry_date e))) 9) ->
    snd (ajax_delete_entry get rd db1) = db.
Proof.
  intros get r db j db1 e rd user Hadd Hj He Hrd Hget Hid.
  rewrite (ajax_add_entry_success_table get r db j db1 e Hadd Hj He).
  change (val (entry_vals (TrackingEntry.with_id (next_id db) e)
                 (day (TrackingEntry.entry_date e))) 9)
    with (str_Z (next_id db)) in Hid.
  pose proof (next_id_positive db) as Hpos.
  rewrite ajax_delete_entry_table by assumption.
  rewrite Hid, truthy_string_str_Z by lia.
  unfold delete_entry. rewrite Hid, Hget. cbn [bind opt_pyval to_user_id].
  rewrite (proj1 (py_int_of_str_Z (next_id db))). cbn [bind not_null snd].
  apply delete_by_id_appended.
Qed.

Lemma delete_undoes_add_witness :
  snd (ajax_delete_entry Examples.users
         (mk_request true (Some 1)
            [("hidden-id", "1"); ("entry_date", "2012-01-05")] None)
         (snd (ajax_add_entry Examples.users Examples.add_workday [])))
  = [].
Proof.
  destruct (ajax_add_entry Examples.users Examples.add_workday [])
    as [[[j|s]|x] db1] eqn:E; try (vm_compute in E; discriminate).
  assert (Hj : success j = Some true)
    by (vm_compute in E; injection E as <- _; reflexivity).
  cbn [snd].
  apply (delete_undoes_add Examples.users Examples.add_workday [] j db1
           (TrackingEntry.mk 0 1 (mk_date 2012 1 5) (mk_time 9 0 0)
              (mk_time 17 0 0) (mk_time 0 15 0) "WKDAY")
           (mk_request true (Some 1)
              [("hidden-id", "1"); ("entry_date", "2012-01-05")] None)
           (Tbluser.mk 1 "aaron.france@hp.com" "aaron" "france" "AP"
              (mk_time 7 45 0) (mk_time 0 15 0) 20)
           E Hj eq_refl (conj eq_refl eq_refl) eq_refl eq_refl).
Defined.

(** The table after [save_with_id] went through: the row of the primary
    key is the new one, every other row is as before. *)
Lemma save_with_id_frame e db db1 :
  save_with_id e db = (Ok tt, db1) ->
  In e db1
  /\ forall row,
       TrackingEntry.id row <> TrackingEntry.id e ->
       (In row db1 <-> In row db).
Proof.
  unfold save_with_id.
  destruct (existsb (fun r => same_key e r && _) db); [discriminate|].
  destruct (existsb (fun r => (TrackingEntry.id r =? TrackingEntry.id e)%Z) db)
    eqn:Hex; intros [= <-].
  - apply existsb_exists in Hex. destruct Hex as (r0 & Hr0 & Hid0).
    unfold save_existing. split.
    + apply in_map_iff. exists r0. now rewrite Hid0.
    + intros row Hne. rewrite in_map_iff. split.
      * intros (r & Hr & Hin).
        destruct (TrackingEntry.id r =? TrackingEntry.id e)%Z;
          [now subst row | now subst r].
      * intros Hin. exists row. split; [|exact Hin].
        now rewrite (proj2 (Z.eqb_neq _ _) Hne).
  - split; [apply in_or_app; right; now left|].
    intros row Hne. rewrite in_app_iff. cbn [In]. split; [|tauto].
    intros [H | [-> | []]]; [exact H | now elim Hne].
Qed.

(** X13. What a successful [ajax_change_entry] leaves behind.  With a
    [hidden-id], the row of that primary key is the submitted entry, owned
    by the user of the session, and every row with another primary key is
    as it was before; without one nothing is written, and the answer is the
    calendar all the same. *)
Theorem ajax_change_entry_rewrites_one_row :
  forall get r db j db1,
    ajax_change_entry get r db = (Ok (JsonResponse j), db1) ->
    success j = Some true ->
    (truthy_string (POST_get "hidden-id" r) = false -> db1 = db)
    /\ (truthy_string (POST_get "hidden-id" r) = true ->
        exists user s i e0,
          get (session_user r) = Ok user
          /\ POST_get "hidden-id" r = Some s /\ py_int s = Ok i
          /\ TrackingEntry_new (PyInt (Tbluser.id user))
               (POST_get "entry_date" r) (POST_get "start_time" r)
               (POST_get "end_time" r) (POST_get "breaks" r)
               (POST_get "daytype" r) = Ok e0
          /\ In (TrackingEntry.with_id i e0) db1
          /\ TrackingEntry.user_id (TrackingEntry.with_id i e0)
             = Tbluser.id user
          /\ forall row,
               TrackingEntry.id row <> i -> (In row db1 <-> In row db)).
Proof.
  intros get r db j db1. unfold ajax_change_entry, request_check.
  destruct (negb (is_ajax r)); [discriminate|].
  destruct (negb (truthy_id (session_user_id r))); [discriminate|].
  unfold json_response, ajax_change_entry_body.
  destruct (validate_time _ _) as [[|]|x].
  - destruct (truthy_string (POST_get "hidden-id" r)) eqn:Ht.
    + destruct (change_entry get r db) as [[[]|x] db'] eqn:Ec.
      * destruct (calendar_for _ _ _ db') as [c|x]; [|discriminate].
        intros [= <- <-] _. split; [discriminate|]. intros _.
        unfold change_entry in Ec.
        destruct (get (session_user r)) as [user|x]; cbn [bind] in Ec;
          [|discriminate].
        destruct (POST_get "hidden-id" r) as [s|] eqn:Hs; [|discriminate].
        cbn [opt_pyval to_user_id] in Ec.
        destruct (py_int s) as [i|x] eqn:Hi; cbn [bind not_null] in Ec;
          [|discriminate].
        destruct (TrackingEntry_new _ _ _ _ _ _) as [e0|x] eqn:E0;
          cbn [bind] in Ec; [|discriminate].
        destruct (save_with_id_frame _ _ _ Ec) as [Hin Hframe].
        exists user, s, i, e0.
        split; [reflexivity|]. split; [reflexivity|]. split; [exact Hi|].
        split; [exact E0|]. split; [exact Hin|]. split.
        -- pose proof E0 as E1. apply TrackingEntry_new_fields in E1.
           destruct E1 as (u & d & s' & e' & b & t & Hu & _ & _ & _ & _ & _ & ->).
           cbn in Hu. injection Hu as <-. reflexivity.
        -- intros row Hne. now apply Hframe.
      * intros [= <- <-]. discriminate.
    + destruct (calendar_for _ _ _ db) as [c|x]; [|discriminate].
      intros [= <- <-] _. split; [reflexivity | discriminate].
  - intros [= <- <-]. discriminate.
  - destruct x; try discriminate. intros [= <- <-]. discriminate.
Qed.

Lemma ajax_change_entry_rewrites_one_row_witness :
  snd (ajax_change_entry Examples.users
         (mk_request true (Some 1)
            (("hidden-id", "1")
             :: Examples.form "2012-01-06" "10:00" "11:00" "HOLIS") None)
         [Examples.workday_row])
  = [TrackingEntry.mk 1 1 (mk_date 2012 1 6) (mk_time 10 0 0) (mk_time 11 0 0)
       (mk_time 0 15 0) "HOLIS"].
Proof.
  destruct (ajax_change_entry Examples.users
              (mk_request true (Some 1)
                 (("hidden-id", "1")
                  :: Examples.form "2012-01-06" "10:00" "11:00" "HOLIS") None)
              [Examples.workday_row])
    as [[[j|s]|x] db1] eqn:E; try (vm_compute in E; discriminate).
  assert (Hj : success j = Some true)
    by (vm_compute in E; injection E as <- _; reflexivity).
  destruct (ajax_change_entry_rewrites_one_row _ _ _ _ _ E Hj) as [_ H].
  destruct (H eq_refl) as (user & s & i & e0 & _ & _ & _ & _ & _ & _ & _).
  vm_compute in E. injection E as _ <-. reflexivity.
Defined.

(** ** Planning and clearing days with [mass_holidays] *)

Lemma delete_row_by_id e db : delete_row e db = delete_by_id (TrackingEntry.id e) db.
Proof. reflexivity. Qed.

Lemma with_daytype_same d row :
  TrackingEntry.daytype row = d -> TrackingEntry.with_daytype d row = row.
Proof. intros <-. now destruct row. Qed.

(** Setting the day-type of rows that have it already changes nothing. *)
Lemma set_daytype_of_same old d db :
  (forall row, In row db ->
               key_is (TrackingEntry.user_id old) (TrackingEntry.entry_date old) row
               = true ->
               TrackingEntry.daytype row = d) ->
  set_daytype_of old d db = db.
Proof.
  intros H. unfold set_daytype_of. rewrite <- (map_id db) at 2.
  apply map_ext_in. intros row Hrow.
  destruct (key_is _ _ row) eqn:E; [|reflexivity].
  now apply with_daytype_same, H.
Qed.

(** What [holiday_entry] builds and how the look-up of the same day reads
    its user and date. *)
Lemma holiday_entry_key year month user_id n daytype e :
  holiday_entry year month user_id n daytype = Ok e ->
  to_user_id (PyStr user_id) = Ok (Some (TrackingEntry.user_id e))
  /\ to_date (join "-" [year; month; str_Z n]) = Ok (TrackingEntry.entry_date e)
  /\ TrackingEntry.daytype e = daytype
  /\ valid_date (TrackingEntry.entry_date e).
Proof.
  unfold holiday_entry. intros H. apply TrackingEntry_new_ok in H.
  destruct H as (s & u & [= <-] & Hd & Hu & <- & [= Ht] & Hv).
  repeat split; trivial. now symmetry.
Qed.

Lemma objects_get_present user_id date db old :
  unique_entries db -> In old db ->
  to_user_id user_id = Ok (Some (TrackingEntry.user_id old)) ->
  to_date date = Ok (TrackingEntry.entry_date old) ->
  objects_get user_id date db = Ok old.
Proof.
  intros Hu Hin Hid Hd. unfold objects_get. rewrite Hid, Hd. cbn [bind].
  now rewrite (filter_key_unique db old Hu Hin).
Qed.

Lemma objects_get_absent user_id date db u d :
  to_user_id user_id = Ok (Some u) -> to_date date = Ok d ->
  ~ In (u, d) (map entry_key db) ->
  objects_get user_id date db = Raise DoesNotExist.
Proof.
  intros Hid Hd Hnot. unfold objects_get. rewrite Hid, Hd. cbn [bind].
  rewrite filter_none; [reflexivity|]. intros x Hx.
  destruct (key_is u d x) eqn:E; [|reflexivity].
  apply key_is_iff in E. exfalso. apply Hnot. rewrite <- E. now apply in_map.
Qed.

(** A day with a day-type to store, on a (user, date) that is free: the
    row is appended. *)
Lemma mass_holidays_entry_insert year month user_id json_data k daytype n e db :
  stored_daytype daytype -> py_int k = Ok n ->
  holiday_entry year month user_id n daytype = Ok e ->
  ~ In (entry_key e) (map entry_key db) ->
  mass_holidays_entry (Some year) (Some month) (Some user_id) json_data
    (k, daytype) db
  = (Ok None, (db ++ [TrackingEntry.with_id (next_id db) e])%list).
Proof.
  intros [Hne Hlen] Hn He Hfree. unfold mass_holidays_entry. cbn [fst snd].
  rewrite Hn, Hne, Hlen. cbn [orb].
  unfold create_entry. unfold holiday_entry in He. cbn [opt_pyval].
  rewrite He. rewrite save_new_fresh; [reflexivity|].
  destruct (existsb (same_key e) db) eqn:E; [|reflexivity].
  apply existsb_same_key in E. contradiction.
Qed.

(** The same day on a (user, date) that is taken by [old]: the day-type
    of [old] is set. *)
Lemma mass_holidays_entry_update year month user_id json_data k daytype n e db
    old :
  well_formed_table db ->
  stored_daytype daytype -> py_int k = Ok n ->
  holiday_entry year month user_id n daytype = Ok e ->
  In old db -> entry_key old = entry_key e ->
  mass_holidays_entry (Some year) (Some month) (Some user_id) json_data
    (k, daytype) db
  = (Ok None, set_daytype_of old daytype db).
Proof.
  intros Hdb [Hne Hlen] Hn He Hin Hk. unfold mass_holidays_entry.
  cbn [fst snd]. rewrite Hn, Hne, Hlen. cbn [orb].
  destruct (holiday_entry_key _ _ _ _ _ _ He) as (Hu & Hd & _ & _).
  unfold create_entry. unfold holiday_entry in He. cbn [opt_pyval].
  rewrite He.
  assert (Hdup : existsb (same_key e) db = true).
  { apply existsb_same_key. rewrite <- Hk. now apply in_map. }
  rewrite (save_new_duplicate e db Hdup), Z.eqb_refl.
  injection Hk as Hku Hkd.
  rewrite (objects_get_present (PyStr user_id) _ db old); trivial.
  - now rewrite save_existing_with_daytype.
  - now destruct Hdb.
  - now rewrite Hku.
  - now rewrite Hkd.
Qed.

(** A day to clear. *)
Lemma mass_holidays_entry_clear year month user_id json_data k marker n u d db :
  String.eqb marker "empty" || (String.length marker =? 0)%nat = true ->
  py_int k = Ok n ->
  to_user_id (PyStr user_id) = Ok (Some u) ->
  to_date (join "-" [year; month; str_Z n]) = Ok d ->
  (~ In (u, d) (map entry_key db) ->
   mass_holidays_entry (Some year) (Some month) (Some user_id) json_data
     (k, marker) db = (Ok None, db))
  /\ (forall old,
        unique_entries db -> In old db -> entry_key old = (u, d) ->
        mass_holidays_entry (Some year) (Some month) (Some user_id) json_data
          (k, marker) db
        = (Ok None, delete_by_id (TrackingEntry.id old) db)).
Proof.
  intros Hm Hn Hu Hd. unfold mass_holidays_entry. cbn [fst snd opt_pyval].
  rewrite Hn, Hm. split.
  - intros Hnot. now rewrite (objects_get_absent _ _ db u d Hu Hd Hnot).
  - intros old Huniq Hin [= Hku Hkd].
    rewrite (objects_get_present (PyStr user_id) _ db old); trivial.
    + now rewrite Hku.
    + now rewrite Hkd.
Qed.

(** X14. Planning a day with [mass_holidays] always ends with that
    day-type on that day.  For a request that passes the checks, whose year,
    month, user and day convert, on a well-formed table: the answer is
    success, afterwards the table is well formed and holds a row for that
    user and date with the planned day-type, whether the day was free or
    taken, and sending the same request again changes nothing. *)
Theorem mass_holidays_plans_the_day_and_is_idempotent :
  forall r db year month user_id k daytype n e,
    well_formed_table db ->
    authenticated r ->
    POST_get "year" r = Some year ->
    POST_get "month" r = Some month ->
    POST_get "user_id" r = Some user_id ->
    holiday_data r = Some [(k, daytype)] ->
    stored_daytype daytype ->
    py_int k = Ok n ->
    holiday_entry year month user_id n daytype = Ok e ->
    exists db1 stored,
      mass_holidays r db = (Ok planned, db1)
      /\ well_formed_table db1
      /\ In stored db1
      /\ entry_key stored = entry_key e
      /\ TrackingEntry.daytype stored = daytype
      /\ mass_holidays r db1 = (Ok planned, db1).
Proof.
  intros r db year month user_id k daytype n e Hdb Hr Hy Hm Hu Hdata Hst Hn He.
  assert (Hrun : forall t,
             mass_holidays r t
             = match mass_holidays_entry (Some year) (Some month) (Some user_id)
                       (mk_json (Some false) (Some EmptyString) None)
                       (k, daytype) t with
               | (Raise x, t') => (Raise x, t')
               | (Ok (Some j), t') => (Ok (JsonResponse j), t')
               | (Ok None, t') => (Ok planned, t')
               end).
  { intros t. unfold mass_holidays.
    rewrite request_check_authenticated, admin_check_authenticated
      by assumption.
    unfold json_response, mass_holidays_body.
    rewrite Hdata, Hy, Hm, Hu. cbn [mass_holidays_loop].
    now destruct (mass_holidays_entry _ _ _ _ _ t) as [[[j|]|x] t']. }
  pose proof (mass_holidays_well_formed r db Hdb) as Hwf1.
  destruct (holiday_entry_key _ _ _ _ _ _ He) as (_ & _ & Hdt & _).
  destruct (existsb (same_key e) db) eqn:Hdup.
  - (* the day is taken *)
    apply existsb_exists in Hdup. destruct Hdup as (old & Hin & Hk).
    apply same_key_iff in Hk. symmetry in Hk.
    assert (Hstep := mass_holidays_entry_update year month user_id
                       (mk_json (Some false) (Some EmptyString) None)
                       k daytype n e db old Hdb Hst Hn He Hin Hk).
    assert (Hone : mass_holidays r db = (Ok planned, set_daytype_of old daytype db))
      by (rewrite Hrun, Hstep; reflexivity).
    rewrite Hone in Hwf1. cbn [snd] in Hwf1.
    assert (Hin' : In (TrackingEntry.with_daytype daytype old)
                      (set_daytype_of old daytype db)).
    { unfold set_daytype_of. apply in_map_iff. exists old. split; [|exact Hin].
      now rewrite (proj2 (key_is_iff _ _ old) eq_refl). }
    exists (set_daytype_of old daytype db),
           (TrackingEntry.with_daytype daytype old).
    split; [exact Hone|]. split; [exact Hwf1|]. split; [exact Hin'|].
    split; [exact Hk|]. split; [reflexivity|].
    rewrite Hrun.
    rewrite (mass_holidays_entry_update year month user_id _ k daytype n e
               (set_daytype_of old daytype db)
               (TrackingEntry.with_daytype daytype old) Hwf1 Hst Hn He Hin' Hk).
    rewrite set_daytype_of_same; [reflexivity|].
    intros row Hrow Hkey. unfold set_daytype_of in Hrow.
    apply in_map_iff in Hrow. destruct Hrow as (row0 & <- & Hin0).
    cbn [TrackingEntry.with_daytype TrackingEntry.user_id
         TrackingEntry.entry_date] in Hkey.
    destruct (key_is (TrackingEntry.user_id old)
                (TrackingEntry.entry_date old) row0) eqn:E0;
      [reflexivity | congruence].
  - (* the day is free *)
    assert (Hfree : ~ In (entry_key e) (map entry_key db)).
    { intros H. apply existsb_same_key in H. congruence. }
    assert (Hstep := mass_holidays_entry_insert year month user_id
                       (mk_json (Some false) (Some EmptyString) None)
                       k daytype n e db Hst Hn He Hfree).
    set (stored := TrackingEntry.with_id (next_id db) e).
    assert (Hone : mass_holidays r db = (Ok planned, (db ++ [stored])%list))
      by (rewrite Hrun, Hstep; reflexivity).
    rewrite Hone in Hwf1. cbn [snd] in Hwf1.
    assert (Hin' : In stored (db ++ [stored])%list)
      by (apply in_or_app; right; now left).
    exists (db ++ [stored])%list, stored.
    split; [exact Hone|]. split; [exact Hwf1|]. split; [exact Hin'|].
    split; [reflexivity|]. split; [exact Hdt|].
    rewrite Hrun.
    rewrite (mass_holidays_entry_update year month user_id _ k daytype n e
               (db ++ [stored])%list stored Hwf1 Hst Hn He Hin' eq_refl).
    rewrite set_daytype_of_same; [reflexivity|].
    intros row Hrow Hkey. apply key_is_iff in Hkey.
    destruct Hwf1 as (Huniq & _).
    assert (row = stored) as ->.
    { apply (NoDup_map_injective entry_key (db ++ [stored])%list); trivial. }
    exact Hdt.
Qed.

Lemma mass_holidays_plans_the_day_and_is_idempotent_witness :
  exists db1,
    mass_holidays Examples.plan_holiday [Examples.workday_row]
    = (Ok planned, db1)
    /\ mass_holidays Examples.plan_holiday db1 = (Ok planned, db1).
Proof.
  assert (Hwf : well_formed_table [Examples.workday_row]).
  { repeat split; repeat constructor; intros []. }
  destruct (mass_holidays_plans_the_day_and_is_idempotent
              Examples.plan_holiday [Examples.workday_row]
              "2012" "1" "1" "5" "HOLIS" 5
              (TrackingEntry.mk 0 1 (mk_date 2012 1 5) (mk_time 0 0 0)
                 (mk_time 0 0 0) (mk_time 0 0 0) "HOLIS")
              Hwf (conj eq_refl eq_refl) eq_refl eq_refl eq_refl eq_refl
              (conj eq_refl eq_refl) eq_refl eq_refl)
    as (db1 & stored & H1 & _ & _ & _ & _ & H2).
  exists db1. split; assumption.
Defined.

(** A request with one day is one round of the loop. *)
Lemma mass_holidays_single r year month user_id entry t :
  authenticated r ->
  POST_get "year" r = Some year ->
  POST_get "month" r = Some month ->
  POST_get "user_id" r = Some user_id ->
  mass_holidays (with_holiday_data r [entry]) t
  = match mass_holidays_entry (Some year) (Some month) (Some user_id)
            (mk_json (Some false) (Some EmptyString) None) entry t with
    | (Raise x, t') => (Raise x, t')
    | (Ok (Some j), t') => (Ok (JsonResponse j), t')
    | (Ok None, t') => (Ok planned, t')
    end.
Proof.
  intros Hr Hy Hm Hu. unfold mass_holidays.
  assert (Hr' : authenticated (with_holiday_data r [entry])) by exact Hr.
  rewrite request_check_authenticated, admin_check_authenticated
    by assumption.
  unfold json_response, mass_holidays_body.
  change (holiday_data (with_holiday_data r [entry])) with (Some [entry]).
  change (POST_get "year" (with_holiday_data r [entry]))
    with (POST_get "year" r).
  change (POST_get "month" (with_holiday_data r [entry]))
    with (POST_get "month" r).
  change (POST_get "user_id" (with_holiday_data r [entry]))
    with (POST_get "user_id" r).
  rewrite Hy, Hm, Hu. cbn [mass_holidays_loop].
  now destruct (mass_holidays_entry _ _ _ _ _ t) as [[[j|]|x] t'].
Qed.

(** X15. Clearing a day with [mass_holidays] ("empty").  On a day that
    has no entry it succeeds and changes nothing; after the day was
    planned on a free (user, date), clearing it gives back the table as it
    was before the plan. *)
Theorem mass_holidays_clear_undoes_plan :
  forall r db year month user_id k daytype n e,
    well_formed_table db ->
    authenticated r ->
    POST_get "year" r = Some year ->
    POST_get "month" r = Some month ->
    POST_get "user_id" r = Some user_id ->
    stored_daytype daytype ->
    py_int k = Ok n ->
    holiday_entry year month user_id n daytype = Ok e ->
    ~ In (entry_key e) (map entry_key db) ->
    mass_holidays (with_holiday_data r [(k, "empty")]) db = (Ok planned, db)
    /\ mass_holidays (with_holiday_data r [(k, "empty")])
         (snd (mass_holidays (with_holiday_data r [(k, daytype)]) db))
       = (Ok planned, db).
Proof.
  intros r db year month user_id k daytype n e Hdb Hr Hy Hm Hu Hst Hn He Hfree.
  destruct (holiday_entry_key _ _ _ _ _ _ He) as (Hid & Hd & _ & Hv).
  destruct (mass_holidays_entry_clear year month user_id
              (mk_json (Some false) (Some EmptyString) None) k "empty" n
              (TrackingEntry.user_id e) (TrackingEntry.entry_date e) db
              eq_refl Hn Hid Hd) as [Habsent _].
  split.
  - rewrite (mass_holidays_single r year month user_id _ db Hr Hy Hm Hu).
    now rewrite (Habsent Hfree).
  - rewrite (mass_holidays_single r year month user_id (k, daytype) db
               Hr Hy Hm Hu).
    rewrite (mass_holidays_entry_insert year month user_id _ k daytype n e db
               Hst Hn He Hfree).
    cbn [snd]. set (stored := TrackingEntry.with_id (next_id db) e).
    rewrite (mass_holidays_single r year month user_id _ _ Hr Hy Hm Hu).
    destruct (mass_holidays_entry_clear year month user_id
                (mk_json (Some false) (Some EmptyString) None) k "empty" n
                (TrackingEntry.user_id e) (TrackingEntry.entry_date e)
                (db ++ [stored])%list eq_refl Hn Hid Hd) as [_ Hpresent].
    rewrite (Hpresent stored).
    + subst stored. cbn [TrackingEntry.id TrackingEntry.with_id].
      now rewrite delete_by_id_appended.
    + pose proof (save_new_well_formed e db Hdb Hv) as Hwf.
      rewrite save_new_fresh in Hwf.
      * now destruct Hwf.
      * destruct (existsb (same_key e) db) eqn:E; [|reflexivity].
        apply existsb_same_key in E. contradiction.
    + apply in_or_app. right. now left.
    + reflexivity.
Qed.

Lemma mass_holidays_clear_undoes_plan_witness :
  mass_holidays (with_holiday_data Examples.plan_holiday [("6", "empty")])
    (snd (mass_holidays
            (with_holiday_data Examples.plan_holiday [("6", "PUWRK")])
            [Examples.workday_row]))
  = (Ok planned, [Examples.workday_row]).
Proof.
  assert (Hwf : well_formed_table [Examples.workday_row]).
  { repeat split; repeat constructor; intros []. }
  apply (mass_holidays_clear_undoes_plan
           Examples.plan_holiday [Examples.workday_row]
           "2012" "1" "1" "6" "PUWRK" 6
           (TrackingEntry.mk 0 1 (mk_date 2012 1 6) (mk_time 0 0 0)
              (mk_time 0 0 0) (mk_time 0 0 0) "PUWRK")
           Hwf (conj eq_refl eq_refl) eq_refl eq_refl eq_refl
           (conj eq_refl eq_refl) eq_refl eq_refl).
  cbn. intros [H | []]. discriminate.
Defined.





Lemma pad_with_shape_witness :
  pad_with "teststring" "1" 20 = "1111111111teststring"
  /\ pad "teststring" = "teststring".
Proof.
  destruct (pad_with_shape "teststring" "1"%char 20) as (H1 & _ & _).
  destruct (pad_with_shape "teststring" "0"%char 2) as (_ & _ & H2).
  split; [rewrite H1; reflexivity | apply H2; cbn; lia].
Defined.

(** ** The rows of the reports *)

(** X17. The rows [ot_by_year] hands to the CSV writer fit its heading:
    every row, the row of the totals included, has the fourteen fields of
    the heading (name, team and the twelve months), and there is one row
    per subordinate and one for the totals.  The rows of the holiday report
    do not: its heading has fifteen fields, and each row handed to the
    writer has fourteen, the last one being the list of the days used and
    the balance. *)
Theorem report_rows_and_headings :
  forall get_total_balance subordinates year y db,
    List.length ot_by_year_heading = 14%nat
    /\ Forall (fun row => List.length row = List.length ot_by_year_heading)
              (ot_by_year get_total_balance subordinates year)
    /\ List.length (ot_by_year get_total_balance subordinates year)
       = S (List.length subordinates)
    /\ List.length holidays_heading = 15%nat
    /\ Forall (fun row =>
                 List.length row = 14%nat
                 /\ exists used balance,
                      nth 13 row (FieldStr EmptyString)
                      = FieldList [used; balance])
              (map (holidays_row y db) subordinates).
Proof.
  intros get_total_balance subordinates year y db.
  split; [reflexivity|]. split; [|split; [|split; [reflexivity|]]].
  - unfold ot_by_year. apply Forall_app. split.
    + apply Forall_map. apply Forall_forall. intros u _. reflexivity.
    + constructor; [reflexivity | constructor].
  - unfold ot_by_year. rewrite length_app, length_map. cbn. lia.
  - apply Forall_map. apply Forall_forall. intros u _.
    split; [reflexivity|]. do 2 eexists. reflexivity.
Qed.

Lemma count_holidays_cons u y m a db :
  count_holidays u y m (a :: db)
  = Z.b2z ((TrackingEntry.user_id a =? Tbluser.id u)%Z
           && (year (TrackingEntry.entry_date a) =? y)%Z
           && (month (TrackingEntry.entry_date a) =? m)%Z
           && String.eqb (TrackingEntry.daytype a) "HOLIS")
    + count_holidays u y m db.
Proof.
  unfold count_holidays. cbn [filter].
  destruct (_ && _)%bool; cbn [List.length Z.b2z]; lia.
Qed.

Lemma holidays_of_year_cons u y a db :
  holidays_of_year u y (a :: db)
  = Z.b2z ((TrackingEntry.user_id a =? Tbluser.id u)%Z
           && (year (TrackingEntry.entry_date a) =? y)%Z
           && String.eqb (TrackingEntry.daytype a) "HOLIS")
    + holidays_of_year u y db.
Proof.
  unfold holidays_of_year, entries_of_year. cbn [filter].
  destruct ((TrackingEntry.user_id a =? Tbluser.id u)%Z
            && (year (TrackingEntry.entry_date a) =? y)%Z)%bool;
    cbn [filter andb]; [|reflexivity].
  destruct (String.eqb (TrackingEntry.daytype a) "HOLIS");
    cbn [List.length Z.b2z]; lia.
Qed.

Lemma sum_of_months (c : Z -> Z) :
  fold_left Z.add (map c (zrange 1 12)) 0
  = c 1 + c 2 + c 3 + c 4 + c 5 + c 6 + c 7 + c 8 + c 9 + c 10 + c 11 + c 12.
Proof. reflexivity. Qed.

(** The months of a year split its holidays. *)
Lemma holidays_by_month u y db :
  Forall (fun e => valid_date (TrackingEntry.entry_date e)) db ->
  fold_left Z.add (map (fun m => count_holidays u y m db) (zrange 1 12)) 0
  = holidays_of_year u y db.
Proof.
  rewrite sum_of_months. induction 1 as [|a db Ha Hdb IH].
  - reflexivity.
  - rewrite !count_holidays_cons, holidays_of_year_cons, <- IH.
    apply valid_date_bounds in Ha. destruct Ha as (_ & Hm & _).
    destruct ((TrackingEntry.user_id a =? Tbluser.id u)%Z);
      destruct ((year (TrackingEntry.entry_date a) =? y)%Z);
      destruct (String.eqb (TrackingEntry.daytype a) "HOLIS");
      cbn [andb Z.b2z]; rewrite ?andb_false_r; cbn [Z.b2z]; try lia.
    rewrite !andb_true_r.
    assert (Hcases : month (TrackingEntry.entry_date a) = 1
                     \/ month (TrackingEntry.entry_date a) = 2
                     \/ month (TrackingEntry.entry_date a) = 3
                     \/ month (TrackingEntry.entry_date a) = 4
                     \/ month (TrackingEntry.entry_date a) = 5
                     \/ month (TrackingEntry.entry_date a) = 6
                     \/ month (TrackingEntry.entry_date a) = 7
                     \/ month (TrackingEntry.entry_date a) = 8
                     \/ month (TrackingEntry.entry_date a) = 9
                     \/ month (TrackingEntry.entry_date a) = 10
                     \/ month (TrackingEntry.entry_date a) = 11
                     \/ month (TrackingEntry.entry_date a) = 12) by lia.
    repeat (destruct Hcases as [H | Hcases];
            [rewrite H; cbn [Z.eqb Pos.eqb Z.b2z]; lia|]).
    rewrite Hcases. cbn [Z.eqb Pos.eqb Z.b2z]. lia.
Qed.

(** X18. In the holiday report, on a table whose dates are dates of the
    calendar, the figure of the days used that closes the row of a user is
    the number of that user's HOLIS entries in the year: the twelve monthly
    counts of the row add up to it, no entry is counted twice or left out.
    There is one row per subordinate, in their order, each starting with
    the user's name.  A request without a year is turned away with
    [Http404]. *)
Theorem holidays_used_is_the_count_of_the_year :
  forall subordinates year_ db,
    (truthy_string year_ = false ->
     holidays_for_yearmonth subordinates year_ db = Raise Http404)
    /\ (forall s y,
          year_ = Some s -> truthy_string year_ = true -> py_int s = Ok y ->
          Forall (fun e => valid_date (TrackingEntry.entry_date e)) db ->
          exists rows,
            holidays_for_yearmonth subordinates year_ db = Ok rows
            /\ Forall2
                 (fun user row =>
                    nth 0 row (FieldInt 0) = FieldStr (Tbluser.name user)
                    /\ nth 13 row (FieldInt 0)
                       = FieldList [str_Z (holidays_of_year user y db);
                                    str_Z (Tbluser.holiday_balance user)])
                 subordinates rows).
Proof.
  intros subordinates year_ db. unfold holidays_for_yearmonth. split.
  - intros ->. reflexivity.
  - intros s y -> Ht Hy Hdb. rewrite Ht. cbn [negb opt_pyval to_user_id].
    rewrite Hy. cbn [bind].
    exists (map (holidays_row y db) subordinates). split.
    + apply mapM_ok_map. intros user _. reflexivity.
    + induction subordinates as [|user l IH]; cbn [map]; constructor;
        [|exact IH].
      split; [reflexivity|]. unfold holidays_row.
      rewrite (holidays_by_month user y db Hdb). reflexivity.
Qed.

Lemma holidays_used_is_the_count_of_the_year_witness :
  exists rows,
    holidays_for_yearmonth [Tests.linked_user] (Some "2012")
      (Tests.save_days Tests.mix []) = Ok rows
    /\ Forall2
         (fun user row =>
            nth 0 row (FieldInt 0) = FieldStr (Tbluser.name user)
            /\ nth 13 row (FieldInt 0)
               = FieldList
                   [str_Z (holidays_of_year user 2012
                             (Tests.save_days Tests.mix []));
                    str_Z (Tbluser.holiday_balance user)])
         [Tests.linked_user] rows.
Proof.
  destruct (holidays_used_is_the_count_of_the_year
              [Tests.linked_user] (Some "2012") (Tests.save_days Tests.mix []))
    as [_ H].
  apply (H "2012" 2012 eq_refl eq_refl eq_refl).
  repeat constructor.
Defined.
